(** * Budget tracker: the ledger engine of [budget_tracker.py]

    A shallow embedding of the [BudgetDB] class and of the interactive
    flows that call it, with the properties of the ledger stated over
    that embedding.

    Conventions of the embedding.
    - A Python [str] and an SQLite TEXT value are a [string]: the bytes
      of its UTF-8 encoding.  SQLite compares TEXT with the BINARY
      collation, which is the byte-wise lexicographic order
      [String.compare]; [str.strip()] removes the white space of Unicode,
      recognised here by its UTF-8 bytes.
    - A Python [int] and an SQLite INTEGER are a [Z] (within 64 bits).
    - A Python [float] and an SQLite REAL are an IEEE-754 binary64 value,
      [spec_float].  SQLite binds a NaN as NULL.
    - A table is the list of its rows in rowid order; the rowid of a table
      declared AUTOINCREMENT is never reused.
    - The connection has [PRAGMA foreign_keys = ON], as [__init__] sets it
      before anything else, so the foreign key of [transactions] is
      enforced on insertion and its [ON DELETE SET NULL] action runs. *)

From Stdlib Require Import List ZArith Lia Bool Ascii String.
From Stdlib Require Import Sorting.Sorted Sorting.Permutation.
From Stdlib Require Import Floats.SpecFloat DecimalString.
Import ListNotations.

Local Open Scope string_scope.
Local Open Scope list_scope.
Local Open Scope Z_scope.

(** ** Python built-ins used by the program *)

Module Py.

(** [float]: binary64. *)
Definition float := spec_float.

Definition float_zero : float := S754_zero false.

(** [x >= 0] on a float ([0] is converted to [0.0]); false on NaN. *)
Definition float_ge0 (x : float) : bool := SFleb float_zero x.

(** [abs(x)]. *)
Definition float_abs (x : float) : float := SFabs x.

Definition is_nan (x : float) : bool :=
  match x with S754_nan => true | _ => false end.

(** [str(n)] for an [int]. *)
Definition str_int (n : Z) : string := NilZero.string_of_int (Z.to_int n).

Fixpoint zeros (n : nat) : string :=
  match n with O => EmptyString | S k => String "0" (zeros k) end.

(** [s.zfill]-like left padding with zeros up to [width]. *)
Definition pad0 (width : nat) (s : string) : string :=
  (zeros (width - String.length s) ++ s)%string.

(** The format spec [0Wd]: sign first, then zeros up to the width
    (the sign counts in the width). *)
Definition format_0d (width : nat) (n : Z) : string :=
  if n <? 0 then String "-" (pad0 (width - 1)%nat (str_int (- n)))
  else pad0 width (str_int n).

(** The characters [str.isspace] holds for, which [str.strip()] removes,
    as their UTF-8 bytes: U+0009 to U+000D, U+001C to U+0020 (one byte);
    U+0085 and U+00A0 (two bytes); U+1680, U+2000 to U+200A, U+2028,
    U+2029, U+202F, U+205F and U+3000 (three bytes). *)
Definition spaces1 : list ascii :=
  map ascii_of_nat [9; 10; 11; 12; 13; 28; 29; 30; 31; 32]%nat.

Definition spaces2 : list (ascii * ascii) :=
  map (fun p => (ascii_of_nat (fst p), ascii_of_nat (snd p)))
      [(194, 133); (194, 160)]%nat.

Definition spaces3 : list (ascii * ascii * ascii) :=
  map (fun p => (ascii_of_nat (fst (fst p)), ascii_of_nat (snd (fst p)),
                 ascii_of_nat (snd p)))
      [ (225, 154, 128);
        (226, 128, 128); (226, 128, 129); (226, 128, 130); (226, 128, 131);
        (226, 128, 132); (226, 128, 133); (226, 128, 134); (226, 128, 135);
        (226, 128, 136); (226, 128, 137); (226, 128, 138);
        (226, 128, 168); (226, 128, 169); (226, 128, 175);
        (226, 129, 159);
        (227, 128, 128) ]%nat.

Definition bytes1 (a : ascii) : string := String a EmptyString.
Definition bytes2 (p : ascii * ascii) : string :=
  String (fst p) (String (snd p) EmptyString).
Definition bytes3 (p : ascii * ascii * ascii) : string :=
  String (fst (fst p)) (String (snd (fst p)) (String (snd p) EmptyString)).

(** The white-space characters, each as the string of its bytes. *)
Definition space_chars : list string :=
  map bytes1 spaces1 ++ map bytes2 spaces2 ++ map bytes3 spaces3.

Definition space1 (a : ascii) : bool := existsb (Ascii.eqb a) spaces1.

Definition space2 (a b : ascii) : bool :=
  existsb (fun p => Ascii.eqb a (fst p) && Ascii.eqb b (snd p)) spaces2.

Definition space3 (a b c : ascii) : bool :=
  existsb (fun p => Ascii.eqb a (fst (fst p)) && Ascii.eqb b (snd (fst p))
                    && Ascii.eqb c (snd p)) spaces3.

(** The text after the white-space character [s] starts with, if it
    starts with one. *)
Definition skip_space (s : string) : option string :=
  match s with
  | EmptyString => None
  | String a r1 =>
      if space1 a then Some r1
      else match r1 with
           | EmptyString => None
           | String b r2 =>
               if space2 a b then Some r2
               else match r2 with
                    | EmptyString => None
                    | String c r3 => if space3 a b c then Some r3 else None
                    end
           end
  end.

(** [s.lstrip()]: the leading white-space characters are dropped. *)
Fixpoint lstrip (s : string) : string :=
  match s with
  | EmptyString => EmptyString
  | String a r1 =>
      if space1 a then lstrip r1
      else match r1 with
           | EmptyString => s
           | String b r2 =>
               if space2 a b then lstrip r2
               else match r2 with
                    | EmptyString => s
                    | String c r3 => if space3 a b c then lstrip r3 else s
                    end
           end
  end.

(** The string is made of white-space characters only (the empty string
    included). *)
Fixpoint blank (s : string) : bool :=
  match s with
  | EmptyString => true
  | String a r1 =>
      if space1 a then blank r1
      else match r1 with
           | EmptyString => false
           | String b r2 =>
               if space2 a b then blank r2
               else match r2 with
                    | EmptyString => false
                    | String c r3 => if space3 a b c then blank r3 else false
                    end
           end
  end.

(** [s.rstrip()]: the text is kept up to the point from which only white
    space follows. *)
Fixpoint rstrip (s : string) : string :=
  match s with
  | EmptyString => EmptyString
  | String c r => if blank s then EmptyString else String c (rstrip r)
  end.

(** [s.strip()] *)
Definition strip (s : string) : string := rstrip (lstrip s).

(** Truth value of a [str]: false exactly for the empty one. *)
Definition truthy_str (s : string) : bool :=
  match s with EmptyString => false | _ => true end.

(** Truth value of an [Optional[int]]: false for [None] and for [0]. *)
Definition truthy_opt_int (o : option Z) : bool :=
  match o with None => false | Some n => negb (n =? 0) end.

(** Truth value of an [Optional[str]]: false for [None] and for the
    empty string. *)
Definition truthy_opt_str (o : option string) : bool :=
  match o with None => false | Some s => truthy_str s end.

End Py.

(** ** The SQLite store *)

(** *** Table definitions, as [sqlite_master] keeps them *)

Inductive affinity := INTEGER | TEXT | REAL.

Inductive fk_action := SetNull | NoAction.

Inductive col_constraint :=
| PrimaryKeyAutoincrement
| Unique
| NotNull
| CheckIn (allowed : list string)
| References (table column : string) (on_delete : fk_action).

Record column := mkColumn {
  col_name : string;
  col_affinity : affinity;
  col_constraints : list col_constraint
}.

Definition table_def := list column.

(** The two CREATE TABLE statements of [_initialize_schema]. *)
Definition categories_def : table_def :=
  [ mkColumn "id" INTEGER [PrimaryKeyAutoincrement];
    mkColumn "name" TEXT [Unique; NotNull] ].

Definition transactions_def : table_def :=
  [ mkColumn "id" INTEGER [PrimaryKeyAutoincrement];
    mkColumn "date" TEXT [NotNull];
    mkColumn "amount" REAL [NotNull];
    mkColumn "description" TEXT [];
    mkColumn "category_id" INTEGER [References "categories" "id" SetNull];
    mkColumn "type" TEXT [NotNull; CheckIn ["income"; "expense"]] ].

(** *** Rows *)

Record category := mkCategory {
  cat_id : Z;
  cat_name : string
}.

Record txn := mkTxn {
  txn_id : Z;
  txn_date : string;
  txn_amount : Py.float;
  txn_description : string;
  txn_category_id : option Z;
  txn_type : string
}.

(** *** The database file seen through the connection *)

Record database := mkDatabase {
  schema : list (string * table_def);
  categories : list category;
  categories_seq : Z;          (* sqlite_sequence row of categories *)
  transactions : list txn;
  transactions_seq : Z         (* sqlite_sequence row of transactions *)
}.

(** A new, empty database file. *)
Definition empty_database : database := mkDatabase [] [] 0 [] 0.

Definition table_exists (name : string) (sch : list (string * table_def)) : bool :=
  existsb (fun e => String.eqb (fst e) name) sch.

Definition lookup_table (name : string) (sch : list (string * table_def))
  : option table_def :=
  option_map snd (find (fun e => String.eqb (fst e) name) sch).

(** [CREATE TABLE IF NOT EXISTS name (...)]: nothing happens when a table
    of that name is there, whatever its definition. *)
Definition create_table_if_not_exists (name : string) (def : table_def)
    (sch : list (string * table_def)) : list (string * table_def) :=
  if table_exists name sch then sch else sch ++ [(name, def)].

(** *** Pieces of SQL evaluation *)

(** Exceptions of the [sqlite3] module that the statements can raise. *)
Inductive constraint_failure :=
| NotNullFailed | CheckFailed | UniqueFailed | ForeignKeyFailed.

Inductive exn :=
| IntegrityError (why : constraint_failure).

Inductive result (A : Type) :=
| Ok (a : A)
| Raise (e : exn).
Arguments Ok {A} a.
Arguments Raise {A} e.

(** [ORDER BY]: insertion sort under a boolean order. *)
Fixpoint insert_by {A : Type} (le : A -> A -> bool) (x : A) (l : list A) : list A :=
  match l with
  | [] => [x]
  | y :: r => if le x y then x :: l else y :: insert_by le x r
  end.

Definition sort_by {A : Type} (le : A -> A -> bool) (l : list A) : list A :=
  fold_right (insert_by le) [] l.

(** The rowid given to a new row of an AUTOINCREMENT table: one more than
    the largest rowid the table has ever held. *)
Definition max_rowid (ids : list Z) : Z := fold_right Z.max 0 ids.

Definition next_rowid (seq : Z) (ids : list Z) : Z := Z.max seq (max_rowid ids) + 1.

(** A value bound to a REAL NOT NULL column: a NaN is bound as NULL. *)
Definition bind_real_not_null (x : Py.float) : bool := negb (Py.is_nan x).

(** [c.name] of the LEFT JOIN: the name of the category a transaction
    refers to, NULL when it refers to none ([id] is the primary key, so
    at most one row matches). *)
Definition find_category (cats : list category) (cid : Z) : option category :=
  find (fun c => cat_id c =? cid) cats.

Definition joined_name (cats : list category) (t : txn) : option string :=
  match txn_category_id t with
  | None => None
  | Some cid => option_map cat_name (find_category cats cid)
  end.

(** Equality of two nullable TEXT keys for GROUP BY: NULLs form one
    group. *)
Definition key_eqb (a b : option string) : bool :=
  match a, b with
  | None, None => true
  | Some x, Some y => String.eqb x y
  | _, _ => false
  end.

(** Order of the group keys: NULL first, then BINARY order. *)
Definition key_leb (a b : option string) : bool :=
  match a, b with
  | None, _ => true
  | Some _, None => false
  | Some x, Some y => String.leb x y
  end.

Fixpoint dedup_keys (l : list (option string)) : list (option string) :=
  match l with
  | [] => []
  | k :: r => if existsb (key_eqb k) r then dedup_keys r else k :: dedup_keys r
  end.

(** An SQL number: the aggregate [SUM] yields an INTEGER when every term
    is one, a REAL otherwise. *)
Inductive sqlnum :=
| SqlInt (n : Z)
| SqlReal (x : Py.float).

Definition is_int (v : sqlnum) : bool :=
  match v with SqlInt _ => true | SqlReal _ => false end.

Definition int_of (v : sqlnum) : Z :=
  match v with SqlInt n => n | SqlReal _ => 0 end.

(** *** The [csv] writer (dialect [excel], as [csv.writer(csvfile)] is) *)

Module Csv.

Inductive cell :=
| CellInt (n : Z)
| CellStr (s : string)
| CellFloat (x : Py.float)
| CellNone.

Definition quotechar : ascii := ascii_of_nat 34.
Definition delimiter : ascii := ","%char.
Definition cr : ascii := ascii_of_nat 13.
Definition lf : ascii := ascii_of_nat 10.
Definition lineterminator : string := String cr (String lf EmptyString).

(** QUOTE_MINIMAL: a field is quoted when it holds the delimiter, the
    quote character or a character of the line terminator. *)
Definition special (c : ascii) : bool :=
  Ascii.eqb c delimiter || Ascii.eqb c quotechar
  || Ascii.eqb c cr || Ascii.eqb c lf.

Fixpoint needs_quote (s : string) : bool :=
  match s with
  | EmptyString => false
  | String c r => special c || needs_quote r
  end.

(** [doublequote]: a quote character inside a field is written twice. *)
Fixpoint escape (s : string) : string :=
  match s with
  | EmptyString => EmptyString
  | String c r =>
      if Ascii.eqb c quotechar then String c (String c (escape r))
      else String c (escape r)
  end.

Definition field (s : string) : string :=
  if needs_quote s
  then String quotechar (escape s ++ String quotechar EmptyString)%string
  else s.

Fixpoint join_fields (fs : list string) : string :=
  match fs with
  | [] => EmptyString
  | [f] => f
  | f :: r => (f ++ String delimiter (join_fields r))%string
  end.

Section Writer.
(** [repr] of a float, which the writer uses for a float cell. *)
Variable float_repr : Py.float -> string.

Definition cell_text (c : cell) : string :=
  match c with
  | CellInt n => Py.str_int n
  | CellStr s => s
  | CellFloat x => float_repr x
  | CellNone => EmptyString
  end.

(** [writer.writerow(row)]: the text appended to the file. *)
Definition writerow (row : list cell) : string :=
  (join_fields (map (fun c => field (cell_text c)) row) ++ lineterminator)%string.

(** [writer.writerows(rows)]. *)
Definition writerows (rows : list (list cell)) : string :=
  fold_right (fun row rest => (writerow row ++ rest)%string) EmptyString rows.
End Writer.

End Csv.

(** Files written by the program: path to content. *)
Definition files := string -> option string.

Definition write_file (fs : files) (path content : string) : files :=
  fun p => if String.eqb p path then Some content else fs p.

(** ** The class [BudgetDB] *)

Module BudgetDB.

(** [BudgetDB._initialize_schema] *)
Definition _initialize_schema (db : database) : database :=
  let sch1 := create_table_if_not_exists "categories" categories_def (schema db) in
  let sch2 := create_table_if_not_exists "transactions" transactions_def sch1 in
  mkDatabase sch2 (categories db) (categories_seq db)
             (transactions db) (transactions_seq db).

(** [BudgetDB.__init__]: connect, switch foreign keys on, make sure the
    tables exist. *)
Definition __init__ (file : database) : database := _initialize_schema file.

(** [BudgetDB.add_category]: INSERT of the stripped name; the UNIQUE
    constraint on [name] raises [IntegrityError], and nothing is
    written then. *)
Definition add_category (db : database) (name : string) : database * result Z :=
  let n := Py.strip name in
  if existsb (fun c => String.eqb (cat_name c) n) (categories db)
  then (db, Raise (IntegrityError UniqueFailed))
  else
    let id := next_rowid (categories_seq db) (map cat_id (categories db)) in
    (mkDatabase (schema db) (categories db ++ [mkCategory id n]) id
                (transactions db) (transactions_seq db),
     Ok id).

(** ON DELETE SET NULL for one deleted parent key. *)
Definition set_null (cid : Z) (t : txn) : txn :=
  match txn_category_id t with
  | Some c => if c =? cid
              then mkTxn (txn_id t) (txn_date t) (txn_amount t)
                         (txn_description t) None (txn_type t)
              else t
  | None => t
  end.

(** [BudgetDB.delete_category]: the result is [cur.rowcount > 0]. *)
Definition delete_category (db : database) (category_id : Z) : database * bool :=
  let deleted := filter (fun c => cat_id c =? category_id) (categories db) in
  let kept := filter (fun c => negb (cat_id c =? category_id)) (categories db) in
  let txns := match deleted with
              | [] => transactions db
              | _ :: _ => map (set_null category_id) (transactions db)
              end in
  (mkDatabase (schema db) kept (categories_seq db) txns (transactions_seq db),
   (0 <? Z.of_nat (List.length deleted))).

(** [BudgetDB.list_categories]: ORDER BY name. *)
Definition list_categories (db : database) : list category :=
  sort_by (fun a b => String.leb (cat_name a) (cat_name b)) (categories db).

(** [BudgetDB.add_transaction]: the row is checked against NOT NULL on
    [amount], the CHECK on [type] and the foreign key on [category_id];
    the date is stored as given. *)
Definition add_transaction (db : database) (date : string) (amount : Py.float)
    (description : string) (category_id : option Z) (txn_type : string)
  : database * result Z :=
  if negb (bind_real_not_null amount)
  then (db, Raise (IntegrityError NotNullFailed))
  else if negb (String.eqb txn_type "income" || String.eqb txn_type "expense")
  then (db, Raise (IntegrityError CheckFailed))
  else if match category_id with
          | None => false
          | Some cid => negb (existsb (fun c => cat_id c =? cid) (categories db))
          end
  then (db, Raise (IntegrityError ForeignKeyFailed))
  else
    let id := next_rowid (transactions_seq db) (map txn_id (transactions db)) in
    (mkDatabase (schema db) (categories db) (categories_seq db)
                (transactions db
                 ++ [mkTxn id date amount (Py.strip description) category_id txn_type])
                id,
     Ok id).

(** [BudgetDB.delete_transaction] *)
Definition delete_transaction (db : database) (txn_id' : Z) : database * bool :=
  let deleted := filter (fun t => txn_id t =? txn_id') (transactions db) in
  let kept := filter (fun t => negb (txn_id t =? txn_id')) (transactions db) in
  (mkDatabase (schema db) (categories db) (categories_seq db) kept (transactions_seq db),
   (0 <? Z.of_nat (List.length deleted))).

(** The WHERE clause [list_transactions] builds: a clause is appended
    only for an argument that is true as a Python condition. *)
Definition where_clause (category_id : option Z) (start_date end_date : option string)
    (t : txn) : bool :=
  (if Py.truthy_opt_int category_id
   then match category_id, txn_category_id t with
        | Some c, Some c' => c' =? c
        | _, _ => false
        end
   else true)
  && (if Py.truthy_opt_str start_date
      then match start_date with
           | Some s => String.leb s (txn_date t)
           | None => false
           end
      else true)
  && (if Py.truthy_opt_str end_date
      then match end_date with
           | Some e => String.leb (txn_date t) e
           | None => false
           end
      else true).

(** [ORDER BY date DESC, id DESC]: [a] comes no later than [b]. *)
Definition recent_first (a b : txn) : bool :=
  match String.compare (txn_date a) (txn_date b) with
  | Gt => true
  | Lt => false
  | Eq => txn_id b <=? txn_id a
  end.

(** [BudgetDB.list_transactions] *)
Definition list_transactions (db : database) (category_id : option Z)
    (start_date end_date : option string) : list txn :=
  sort_by recent_first
    (filter (where_clause category_id start_date end_date) (transactions db)).

(** The two bounds [start], [end] of [monthly_summary]. *)
Definition month_bounds (year month : Z) : string * string :=
  let start := (Py.format_0d 4 year ++ "-" ++ Py.format_0d 2 month ++ "-01")%string in
  let '(end_year, end_month) :=
    if month =? 12 then (year + 1, 1) else (year, month + 1) in
  let end_ := (Py.format_0d 4 end_year ++ "-" ++ Py.format_0d 2 end_month ++ "-01")%string in
  (start, end_).

(** [WHERE t.date >= ? AND t.date < ?] *)
Definition in_month (year month : Z) (t : txn) : bool :=
  let '(start, end_) := month_bounds year month in
  String.leb start (txn_date t) && String.ltb (txn_date t) end_.

(** [CASE WHEN t.type = ty THEN t.amount ELSE 0 END] *)
Definition case_amount (ty : string) (t : txn) : sqlnum :=
  if String.eqb (txn_type t) ty then SqlReal (txn_amount t) else SqlInt 0.

Section Report.
(** The floating-point accumulation of [SUM] over terms of which one
    at least is a REAL (the engine's own summation). *)
Variable real_sum : list sqlnum -> Py.float.

Definition sql_sum (terms : list sqlnum) : sqlnum :=
  if forallb is_int terms
  then SqlInt (fold_right Z.add 0 (map int_of terms))
  else SqlReal (real_sum terms).

(** The rows of one group of [GROUP BY c.name]. *)
Definition group_rows (cats : list category) (k : option string) (rows : list txn)
  : list txn :=
  filter (fun t => key_eqb (joined_name cats t) k) rows.

(** [BudgetDB.monthly_summary]: one row per group, groups in key
    order. *)
Definition monthly_summary (db : database) (year month : Z)
  : list (option string * sqlnum * sqlnum) :=
  let rows := filter (in_month year month) (transactions db) in
  let keys := sort_by key_leb (dedup_keys (map (joined_name (categories db)) rows)) in
  map (fun k =>
         let g := group_rows (categories db) k rows in
         (k, sql_sum (map (case_amount "income") g),
             sql_sum (map (case_amount "expense") g)))
      keys.
End Report.

(** The tuple [fetchall] returns for a transaction, as cells for the
    writer. *)
Definition row_cells (t : txn) : list Csv.cell :=
  [ Csv.CellInt (txn_id t); Csv.CellStr (txn_date t); Csv.CellFloat (txn_amount t);
    Csv.CellStr (txn_description t);
    match txn_category_id t with Some c => Csv.CellInt c | None => Csv.CellNone end;
    Csv.CellStr (txn_type t) ].

Definition csv_header : list Csv.cell :=
  [ Csv.CellStr "ID"; Csv.CellStr "Date"; Csv.CellStr "Amount";
    Csv.CellStr "Description"; Csv.CellStr "CategoryID"; Csv.CellStr "Type" ].

Section Exporter.
Variable float_repr : Py.float -> string.

(** [BudgetDB.export_to_csv]: the file is opened for writing (and so
    truncated), then the header and the rows are written. *)
Definition export_to_csv (db : database) (fs : files) (filename : string)
    (category_id : option Z) (start_date end_date : option string) : files :=
  let rows := list_transactions db category_id start_date end_date in
  write_file fs filename
    (Csv.writerow float_repr csv_header
     ++ Csv.writerows float_repr (map row_cells rows))%string.
End Exporter.

End BudgetDB.

(** ** Calendar dates *)

Module Date.

Definition is_leap (y : Z) : bool :=
  (y mod 4 =? 0) && (negb (y mod 100 =? 0) || (y mod 400 =? 0)).

Definition days_in_month (y m : Z) : Z :=
  if m =? 2 then (if is_leap y then 29 else 28)
  else if (m =? 4) || (m =? 6) || (m =? 9) || (m =? 11) then 30
  else 31.

(** What [datetime.date(y, m, d)] accepts. *)
Definition valid (y m d : Z) : bool :=
  (1 <=? y) && (y <=? 9999) && (1 <=? m) && (m <=? 12)
  && (1 <=? d) && (d <=? days_in_month y m).

(** [date.isoformat()] *)
Definition isoformat (y m d : Z) : string :=
  (Py.format_0d 4 y ++ "-" ++ Py.format_0d 2 m ++ "-" ++ Py.format_0d 2 d)%string.

Definition digit (c : ascii) : option Z :=
  let n := Z.of_nat (nat_of_ascii c) in
  if (48 <=? n) && (n <=? 57) then Some (n - 48) else None.

(** [%m]: [1[0-2]|0[1-9]|[1-9]], followed by the [-] of the format. *)
Definition month_then_dash (s : string) : option (Z * string) :=
  let two :=
    match s with
    | String a (String b (String "-" r)) =>
        match digit a, digit b with
        | Some 1, Some y => if y <=? 2 then Some (10 + y, r) else None
        | Some 0, Some y => if 1 <=? y then Some (y, r) else None
        | _, _ => None
        end
    | _ => None
    end in
  match two with
  | Some res => Some res
  | None =>
      match s with
      | String a (String "-" r) =>
          match digit a with
          | Some x => if 1 <=? x then Some (x, r) else None
          | None => None
          end
      | _ => None
      end
  end.

(** [%d]: [3[0-1]|[1-2]\d|0[1-9]|[1-9]| [1-9]], which has to reach the
    end of the string. *)
Definition day_then_end (s : string) : option Z :=
  match s with
  | String a (String b EmptyString) =>
      match digit a, digit b with
      | Some 3, Some y => if y <=? 1 then Some (30 + y) else None
      | Some 1, Some y => Some (10 + y)
      | Some 2, Some y => Some (20 + y)
      | Some 0, Some y => if 1 <=? y then Some y else None
      | None, Some y =>
          if Ascii.eqb a " " && (1 <=? y) then Some y else None
      | _, _ => None
      end
  | String a EmptyString =>
      match digit a with
      | Some x => if 1 <=? x then Some x else None
      | None => None
      end
  | _ => None
  end.

(** [datetime.strptime(s, "%Y-%m-%d")] on a string of ASCII characters,
    [None] standing for [ValueError]: four digits, a month, a day, no
    text left over, and a date the calendar has. *)
Definition strptime_ymd (s : string) : option (Z * Z * Z) :=
  match s with
  | String y1 (String y2 (String y3 (String y4 (String "-" r)))) =>
      match digit y1, digit y2, digit y3, digit y4 with
      | Some a, Some b, Some c, Some d =>
          let y := 1000 * a + 100 * b + 10 * c + d in
          match month_then_dash r with
          | Some (m, r') =>
              match day_then_end r' with
              | Some dd => if valid y m dd then Some (y, m, dd) else None
              | None => None
              end
          | None => None
          end
      | _, _, _, _ => None
      end
  | _ => None
  end.

End Date.

(** ** The interactive flows *)

(** What a flow reports on the terminal before it returns. *)
Inductive rejection :=
| EmptyName            (* Category name cannot be empty. *)
| DuplicateCategory    (* Category ... already exists. *)
| InvalidId            (* Invalid ID. *)
| NotFound             (* ... not found. *)
| InvalidDate          (* Invalid date format. Use YYYY-MM-DD. *)
| AmountNotANumber     (* Amount must be a number. *)
| InvalidCategoryId.   (* Invalid category ID. Transaction not saved. *)

Inductive outcome :=
| Done (id : Z)                (* the flow reports success for this id *)
| Rejected (why : rejection)   (* the flow prints the reason and returns *)
| Uncaught (e : exn).          (* an exception leaves the flow *)

(** The lines typed at the prompts of [add_transaction_flow], in order. *)
Record txn_lines := mkTxnLines {
  line_date : string;
  line_amount : string;
  line_description : string;
  line_category : string
}.

(** A round of the menu loop that can change the store, with the lines
    typed in it. *)
Inductive command :=
| AddCategory (line : string)
| DeleteCategory (line : string)
| AddTransaction (lines : txn_lines)
| DeleteTransaction (line : string).

Module Flow.

(** [prompt]: the typed line, stripped. *)
Definition prompt (line : string) : string := Py.strip line.

Section Parsers.
(** [datetime.strptime(_, "%Y-%m-%d")], [float(_)] and [int(_)];
    [None] stands for [ValueError]. *)
Variable strptime : string -> option (Z * Z * Z).
Variable float_of_str : string -> option Py.float.
Variable int_of_str : string -> option Z.

(** [add_category_flow] *)
Definition add_category_flow (db : database) (line : string) : database * outcome :=
  let name := prompt line in
  if negb (Py.truthy_str name) then (db, Rejected EmptyName)
  else
    match BudgetDB.add_category db name with
    | (db', Ok cid) => (db', Done cid)
    | (db', Raise (IntegrityError _)) => (db', Rejected DuplicateCategory)
    end.

(** [delete_category_flow] *)
Definition delete_category_flow (db : database) (line : string) : database * outcome :=
  match int_of_str (prompt line) with
  | None => (db, Rejected InvalidId)
  | Some cid =>
      let '(db', removed) := BudgetDB.delete_category db cid in
      if removed then (db', Done cid) else (db', Rejected NotFound)
  end.

(** [add_transaction_flow] *)
Definition add_transaction_flow (db : database) (lines : txn_lines)
  : database * outcome :=
  let date_str := prompt (line_date lines) in
  match strptime date_str with
  | None => (db, Rejected InvalidDate)
  | Some (y, m, d) =>
      let date_iso := Date.isoformat y m d in
      match float_of_str (prompt (line_amount lines)) with
      | None => (db, Rejected AmountNotANumber)
      | Some amount =>
          let description := prompt (line_description lines) in
          let txn_type := if Py.float_ge0 amount then "income" else "expense" in
          let abs_amount := Py.float_abs amount in
          let cat_input := prompt (line_category lines) in
          let category :=
            if Py.truthy_str cat_input
            then match int_of_str cat_input with
                 | Some c => Some (Some c)
                 | None => None
                 end
            else Some None in
          match category with
          | None => (db, Rejected InvalidCategoryId)
          | Some category_id =>
              match BudgetDB.add_transaction db date_iso abs_amount description
                                             category_id txn_type with
              | (db', Ok txn_id) => (db', Done txn_id)
              | (db', Raise e) => (db', Uncaught e)
              end
          end
      end
  end.

(** [delete_transaction_flow] *)
Definition delete_transaction_flow (db : database) (line : string)
  : database * outcome :=
  match int_of_str (prompt line) with
  | None => (db, Rejected InvalidId)
  | Some tid =>
      let '(db', removed) := BudgetDB.delete_transaction db tid in
      if removed then (db', Done tid) else (db', Rejected NotFound)
  end.

Definition run_command (db : database) (c : command) : database * outcome :=
  match c with
  | AddCategory line => add_category_flow db line
  | DeleteCategory line => delete_category_flow db line
  | AddTransaction lines => add_transaction_flow db lines
  | DeleteTransaction line => delete_transaction_flow db line
  end.

(** The menu loop of [main] over the rounds that write: it goes on
    until the rounds are over or an exception leaves a flow. *)
Fixpoint main_loop (db : database) (cs : list command) : database :=
  match cs with
  | [] => db
  | c :: r =>
      match run_command db c with
      | (db', Uncaught _) => db'
      | (db', _) => main_loop db' r
      end
  end.

(** [main]: open the store, then loop. *)
Definition main (file : database) (cs : list command) : database :=
  main_loop (BudgetDB.__init__ file) cs.
End Parsers.

End Flow.

(** ** Words of the specification, for comparison with the code *)

(** The filters of [listTransactions] as the specification words them:
    each supplied filter constrains the row. *)
Definition selects_supplied (category_id : option Z) (start_date end_date : option string)
    (t : txn) : Prop :=
  (forall c, category_id = Some c -> txn_category_id t = Some c)
  /\ (forall s, start_date = Some s -> String.leb s (txn_date t) = true)
  /\ (forall e, end_date = Some e -> String.leb (txn_date t) e = true).

(** The same, a filter counting as supplied only when it is true as a
    Python condition (a category id other than 0, a date string other
    than the empty one). *)
Definition selects_truthy (category_id : option Z) (start_date end_date : option string)
    (t : txn) : Prop :=
  (forall c, category_id = Some c -> c <> 0 -> txn_category_id t = Some c)
  /\ (forall s, start_date = Some s -> s <> EmptyString -> String.leb s (txn_date t) = true)
  /\ (forall e, end_date = Some e -> e <> EmptyString -> String.leb (txn_date t) e = true).

(** Date descending, ties broken by id descending: [a] may stand before
    [b]. *)
Definition date_desc_id_desc (a b : txn) : Prop :=
  String.ltb (txn_date b) (txn_date a) = true
  \/ (txn_date a = txn_date b /\ txn_id b <= txn_id a).

(** The exported file as the specification words it: the header line,
    then one line per transaction with its stored values in column
    order. *)
Definition header_line : string :=
  ("ID,Date,Amount,Description,CategoryID,Type" ++ Csv.lineterminator)%string.

Definition data_line (float_repr : Py.float -> string) (t : txn) : string :=
  (Csv.field (Py.str_int (txn_id t)) ++ ","
   ++ Csv.field (txn_date t) ++ ","
   ++ Csv.field (float_repr (txn_amount t)) ++ ","
   ++ Csv.field (txn_description t) ++ ","
   ++ Csv.field (match txn_category_id t with
                 | Some c => Py.str_int c
                 | None => EmptyString
                 end) ++ ","
   ++ Csv.field (txn_type t) ++ Csv.lineterminator)%string.

Fixpoint data_lines (float_repr : Py.float -> string) (rows : list txn) : string :=
  match rows with
  | [] => EmptyString
  | t :: r => (data_line float_repr t ++ data_lines float_repr r)%string
  end.

(** *** Reading the exported file back

    A reader of comma-separated values: fields are separated by commas
    and records end with CR LF (a lone CR or LF ends a record too); a
    field may stand in double quotes, in which commas and line breaks
    are text and a doubled quote is one quote.  It says what records and
    values a file holds, independently of how the file was written. *)

Module CsvReader.

Inductive state := Start | Unquoted | Quoted | QuoteSeen | AfterCR.

Record reader := mkReader {
  r_state : state;
  r_field : string;                (* the field being read *)
  r_row : list string;             (* the fields read of the current record *)
  r_rows : list (list string)      (* the records read *)
}.

Definition init : reader := mkReader Start EmptyString [] [].

Definition push (c : ascii) (st : state) (r : reader) : reader :=
  mkReader st (r_field r ++ String c EmptyString) (r_row r) (r_rows r).

Definition end_field (r : reader) : reader :=
  mkReader Start EmptyString (r_row r ++ [r_field r]) (r_rows r).

Definition end_record (st : state) (r : reader) : reader :=
  mkReader st EmptyString [] (r_rows r ++ [r_row r ++ [r_field r]]).

(** Outside quotes. *)
Definition step_plain (at_start : bool) (r : reader) (c : ascii) : reader :=
  if Ascii.eqb c (ascii_of_nat 44) then end_field r
  else if Ascii.eqb c (ascii_of_nat 13) then end_record AfterCR r
  else if Ascii.eqb c (ascii_of_nat 10) then end_record Start r
  else if at_start && Ascii.eqb c (ascii_of_nat 34)
       then mkReader Quoted (r_field r) (r_row r) (r_rows r)
  else push c Unquoted r.

Definition step (r : reader) (c : ascii) : reader :=
  match r_state r with
  | Start => step_plain true r c
  | Unquoted => step_plain false r c
  | Quoted =>
      if Ascii.eqb c (ascii_of_nat 34)
      then mkReader QuoteSeen (r_field r) (r_row r) (r_rows r)
      else push c Quoted r
  | QuoteSeen =>
      if Ascii.eqb c (ascii_of_nat 34) then push c Quoted r
      else step_plain false r c
  | AfterCR =>
      if Ascii.eqb c (ascii_of_nat 10)
      then mkReader Start (r_field r) (r_row r) (r_rows r)
      else step_plain true r c
  end.

Fixpoint run (r : reader) (text : string) : reader :=
  match text with
  | EmptyString => r
  | String c t => run (step r c) t
  end.

(** The records of a file. *)
Definition read (text : string) : list (list string) := r_rows (run init text).

End CsvReader.

(** The states in which a field can end. *)
Definition plain (st : CsvReader.state) : Prop :=
  st = CsvReader.Start \/ st = CsvReader.Unquoted.

Definition closable (st : CsvReader.state) : Prop :=
  plain st \/ st = CsvReader.QuoteSeen.

(** The values of the header record and of the record of a transaction,
    as the specification lists them. *)
Definition header_fields : list string :=
  ["ID"; "Date"; "Amount"; "Description"; "CategoryID"; "Type"].

Definition txn_fields (float_repr : Py.float -> string) (t : txn) : list string :=
  [ Py.str_int (txn_id t); txn_date t; float_repr (txn_amount t); txn_description t;
    match txn_category_id t with Some c => Py.str_int c | None => EmptyString end;
    txn_type t ].

(** Calendar order of two dates given as (year, month, day). *)
Definition date_compare (a b : Z * Z * Z) : comparison :=
  let '(y1, m1, d1) := a in
  let '(y2, m2, d2) := b in
  match y1 ?= y2 with
  | Eq => match m1 ?= m2 with Eq => d1 ?= d2 | c => c end
  | c => c
  end.

(** The first day of the month after month [m] of year [y]: month 12
    rolls to month 1 of year [y + 1]. *)
Definition next_month_start (y m : Z) : Z * Z * Z :=
  if m =? 12 then (y + 1, 1, 1) else (y, m + 1, 1).

(** The date lies in the half-open interval from the first day of the
    month to the first day of the next month. *)
Definition in_month_interval (y m : Z) (d : Z * Z * Z) : bool :=
  match date_compare (y, m, 1) d with Gt => false | _ => true end
  && match date_compare d (next_month_start y m) with Lt => true | _ => false end.

(** ** The summary of a month, in the words of the specification *)

(** The transaction is dated in month [m] of year [y]: its date is the
    ISO text of one of the days of that month. *)
Definition dated_in (y m : Z) (t : txn) : bool :=
  existsb (fun d => Date.valid y m d && String.eqb (txn_date t) (Date.isoformat y m d))
          (map Z.of_nat (seq 1 31)).

(** The total of one type over a group: zero when the group has no row
    of the type, else the sum of the amounts of its rows of the type. *)
Definition type_total (real_sum : list sqlnum -> Py.float) (ty : string) (g : list txn)
  : sqlnum :=
  match filter (fun t => String.eqb (txn_type t) ty) g with
  | [] => SqlInt 0
  | (_ :: _) as rows => SqlReal (real_sum (map (fun t => SqlReal (txn_amount t)) rows))
  end.

(** [summary] groups the transactions of month [m] of year [y] by
    resolved category name: no name twice; a row for a name exactly when
    a transaction of the month resolves to it (NULL for the transactions
    without a category); each row with the totals of its group. *)
Definition groups_month (real_sum : list sqlnum -> Py.float) (db : database) (y m : Z)
    (summary : list (option string * sqlnum * sqlnum)) : Prop :=
  let rows := filter (dated_in y m) (transactions db) in
  NoDup (map (fun r => fst (fst r)) summary)
  /\ (forall k, In k (map (fun r => fst (fst r)) summary)
                <-> exists t, In t rows /\ joined_name (categories db) t = k)
  /\ (forall k inc exp, In (k, inc, exp) summary ->
        let g := filter (fun t => key_eqb (joined_name (categories db) t) k) rows in
        inc = type_total real_sum "income" g
        /\ exp = type_total real_sum "expense" g).

(** The integer 0 of [ELSE 0]. *)
Definition is_zero (v : sqlnum) : bool :=
  match v with SqlInt 0 => true | _ => false end.

(** An accumulation for the examples: binary64 additions from +0.0, from
    left to right, an integer 0 leaving the sum as it is. *)
Definition add_term (acc : Py.float) (v : sqlnum) : Py.float :=
  match v with
  | SqlReal x => SFadd 53 1024 acc x
  | SqlInt n => if n =? 0 then acc
                else SFadd 53 1024 acc (binary_normalize 53 1024 n 0 false)
  end.

Definition sum_left (terms : list sqlnum) : Py.float :=
  fold_left add_term terms Py.float_zero.

(** ** Sample data *)

(** 42.5 and -42.5 as binary64 values. *)
Definition f42_5 : Py.float := S754_finite false 5981343255101440 (-47).
Definition fminus42_5 : Py.float := S754_finite true 5981343255101440 (-47).

(** A store opened on a new file, with the category Food and one expense
    in it. *)
Definition food_db : database :=
  fst (BudgetDB.add_category (BudgetDB.__init__ empty_database) "Food").

Definition groceries_db : database :=
  fst (BudgetDB.add_transaction food_db "2024-03-15" f42_5 "Groceries" (Some 1) "expense").

(** The values [float] and [int] give for the texts typed in the sample
    sessions; any other text is taken as not a number. *)
Definition sample_float (s : string) : option Py.float :=
  if String.eqb s "-42.50" then Some fminus42_5 else None.

Definition sample_int (s : string) : option Z :=
  if String.eqb s "1" then Some 1 else None.

(** The session of the specification's scenario: the expense typed at the
    prompts of [add_transaction_flow]. *)
Definition groceries_lines : txn_lines :=
  mkTxnLines "2024-03-15" "-42.50" "Groceries" "1".

(** Every stored amount is a non-negative magnitude. *)
Definition amounts_nonneg (txns : list txn) : Prop :=
  forall t, In t txns -> Py.float_ge0 (txn_amount t) = true.

(** A store with an expense on the last day the calendar has, entered
    through [add_transaction_flow]. *)
Definition last_day_lines : txn_lines :=
  mkTxnLines "9999-12-31" "-42.50" "Groceries" "1".

Definition last_day_db : database :=
  fst (Flow.add_transaction_flow Date.strptime_ymd sample_float sample_int
         food_db last_day_lines).

(** The integers from 0 up to [n], excluded. *)
Definition upto (n : Z) : list Z := map Z.of_nat (seq 0 (Z.to_nat n)).

Definition comparison_eqb (c1 c2 : comparison) : bool :=
  match c1, c2 with
  | Eq, Eq | Lt, Lt | Gt, Gt => true
  | _, _ => false
  end.

(** ** Constraints of the schema, as properties of a store *)

(** The foreign key of [transactions]: a category reference that is not
    NULL names a row of [categories]. *)
Definition refs_valid (db : database) : Prop :=
  forall t c, In t (transactions db) -> txn_category_id t = Some c ->
              exists cat, In cat (categories db) /\ cat_id cat = c.

(** The two primary keys and the UNIQUE constraint on [categories.name]. *)
Definition keys_unique (db : database) : Prop :=
  NoDup (map cat_id (categories db))
  /\ NoDup (map cat_name (categories db))
  /\ NoDup (map txn_id (transactions db)).

(** ** Trimming, in the words of the specification *)

(** A text made of white-space characters only. *)
Inductive white : string -> Prop :=
| white_nil : white EmptyString
| white_cons (w s : string) :
    In w Py.space_chars -> white s -> white (w ++ s)%string.

Definition starts_with_space (s : string) : Prop :=
  exists w r, In w Py.space_chars /\ s = (w ++ r)%string.

Definition ends_with_space (s : string) : Prop :=
  exists p w, In w Py.space_chars /\ s = (p ++ w)%string.

(** [m] is [n] trimmed: [n] is [m] between two runs of white space, and
    [m] neither starts nor ends with a white-space character. *)
Definition trimmed_of (n m : string) : Prop :=
  (exists l r, n = (l ++ m ++ r)%string /\ white l /\ white r)
  /\ ~ starts_with_space m
  /\ ~ ends_with_space m.

(** ** The category column of the two reports *)

(** The dictionary [cat_lookup] of [print_transactions],
    [{cid: name for cid, name in categories}]: a later pair replaces an
    earlier one of the same id. *)
Fixpoint cat_lookup (cats : list category) (k : Z) : option string :=
  match cats with
  | [] => None
  | c :: r =>
      match cat_lookup r k with
      | Some n => Some n
      | None => if cat_id c =? k then Some (cat_name c) else None
      end
  end.

(** [cat_lookup.get(cid, "(uncategorized)")] in [print_transactions]: the
    text of the category column of a listed transaction (the layout of
    the line is left out). *)
Definition listing_label (cats : list category) (cid : option Z) : string :=
  match cid with
  | None => "(uncategorized)"
  | Some k =>
      match cat_lookup cats k with
      | Some n => n
      | None => "(uncategorized)"
      end
  end.

(** [cat_name or "(uncategorized)"] in [monthly_summary_flow]: the text
    of the category column of a row of the summary. *)
Definition summary_label (name : option string) : string :=
  match name with
  | Some n => if Py.truthy_str n then n else "(uncategorized)"
  | None => "(uncategorized)"
  end.

(** ** The flows that take filters *)

(** The lines typed at the three filter prompts of
    [list_transactions_flow] and [export_csv_flow], in order. *)
Record filter_lines := mkFilterLines {
  line_filter_category : string;
  line_start : string;
  line_end : string
}.

(** What [list_transactions_flow] ends with. *)
Inductive listing_outcome :=
| Shown (rows : list txn) (cats : list category)  (* print_transactions(rows, categories) *)
| ListingRefused.                                 (* Invalid date format. Use YYYY-MM-DD. *)

(** What [export_csv_flow] ends with. *)
Inductive export_outcome :=
| Exported (filename : string)   (* Transactions exported to ... *)
| NoFilename                     (* Filename cannot be empty. *)
| ExportRefused.                 (* Invalid date format. Use YYYY-MM-DD. *)

Module FilterFlow.

Section Parsers.
Variable strptime : string -> option (Z * Z * Z).
Variable int_of_str : string -> option Z.

(** [prompt(...) or None] *)
Definition prompt_or_none (line : string) : option string :=
  let s := Flow.prompt line in
  if Py.truthy_str s then Some s else None.

(** The category filter: the typed number, [None] for a blank line and
    for a text that is not a number (the flow says so and goes on). *)
Definition category_filter (line : string) : option Z :=
  let cat_input := Flow.prompt line in
  if Py.truthy_str cat_input then int_of_str cat_input else None.

(** The date check of the flows: a date that is given has to parse; the
    parsed date itself is dropped. *)
Definition date_accepted (d : option string) : bool :=
  if Py.truthy_opt_str d
  then match d with
       | Some s => match strptime s with Some _ => true | None => false end
       | None => false
       end
  else true.

(** [list_transactions_flow] *)
Definition list_transactions_flow (db : database) (lines : filter_lines)
  : listing_outcome :=
  let categories := BudgetDB.list_categories db in
  let category_id := category_filter (line_filter_category lines) in
  let start := prompt_or_none (line_start lines) in
  let end_ := prompt_or_none (line_end lines) in
  if date_accepted start && date_accepted end_
  then Shown (BudgetDB.list_transactions db category_id start end_) categories
  else ListingRefused.

Section Exporting.
Variable float_repr : Py.float -> string.

(** [export_csv_flow] *)
Definition export_csv_flow (db : database) (fs : files) (line_filename : string)
    (lines : filter_lines) : files * export_outcome :=
  let filename := Flow.prompt line_filename in
  if negb (Py.truthy_str filename) then (fs, NoFilename)
  else
    let category_id := category_filter (line_filter_category lines) in
    let start := prompt_or_none (line_start lines) in
    let end_ := prompt_or_none (line_end lines) in
    if date_accepted start && date_accepted end_
    then (BudgetDB.export_to_csv float_repr db fs filename category_id start end_,
          Exported filename)
    else (fs, ExportRefused).
End Exporting.
End Parsers.

End FilterFlow.

(* ================================================================== *)
(** * Properties *)

(** ** Schema manager *)

Lemma table_exists_app name sch1 sch2 :
  table_exists name (sch1 ++ sch2) = table_exists name sch1 || table_exists name sch2.
Proof. unfold table_exists. apply existsb_app. Qed.

Lemma create_table_exists name def sch :
  table_exists name (create_table_if_not_exists name def sch) = true.
Proof.
  unfold create_table_if_not_exists.
  destruct (table_exists name sch) eqn:E; [exact E|].
  rewrite table_exists_app. simpl. rewrite String.eqb_refl. now rewrite orb_true_r.
Qed.

Lemma create_table_keeps name name' def sch :
  table_exists name' sch = true ->
  table_exists name' (create_table_if_not_exists name def sch) = true.
Proof.
  intro H. unfold create_table_if_not_exists.
  destruct (table_exists name sch); [exact H|].
  rewrite table_exists_app, H. reflexivity.
Qed.

Lemma create_table_noop name def sch :
  table_exists name sch = true ->
  create_table_if_not_exists name def sch = sch.
Proof. intro H. unfold create_table_if_not_exists. now rewrite H. Qed.

Lemma lookup_table_app_l name sch1 sch2 d :
  lookup_table name sch1 = Some d -> lookup_table name (sch1 ++ sch2) = Some d.
Proof.
  unfold lookup_table. induction sch1 as [|e sch1 IH]; simpl; [discriminate|].
  destruct (String.eqb (fst e) name); auto.
Qed.

Lemma create_table_lookup_kept name name' def sch d :
  lookup_table name' sch = Some d ->
  lookup_table name' (create_table_if_not_exists name def sch) = Some d.
Proof.
  intro H. unfold create_table_if_not_exists.
  destruct (table_exists name sch); [exact H|].
  now apply lookup_table_app_l.
Qed.

(** C9. [_initialize_schema] is idempotent: a second call changes nothing
    at all (same table definitions, same rows, same sequences); the first
    call already keeps every stored row and every table definition that
    was there, and leaves both tables in place. *)
Theorem initialize_schema_idempotent (db : database) :
  let db1 := BudgetDB._initialize_schema db in
  BudgetDB._initialize_schema db1 = db1
  /\ schema (BudgetDB._initialize_schema db1) = schema db1
  /\ categories db1 = categories db
  /\ transactions db1 = transactions db
  /\ categories_seq db1 = categories_seq db
  /\ transactions_seq db1 = transactions_seq db
  /\ (forall name d, lookup_table name (schema db) = Some d ->
                     lookup_table name (schema db1) = Some d)
  /\ table_exists "categories" (schema db1) = true
  /\ table_exists "transactions" (schema db1) = true.
Proof.
  cbv zeta.
  assert (Hc : table_exists "categories" (schema (BudgetDB._initialize_schema db)) = true).
  { simpl. apply create_table_keeps, create_table_exists. }
  assert (Ht : table_exists "transactions" (schema (BudgetDB._initialize_schema db)) = true).
  { simpl. apply create_table_exists. }
  assert (Hid : BudgetDB._initialize_schema (BudgetDB._initialize_schema db)
                = BudgetDB._initialize_schema db).
  { unfold BudgetDB._initialize_schema at 1. cbv zeta.
    rewrite (create_table_noop "categories" _ _ Hc).
    rewrite (create_table_noop "transactions" _ _ Ht).
    reflexivity. }
  repeat split; auto.
  - now rewrite Hid.
  - intros name d H. simpl. now apply create_table_lookup_kept, create_table_lookup_kept.
Qed.

(** ** Byte-wise order of strings *)

Lemma ascii_compare_refl (a : ascii) : Ascii.compare a a = Eq.
Proof. unfold Ascii.compare. apply N.compare_refl. Qed.

Lemma string_compare_refl (s : string) : String.compare s s = Eq.
Proof.
  induction s as [|a s IH]; simpl; [reflexivity|].
  now rewrite ascii_compare_refl.
Qed.

Lemma string_compare_eq (s1 s2 : string) : String.compare s1 s2 = Eq <-> s1 = s2.
Proof.
  split; [apply String.compare_eq_iff|].
  intros ->. apply string_compare_refl.
Qed.

Lemma ascii_compare_lt_trans (a b c : ascii) :
  Ascii.compare a b = Lt -> Ascii.compare b c = Lt -> Ascii.compare a c = Lt.
Proof.
  unfold Ascii.compare. rewrite !N.compare_lt_iff. apply N.lt_trans.
Qed.

Lemma string_compare_lt_trans (s1 s2 s3 : string) :
  String.compare s1 s2 = Lt -> String.compare s2 s3 = Lt -> String.compare s1 s3 = Lt.
Proof.
  revert s2 s3. induction s1 as [|a s1 IH]; intros [|b s2] [|c s3]; simpl;
    try discriminate; try reflexivity.
  destruct (Ascii.compare a b) eqn:Eab; try discriminate.
  - apply Ascii.compare_eq_iff in Eab. subst b.
    destruct (Ascii.compare a c); try discriminate; [apply IH | reflexivity].
  - intros _. destruct (Ascii.compare b c) eqn:Ebc; try discriminate.
    + apply Ascii.compare_eq_iff in Ebc. subst c. now rewrite Eab.
    + now rewrite (ascii_compare_lt_trans _ _ _ Eab Ebc).
Qed.

Lemma string_compare_gt_lt (s1 s2 : string) :
  String.compare s1 s2 = Gt <-> String.compare s2 s1 = Lt.
Proof.
  rewrite (String.compare_antisym s2 s1).
  destruct (String.compare s1 s2); simpl; split; congruence.
Qed.

Lemma string_leb_refl (s : string) : String.leb s s = true.
Proof. unfold String.leb. now rewrite string_compare_refl. Qed.

(** A prefix of equal length decides the comparison, or hands it to the
    rest. *)
Lemma string_compare_app (p1 p2 r1 r2 : string) :
  String.length p1 = String.length p2 ->
  String.compare (p1 ++ r1) (p2 ++ r2) =
  match String.compare p1 p2 with
  | Eq => String.compare r1 r2
  | c => c
  end.
Proof.
  revert p2. induction p1 as [|a p1 IH]; intros [|b p2] Hlen; simpl in *;
    try discriminate; [reflexivity|].
  destruct (Ascii.compare a b); [apply IH; congruence | reflexivity | reflexivity].
Qed.

(** ** ORDER BY *)

Section Sorting.
Context {A : Type} (le : A -> A -> bool).

Lemma insert_by_perm (x : A) (l : list A) : Permutation (insert_by le x l) (x :: l).
Proof.
  induction l as [|y l IH]; simpl; [reflexivity|].
  destruct (le x y); [reflexivity|].
  rewrite IH. apply perm_swap.
Qed.

Lemma sort_by_perm (l : list A) : Permutation (sort_by le l) l.
Proof.
  induction l as [|x l IH]; simpl; [reflexivity|].
  rewrite insert_by_perm. now constructor.
Qed.

Lemma sort_by_In (l : list A) (x : A) : In x (sort_by le l) <-> In x l.
Proof.
  split; apply Permutation_in; [|symmetry]; apply sort_by_perm.
Qed.

Lemma sort_by_length (l : list A) : List.length (sort_by le l) = List.length l.
Proof. apply Permutation_length, sort_by_perm. Qed.

Lemma sort_by_nil_iff (l : list A) : sort_by le l = [] <-> l = [].
Proof.
  split; [|now intros ->].
  intro H. apply length_zero_iff_nil. rewrite <- sort_by_length, H. reflexivity.
Qed.

Hypothesis le_total : forall a b, le a b = true \/ le b a = true.
Hypothesis le_trans : forall a b c, le a b = true -> le b c = true -> le a c = true.

Lemma insert_by_sorted (x : A) (l : list A) :
  StronglySorted (fun a b => le a b = true) l ->
  StronglySorted (fun a b => le a b = true) (insert_by le x l).
Proof.
  induction 1 as [|y l Hs IH Hall]; simpl.
  - repeat constructor.
  - destruct (le x y) eqn:E.
    + constructor; [now constructor|].
      constructor; [exact E|].
      eapply Forall_impl; [|exact Hall]. intros z Hz. now apply le_trans with y.
    + constructor; [exact IH|].
      assert (Hyx : le y x = true) by (destruct (le_total x y); congruence).
      eapply Permutation_Forall; [symmetry; apply insert_by_perm|].
      now constructor.
Qed.

Lemma sort_by_sorted (l : list A) :
  StronglySorted (fun a b => le a b = true) (sort_by le l).
Proof.
  induction l as [|x l IH]; simpl; [constructor|]. now apply insert_by_sorted.
Qed.
End Sorting.

(** ** Transaction store: filtered listings *)

Lemma recent_first_spec (a b : txn) :
  BudgetDB.recent_first a b = true <-> date_desc_id_desc a b.
Proof.
  unfold BudgetDB.recent_first, date_desc_id_desc, String.ltb.
  rewrite (String.compare_antisym (txn_date a) (txn_date b)).
  destruct (String.compare (txn_date b) (txn_date a)) eqn:E; simpl.
  - apply String.compare_eq_iff in E. rewrite Z.leb_le.
    split; [intro H; right; split; [congruence | exact H] | ].
    intros [H | [_ H]]; [discriminate | exact H].
  - split; [now left | reflexivity].
  - split; [discriminate|].
    intros [H | [H _]]; [discriminate|].
    rewrite H, string_compare_refl in E. discriminate.
Qed.

Lemma recent_first_total (a b : txn) :
  BudgetDB.recent_first a b = true \/ BudgetDB.recent_first b a = true.
Proof.
  unfold BudgetDB.recent_first.
  rewrite (String.compare_antisym (txn_date a) (txn_date b)).
  destruct (String.compare (txn_date b) (txn_date a)); simpl; auto.
  rewrite !Z.leb_le. lia.
Qed.

Lemma recent_first_trans (a b c : txn) :
  BudgetDB.recent_first a b = true -> BudgetDB.recent_first b c = true ->
  BudgetDB.recent_first a c = true.
Proof.
  rewrite !recent_first_spec. unfold date_desc_id_desc, String.ltb.
  intros [Hab | [Hab Iab]] [Hbc | [Hbc Ibc]].
  - left.
    destruct (String.compare (txn_date b) (txn_date a)) eqn:E1; try discriminate.
    destruct (String.compare (txn_date c) (txn_date b)) eqn:E2; try discriminate.
    now rewrite (string_compare_lt_trans _ _ _ E2 E1).
  - left. now rewrite <- Hbc.
  - left. now rewrite Hab.
  - right. split; [congruence | lia].
Qed.

Lemma where_clause_spec (c : option Z) (s e : option string) (t : txn) :
  BudgetDB.where_clause c s e t = true <-> selects_truthy c s e t.
Proof.
  unfold BudgetDB.where_clause, selects_truthy.
  rewrite !andb_true_iff.
  assert (Hc : (if Py.truthy_opt_int c
                then match c, txn_category_id t with
                     | Some c0, Some c' => c' =? c0
                     | _, _ => false
                     end
                else true) = true
               <-> (forall k, c = Some k -> k <> 0 -> txn_category_id t = Some k)).
  { destruct c as [k|]; simpl.
    - destruct (k =? 0) eqn:E; simpl.
      + apply Z.eqb_eq in E. split; [|reflexivity]. intros _ k' [= <-] Hk. contradiction.
      + apply Z.eqb_neq in E. destruct (txn_category_id t) as [k'|].
        * rewrite Z.eqb_eq. split.
          -- intros -> k'' [= <-] _. reflexivity.
          -- intro H. specialize (H k eq_refl E). congruence.
        * split; [discriminate|]. intro H. specialize (H k eq_refl E). discriminate.
    - split; [|reflexivity]. intros _ k [=]. }
  assert (Hd : forall (o : option string) (f : string -> bool),
             (if Py.truthy_opt_str o
              then match o with Some x => f x | None => false end
              else true) = true
             <-> (forall x, o = Some x -> x <> EmptyString -> f x = true)).
  { intros [x|] f; simpl.
    - destruct x as [|a x]; simpl.
      + split; [|reflexivity]. intros _ x' [= <-] Hx. contradiction.
      + split.
        * intros H x' [= <-] _. exact H.
        * intro H. apply (H _ eq_refl). discriminate.
    - split; [|reflexivity]. intros _ x [=]. }
  rewrite Hc.
  rewrite (Hd s (fun x => String.leb x (txn_date t))).
  rewrite (Hd e (fun x => String.leb (txn_date t) x)).
  tauto.
Qed.

(** C4, as the code has it.  [list_transactions] returns exactly the
    stored transactions (with their multiplicity) that satisfy the
    conjunction of the filters that are true as Python conditions: a
    category id other than 0, and non-empty [start_date] and [end_date]
    as inclusive bounds on the date; [None], 0 and the empty string
    impose no constraint, and no filter at all returns every transaction.
    The result is ordered by date descending, ties by id descending. *)
Theorem list_transactions_filtered_sorted
    (db : database) (c : option Z) (s e : option string) :
  let r := BudgetDB.list_transactions db c s e in
  Permutation r (filter (BudgetDB.where_clause c s e) (transactions db))
  /\ (forall t, BudgetDB.where_clause c s e t = true <-> selects_truthy c s e t)
  /\ (forall t, In t r <-> In t (transactions db) /\ selects_truthy c s e t)
  /\ StronglySorted date_desc_id_desc r
  /\ Permutation (BudgetDB.list_transactions db None None None) (transactions db).
Proof.
  cbv zeta. unfold BudgetDB.list_transactions.
  split; [apply sort_by_perm|].
  split; [intro t; apply where_clause_spec|].
  split.
  { intro t. rewrite sort_by_In, filter_In, where_clause_spec. reflexivity. }
  split.
  { pose proof (sort_by_sorted BudgetDB.recent_first recent_first_total recent_first_trans
                  (filter (BudgetDB.where_clause c s e) (transactions db))) as H.
    induction H as [|x l Hs IH Hall]; constructor; [exact IH|].
    eapply Forall_impl; [|exact Hall]. intros y Hy. now apply recent_first_spec. }
  rewrite sort_by_perm. simpl.
  induction (transactions db) as [|t l IH]; simpl; [reflexivity|]. now constructor.
Qed.

(** C4 as stated fails: asked for [category_id = 0], the listing holds
    a transaction whose category is 1, so a supplied filter is not always
    a constraint on the rows returned. *)
Lemma list_transactions_supplied_counterexample :
  ~ (forall c s e t,
        In t (BudgetDB.list_transactions groceries_db c s e) ->
        selects_supplied c s e t).
Proof.
  intro H.
  destruct (H (Some 0) None None
              (mkTxn 1 "2024-03-15" f42_5 "Groceries" (Some 1) "expense")) as [Hc _].
  - vm_compute. left. reflexivity.
  - specialize (Hc 0 eq_refl). discriminate.
Qed.

(** C10. A [category_id] of 0 and an empty [start_date] or [end_date]
    behave as an absent filter, in [list_transactions] and so in
    [export_to_csv]. *)
Theorem falsy_filters_are_absent
    (float_repr : Py.float -> string) (db : database) (fs : files) (path : string)
    (c : option Z) (s e : option string) :
  BudgetDB.list_transactions db (Some 0) s e = BudgetDB.list_transactions db None s e
  /\ BudgetDB.list_transactions db c (Some EmptyString) e
     = BudgetDB.list_transactions db c None e
  /\ BudgetDB.list_transactions db c s (Some EmptyString)
     = BudgetDB.list_transactions db c s None
  /\ BudgetDB.list_transactions db (Some 0) (Some EmptyString) (Some EmptyString)
     = BudgetDB.list_transactions db None None None
  /\ BudgetDB.export_to_csv float_repr db fs path (Some 0) s e
     = BudgetDB.export_to_csv float_repr db fs path None s e
  /\ BudgetDB.export_to_csv float_repr db fs path c (Some EmptyString) e
     = BudgetDB.export_to_csv float_repr db fs path c None e
  /\ BudgetDB.export_to_csv float_repr db fs path c s (Some EmptyString)
     = BudgetDB.export_to_csv float_repr db fs path c s None.
Proof.
  unfold BudgetDB.export_to_csv, BudgetDB.list_transactions.
  repeat split; reflexivity.
Qed.

(** ** Exporter *)

Lemma string_app_assoc (a b c : string) : ((a ++ b) ++ c = a ++ (b ++ c))%string.
Proof. induction a as [|x a IH]; simpl; [reflexivity | now rewrite IH]. Qed.

Lemma writerow_row_cells (float_repr : Py.float -> string) (t : txn) :
  Csv.writerow float_repr (BudgetDB.row_cells t) = data_line float_repr t.
Proof.
  unfold Csv.writerow, data_line, BudgetDB.row_cells.
  destruct (txn_category_id t); simpl;
    repeat (rewrite string_app_assoc; simpl); reflexivity.
Qed.

Lemma writerows_row_cells (float_repr : Py.float -> string) (rows : list txn) :
  Csv.writerows float_repr (map BudgetDB.row_cells rows) = data_lines float_repr rows.
Proof.
  induction rows as [|t rows IH]; simpl; [reflexivity|].
  now rewrite writerow_row_cells, IH.
Qed.

(** *** The file read back *)

Lemma string_app_nil_r (s : string) : (s ++ EmptyString)%string = s.
Proof. induction s as [|c s IH]; simpl; [reflexivity | now rewrite IH]. Qed.

Lemma run_app (a b : string) (r : CsvReader.reader) :
  CsvReader.run r (a ++ b) = CsvReader.run (CsvReader.run r a) b.
Proof. revert r. induction a as [|c a IH]; intro r; simpl; [reflexivity | apply IH]. Qed.

Lemma not_special (c : ascii) :
  Csv.special c = false ->
  Ascii.eqb c (ascii_of_nat 44) = false /\ Ascii.eqb c (ascii_of_nat 34) = false
  /\ Ascii.eqb c (ascii_of_nat 13) = false /\ Ascii.eqb c (ascii_of_nat 10) = false.
Proof.
  unfold Csv.special, Csv.delimiter, Csv.quotechar, Csv.cr, Csv.lf.
  rewrite !orb_false_iff. change (ascii_of_nat 44) with ","%char. tauto.
Qed.

Lemma read_plain_text (s : string) :
  Csv.needs_quote s = false ->
  forall st f row rows, plain st ->
    exists st', plain st'
      /\ CsvReader.run (CsvReader.mkReader st f row rows) s
         = CsvReader.mkReader st' (f ++ s) row rows.
Proof.
  induction s as [|c t IH]; intros Hq st f row rows Hst.
  - exists st. split; [exact Hst|]. simpl. now rewrite string_app_nil_r.
  - simpl in Hq. apply orb_false_iff in Hq. destruct Hq as [Hc Ht].
    destruct (not_special c Hc) as [H1 [H2 [H3 H4]]].
    assert (Hstep : CsvReader.step (CsvReader.mkReader st f row rows) c
                    = CsvReader.mkReader CsvReader.Unquoted (f ++ String c EmptyString)
                                         row rows).
    { unfold CsvReader.step, CsvReader.step_plain, CsvReader.push.
      destruct Hst as [-> | ->]; simpl; rewrite H1, H3, H4, ?H2; reflexivity. }
    destruct (IH Ht CsvReader.Unquoted (f ++ String c EmptyString)%string row rows)
      as [st' [Hst' Hrun]]; [now right|].
    exists st'. split; [exact Hst'|].
    simpl. rewrite Hstep, Hrun, string_app_assoc. reflexivity.
Qed.

Lemma read_quoted_text (s : string) :
  forall f row rows,
    CsvReader.run (CsvReader.mkReader CsvReader.Quoted f row rows) (Csv.escape s)
    = CsvReader.mkReader CsvReader.Quoted (f ++ s) row rows.
Proof.
  induction s as [|c t IH]; intros f row rows; simpl.
  - now rewrite string_app_nil_r.
  - unfold Csv.quotechar. destruct (Ascii.eqb c (ascii_of_nat 34)) eqn:E; simpl;
      unfold CsvReader.step, CsvReader.push; simpl; rewrite ?E; simpl; rewrite ?E;
      rewrite IH, string_app_assoc; reflexivity.
Qed.

Lemma read_field (s : string) (row : list string) (rows : list (list string)) :
  exists st, closable st
    /\ CsvReader.run (CsvReader.mkReader CsvReader.Start EmptyString row rows) (Csv.field s)
       = CsvReader.mkReader st s row rows.
Proof.
  unfold Csv.field. destruct (Csv.needs_quote s) eqn:Hq.
  - exists CsvReader.QuoteSeen. split; [now right|].
    change (CsvReader.run (CsvReader.mkReader CsvReader.Start EmptyString row rows)
              (String Csv.quotechar (Csv.escape s ++ String Csv.quotechar EmptyString)))
      with (CsvReader.run (CsvReader.mkReader CsvReader.Quoted EmptyString row rows)
              (Csv.escape s ++ String Csv.quotechar EmptyString)).
    rewrite run_app, read_quoted_text. reflexivity.
  - destruct (read_plain_text s Hq CsvReader.Start EmptyString row rows) as [st [Hst Hrun]];
      [now left|].
    exists st. split; [now left | exact Hrun].
Qed.

Lemma close_field (st : CsvReader.state) (f : string) (row : list string)
    (rows : list (list string)) :
  closable st ->
  CsvReader.step (CsvReader.mkReader st f row rows) Csv.delimiter
  = CsvReader.mkReader CsvReader.Start EmptyString (row ++ [f]) rows.
Proof. intros [[-> | ->] | ->]; reflexivity. Qed.

Lemma close_record (st : CsvReader.state) (f : string) (row : list string)
    (rows : list (list string)) (tail : string) :
  closable st ->
  CsvReader.run (CsvReader.mkReader st f row rows) (Csv.lineterminator ++ tail)
  = CsvReader.run
      (CsvReader.mkReader CsvReader.Start EmptyString [] (rows ++ [row ++ [f]])) tail.
Proof. intros [[-> | ->] | ->]; reflexivity. Qed.

(** A written record is read back as the texts of its fields. *)
Lemma read_record (fs : list string) :
  fs <> [] ->
  forall row rows tail,
    CsvReader.run (CsvReader.mkReader CsvReader.Start EmptyString row rows)
                  (Csv.join_fields (map Csv.field fs) ++ Csv.lineterminator ++ tail)
    = CsvReader.run
        (CsvReader.mkReader CsvReader.Start EmptyString [] (rows ++ [row ++ fs])) tail.
Proof.
  induction fs as [|f fs IH]; intros Hne row rows tail; [contradiction|].
  destruct (read_field f row rows) as [st [Hst Hrun]].
  destruct fs as [|g fs'].
  - simpl Csv.join_fields. rewrite run_app, Hrun. now apply close_record.
  - change (Csv.join_fields (map Csv.field (f :: g :: fs')))
      with (Csv.field f ++ String Csv.delimiter
                                  (Csv.join_fields (map Csv.field (g :: fs'))))%string.
    rewrite string_app_assoc, run_app, Hrun.
    change (CsvReader.run (CsvReader.mkReader st f row rows)
              (String Csv.delimiter
                      (Csv.join_fields (map Csv.field (g :: fs')))
               ++ Csv.lineterminator ++ tail))
      with (CsvReader.run
              (CsvReader.step (CsvReader.mkReader st f row rows) Csv.delimiter)
              (Csv.join_fields (map Csv.field (g :: fs')) ++ Csv.lineterminator ++ tail)).
    rewrite (close_field st f row rows Hst), IH by discriminate.
    now rewrite <- app_assoc.
Qed.

Lemma read_writerows (float_repr : Py.float -> string) (rs : list (list Csv.cell)) :
  Forall (fun row => row <> []) rs ->
  forall rows,
    CsvReader.run (CsvReader.mkReader CsvReader.Start EmptyString [] rows)
                  (Csv.writerows float_repr rs)
    = CsvReader.mkReader CsvReader.Start EmptyString []
        (rows ++ map (map (Csv.cell_text float_repr)) rs).
Proof.
  induction 1 as [|row rs Hrow Hrs IH]; intro rows; simpl.
  - now rewrite app_nil_r.
  - unfold Csv.writerow. rewrite <- (map_map (Csv.cell_text float_repr) Csv.field).
    rewrite string_app_assoc, read_record.
    + rewrite IH, <- app_assoc. reflexivity.
    + destruct row; [contradiction | discriminate].
Qed.

(** The exported text read back: the header record, then the record of
    each row with its values. *)
Lemma read_export (float_repr : Py.float -> string) (rows : list txn) :
  CsvReader.read (Csv.writerow float_repr BudgetDB.csv_header
                  ++ Csv.writerows float_repr (map BudgetDB.row_cells rows))
  = header_fields :: map (txn_fields float_repr) rows.
Proof.
  unfold CsvReader.read, CsvReader.init.
  unfold Csv.writerow at 1.
  rewrite <- (map_map (Csv.cell_text float_repr) Csv.field).
  rewrite string_app_assoc, read_record by discriminate.
  rewrite read_writerows.
  - simpl. f_equal. rewrite map_map. apply map_ext. intro t.
    unfold BudgetDB.row_cells, txn_fields. simpl.
    destruct (txn_category_id t); reflexivity.
  - apply Forall_forall. intros row Hin. apply in_map_iff in Hin.
    destruct Hin as [t [<- _]]. discriminate.
Qed.

(** C3. For every filter combination, the exported file is the header
    line [ID,Date,Amount,Description,CategoryID,Type] followed by one line
    per element of [list_transactions] under the same filters, in the
    same order, each carrying the stored values (the raw [category_id],
    empty when null, and the raw amount); an empty listing leaves the
    header alone; no other file is touched.  The file read back by a CSV
    reader of the same dialect has one record more than the listing has
    elements: the six header names, then for each listed transaction, in
    the listing's order, its six stored values, whatever commas, quotes or
    line breaks a description holds. *)
Theorem export_to_csv_matches_listing
    (float_repr : Py.float -> string) (db : database) (fs : files) (path : string)
    (c : option Z) (s e : option string) :
  let rows := BudgetDB.list_transactions db c s e in
  let fs' := BudgetDB.export_to_csv float_repr db fs path c s e in
  fs' path = Some (header_line ++ data_lines float_repr rows)%string
  /\ Csv.writerow float_repr BudgetDB.csv_header = header_line
  /\ (forall t, Csv.writerow float_repr (BudgetDB.row_cells t) = data_line float_repr t)
  /\ (rows = [] -> fs' path = Some header_line)
  /\ (forall p, p <> path -> fs' p = fs p)
  /\ (exists content,
        fs' path = Some content
        /\ CsvReader.read content = header_fields :: map (txn_fields float_repr) rows
        /\ List.length (CsvReader.read content) = S (List.length rows)).
Proof.
  cbv zeta. unfold BudgetDB.export_to_csv, write_file.
  rewrite String.eqb_refl.
  split; [|split; [|split; [|split; [|split]]]].
  - now rewrite writerows_row_cells.
  - reflexivity.
  - apply writerow_row_cells.
  - intros ->. reflexivity.
  - intros p Hp. apply String.eqb_neq in Hp. now rewrite Hp.
  - eexists. split; [reflexivity|].
    rewrite read_export. split; [reflexivity|].
    simpl. now rewrite List.length_map.
Qed.

(** ** Category store: deletion *)

Lemma set_null_id (c : Z) (t : txn) : txn_id (BudgetDB.set_null c t) = txn_id t.
Proof.
  unfold BudgetDB.set_null. destruct (txn_category_id t) as [k|]; [|reflexivity].
  destruct (k =? c); reflexivity.
Qed.

Lemma set_null_clears (c : Z) (t : txn) :
  txn_category_id (BudgetDB.set_null c t) <> Some c.
Proof.
  unfold BudgetDB.set_null. destruct (txn_category_id t) as [k|] eqn:E.
  - destruct (k =? c) eqn:Ek; simpl; [discriminate|].
    rewrite E. apply Z.eqb_neq in Ek. congruence.
  - rewrite E. discriminate.
Qed.

Lemma set_null_other (c : Z) (t : txn) :
  txn_category_id t <> Some c -> BudgetDB.set_null c t = t.
Proof.
  unfold BudgetDB.set_null. destruct (txn_category_id t) as [k|]; [|reflexivity].
  destruct (k =? c) eqn:Ek; [|reflexivity].
  apply Z.eqb_eq in Ek. subst k. intro H. now contradiction H.
Qed.

Lemma delete_category_true (db : database) (c : Z) :
  snd (BudgetDB.delete_category db c) = true ->
  transactions (fst (BudgetDB.delete_category db c))
  = map (BudgetDB.set_null c) (transactions db).
Proof.
  unfold BudgetDB.delete_category. simpl.
  destruct (filter (fun c0 => cat_id c0 =? c) (categories db)); simpl;
    [discriminate | reflexivity].
Qed.

Lemma list_all_In (db : database) (t : txn) :
  In t (BudgetDB.list_transactions db None None None) <-> In t (transactions db).
Proof.
  unfold BudgetDB.list_transactions. rewrite sort_by_In, filter_In. simpl. tauto.
Qed.

Lemma list_all_length (db : database) :
  List.length (BudgetDB.list_transactions db None None None)
  = List.length (transactions db).
Proof.
  unfold BudgetDB.list_transactions. rewrite sort_by_length. simpl.
  f_equal. induction (transactions db) as [|t l IH]; simpl; congruence.
Qed.

(** C2. When [delete_category c] returns true, a transaction that
    referred to [c] is still listed, with its category null and its other
    fields as they were; no transaction row is removed (same number of
    rows, same ids), no listed row refers to [c] any more, and the rows
    that referred to something else are listed unchanged. *)
Theorem delete_category_keeps_transactions (db : database) (c : Z) (t : txn) :
  In t (transactions db) ->
  txn_category_id t = Some c ->
  snd (BudgetDB.delete_category db c) = true ->
  let db' := fst (BudgetDB.delete_category db c) in
  let listing := BudgetDB.list_transactions db' None None None in
  In (mkTxn (txn_id t) (txn_date t) (txn_amount t) (txn_description t) None (txn_type t))
     listing
  /\ List.length listing = List.length (transactions db)
  /\ map txn_id (transactions db') = map txn_id (transactions db)
  /\ (forall u, In u listing -> txn_category_id u <> Some c)
  /\ (forall u, In u (transactions db) -> txn_category_id u <> Some c -> In u listing).
Proof.
  intros Hin Hcat Hdel. cbv zeta.
  pose proof (delete_category_true db c Hdel) as Htx.
  split.
  { apply list_all_In. rewrite Htx.
    replace (mkTxn _ _ _ _ _ _) with (BudgetDB.set_null c t).
    - now apply in_map.
    - unfold BudgetDB.set_null. now rewrite Hcat, Z.eqb_refl. }
  split.
  { rewrite list_all_length, Htx. apply length_map. }
  split.
  { rewrite Htx, map_map. apply map_ext. intro u. apply set_null_id. }
  split.
  { intros u Hu. apply list_all_In in Hu. rewrite Htx in Hu.
    apply in_map_iff in Hu. destruct Hu as [u0 [<- _]]. apply set_null_clears. }
  intros u Hu Hne. apply list_all_In. rewrite Htx.
  rewrite <- (set_null_other c u Hne). now apply in_map.
Qed.

Lemma delete_category_keeps_transactions_witness :
  In (mkTxn 1 "2024-03-15" f42_5 "Groceries" None "expense")
     (BudgetDB.list_transactions (fst (BudgetDB.delete_category groceries_db 1))
                                 None None None).
Proof.
  refine (proj1 (delete_category_keeps_transactions groceries_db 1
                   (mkTxn 1 "2024-03-15" f42_5 "Groceries" (Some 1) "expense") _ _ _)).
  - vm_compute. left. reflexivity.
  - reflexivity.
  - vm_compute. reflexivity.
Defined.

(** ** White space and trimming *)

Lemma lstrip_step (s : string) :
  Py.lstrip s = match Py.skip_space s with Some r => Py.lstrip r | None => s end.
Proof.
  destruct s as [|a [|b [|c r]]]; simpl; try reflexivity.
  - destruct (Py.space1 a); reflexivity.
  - destruct (Py.space1 a); [reflexivity|]. destruct (Py.space2 a b); reflexivity.
  - destruct (Py.space1 a); [reflexivity|]. destruct (Py.space2 a b); [reflexivity|].
    destruct (Py.space3 a b c); reflexivity.
Qed.

Lemma blank_step (s : string) :
  Py.blank s = match s with
               | EmptyString => true
               | String _ _ =>
                   match Py.skip_space s with Some r => Py.blank r | None => false end
               end.
Proof.
  destruct s as [|a [|b [|c r]]]; simpl; try reflexivity.
  - destruct (Py.space1 a); reflexivity.
  - destruct (Py.space1 a); [reflexivity|]. destruct (Py.space2 a b); reflexivity.
  - destruct (Py.space1 a); [reflexivity|]. destruct (Py.space2 a b); [reflexivity|].
    destruct (Py.space3 a b c); reflexivity.
Qed.

Lemma rstrip_step (c : ascii) (t : string) :
  Py.rstrip (String c t)
  = if Py.blank (String c t) then EmptyString else String c (Py.rstrip t).
Proof. reflexivity. Qed.

Lemma space1_in (a : ascii) : Py.space1 a = true <-> In a Py.spaces1.
Proof.
  unfold Py.space1. rewrite existsb_exists. split.
  - intros [x [Hx E]]. apply Ascii.eqb_eq in E. now subst x.
  - intro H. exists a. split; [exact H | apply Ascii.eqb_refl].
Qed.

Lemma space2_in (a b : ascii) : Py.space2 a b = true <-> In (a, b) Py.spaces2.
Proof.
  unfold Py.space2. rewrite existsb_exists. split.
  - intros [[x y] [Hx E]]. simpl in E. apply andb_true_iff in E.
    destruct E as [E1 E2]. apply Ascii.eqb_eq in E1, E2. now subst x y.
  - intro H. exists (a, b). split; [exact H|]. simpl. now rewrite !Ascii.eqb_refl.
Qed.

Lemma space3_in (a b c : ascii) : Py.space3 a b c = true <-> In (a, b, c) Py.spaces3.
Proof.
  unfold Py.space3. rewrite existsb_exists. split.
  - intros [[[x y] z] [Hx E]]. simpl in E. rewrite !andb_true_iff in E.
    destruct E as [[E1 E2] E3]. apply Ascii.eqb_eq in E1, E2, E3. now subst x y z.
  - intro H. exists (a, b, c). split; [exact H|]. simpl. now rewrite !Ascii.eqb_refl.
Qed.

(** The encodings are told apart by their first bytes. *)
Lemma spaces2_first (p : ascii * ascii) :
  In p Py.spaces2 -> Py.space1 (fst p) = false.
Proof.
  intro H.
  assert (Hall : forallb (fun q => negb (Py.space1 (fst q))) Py.spaces2 = true)
    by reflexivity.
  rewrite forallb_forall in Hall. apply Hall in H. now apply negb_true_iff in H.
Qed.

Lemma spaces3_first (p : ascii * ascii * ascii) :
  In p Py.spaces3 ->
  Py.space1 (fst (fst p)) = false /\ Py.space2 (fst (fst p)) (snd (fst p)) = false.
Proof.
  intro H.
  assert (Hall : forallb (fun q => negb (Py.space1 (fst (fst q)))
                                   && negb (Py.space2 (fst (fst q)) (snd (fst q))))
                         Py.spaces3 = true) by reflexivity.
  rewrite forallb_forall in Hall. apply Hall in H.
  apply andb_true_iff in H. destruct H as [H1 H2].
  now apply negb_true_iff in H1, H2.
Qed.

Lemma skip_space_sound (s r : string) :
  Py.skip_space s = Some r -> exists w, In w Py.space_chars /\ s = (w ++ r)%string.
Proof.
  unfold Py.skip_space, Py.space_chars.
  destruct s as [|a r1]; [discriminate|].
  destruct (Py.space1 a) eqn:E1.
  { intros [= <-]. exists (Py.bytes1 a). split; [|reflexivity].
    apply in_or_app. left. apply in_map. now apply space1_in. }
  destruct r1 as [|b r2]; [discriminate|].
  destruct (Py.space2 a b) eqn:E2.
  { intros [= <-]. exists (Py.bytes2 (a, b)). split; [|reflexivity].
    apply in_or_app. right. apply in_or_app. left. apply in_map. now apply space2_in. }
  destruct r2 as [|c r3]; [discriminate|].
  destruct (Py.space3 a b c) eqn:E3; [|discriminate].
  intros [= <-]. exists (Py.bytes3 (a, b, c)). split; [|reflexivity].
  apply in_or_app. right. apply in_or_app. right. apply in_map. now apply space3_in.
Qed.

Lemma skip_space_complete (w r : string) :
  In w Py.space_chars -> Py.skip_space (w ++ r) = Some r.
Proof.
  unfold Py.space_chars. intro H.
  apply in_app_or in H. destruct H as [H | H].
  { apply in_map_iff in H. destruct H as [a [<- Ha]].
    change (Py.bytes1 a ++ r)%string with (String a r).
    unfold Py.skip_space. apply space1_in in Ha. now rewrite Ha. }
  apply in_app_or in H. destruct H as [H | H].
  { apply in_map_iff in H. destruct H as [[a b] [<- Hp]].
    change (Py.bytes2 (a, b) ++ r)%string with (String a (String b r)).
    unfold Py.skip_space.
    pose proof (spaces2_first (a, b) Hp) as H1. cbn [fst snd] in H1.
    apply space2_in in Hp. now rewrite H1, Hp. }
  apply in_map_iff in H. destruct H as [[[a b] c] [<- Hp]].
  change (Py.bytes3 (a, b, c) ++ r)%string with (String a (String b (String c r))).
  unfold Py.skip_space.
  destruct (spaces3_first (a, b, c) Hp) as [H1 H2]. cbn [fst snd] in H1, H2.
  apply space3_in in Hp. now rewrite H1, H2, Hp.
Qed.

Lemma skip_space_shorter (s r : string) :
  Py.skip_space s = Some r -> (String.length r < String.length s)%nat.
Proof.
  unfold Py.skip_space.
  destruct s as [|a r1]; [discriminate|].
  destruct (Py.space1 a); [intros [= <-]; simpl; lia|].
  destruct r1 as [|b r2]; [discriminate|].
  destruct (Py.space2 a b); [intros [= <-]; simpl; lia|].
  destruct r2 as [|c r3]; [discriminate|].
  destruct (Py.space3 a b c); [intros [= <-]; simpl; lia | discriminate].
Qed.

Lemma space_char_nonempty (w : string) : In w Py.space_chars -> w <> EmptyString.
Proof.
  intros H E. subst w.
  pose proof (skip_space_complete EmptyString EmptyString H) as Hs. discriminate.
Qed.

Lemma string_length_ind (P : string -> Prop) :
  (forall s, (forall r, (String.length r < String.length s)%nat -> P r) -> P s) ->
  forall s, P s.
Proof.
  intros H s.
  assert (Hn : forall n t, (String.length t <= n)%nat -> P t).
  { induction n as [|n IH]; intros t Ht; apply H; intros r Hr; [lia|].
    apply IH. lia. }
  now apply (Hn (String.length s)).
Qed.

Lemma blank_white (s : string) : Py.blank s = true <-> white s.
Proof.
  split.
  - induction s as [s IH] using string_length_ind.
    rewrite blank_step. destruct s as [|a t]; [constructor|].
    destruct (Py.skip_space (String a t)) as [r|] eqn:E; [|discriminate].
    intro Hr. pose proof (skip_space_shorter _ _ E) as Hlen.
    destruct (skip_space_sound _ _ E) as [w [Hw Hs]].
    rewrite Hs. constructor; [exact Hw|]. now apply IH.
  - induction 1 as [|w s Hw Hs IH]; [reflexivity|].
    rewrite blank_step, (skip_space_complete w s Hw).
    destruct (w ++ s)%string; [reflexivity | exact IH].
Qed.

Lemma white_app (a b : string) : white a -> white b -> white (a ++ b).
Proof.
  induction 1 as [|w s Hw Hs IH]; intro Hb; [exact Hb|].
  rewrite string_app_assoc. constructor; auto.
Qed.

Lemma lstrip_spec (s : string) :
  (exists l, s = (l ++ Py.lstrip s)%string /\ white l)
  /\ Py.skip_space (Py.lstrip s) = None.
Proof.
  induction s as [s IH] using string_length_ind.
  rewrite lstrip_step. destruct (Py.skip_space s) as [r|] eqn:E.
  - destruct (IH r (skip_space_shorter _ _ E)) as [[l [Hl Hw]] Hnone].
    split; [|exact Hnone].
    destruct (skip_space_sound _ _ E) as [w [Hin Hs]].
    exists (w ++ l)%string. split; [|now constructor].
    rewrite string_app_assoc, <- Hl. exact Hs.
  - split; [|exact E]. exists EmptyString. split; [reflexivity | constructor].
Qed.

Lemma lstrip_white (s : string) : white s -> Py.lstrip s = EmptyString.
Proof.
  induction 1 as [|w s Hw Hs IH]; [reflexivity|].
  now rewrite lstrip_step, (skip_space_complete w s Hw).
Qed.

Lemma rstrip_spec (s : string) :
  exists r, s = (Py.rstrip s ++ r)%string /\ white r.
Proof.
  induction s as [|c t IH]; [exists EmptyString; split; [reflexivity | constructor]|].
  rewrite rstrip_step. destruct (Py.blank (String c t)) eqn:E.
  - exists (String c t). split; [reflexivity | now apply blank_white].
  - destruct IH as [r [Hr Hw]]. exists r. split; [|exact Hw].
    simpl. now rewrite <- Hr.
Qed.

Lemma rstrip_no_trailing (s : string) : ~ ends_with_space (Py.rstrip s).
Proof.
  induction s as [|c t IH]; intros [p [w [Hw E]]].
  - destruct p; [|discriminate]. simpl in E. symmetry in E.
    now apply (space_char_nonempty w).
  - rewrite rstrip_step in E. destruct (Py.blank (String c t)) eqn:Eb.
    + destruct p; [|discriminate]. simpl in E. symmetry in E.
      now apply (space_char_nonempty w).
    + destruct p as [|c' p'].
      * simpl in E. destruct (rstrip_spec t) as [r [Hr Hwr]].
        assert (Hs : String c t = (w ++ r)%string)
          by (rewrite <- E; simpl; now rewrite <- Hr).
        assert (Hb : Py.blank (String c t) = true)
          by (apply blank_white; rewrite Hs; now constructor).
        congruence.
      * simpl in E. injection E as _ E. apply IH. now exists p', w.
Qed.

Lemma rstrip_keeps_start (s : string) :
  Py.skip_space s = None -> Py.skip_space (Py.rstrip s) = None.
Proof.
  intro H. destruct (Py.skip_space (Py.rstrip s)) as [r'|] eqn:E; [|reflexivity].
  destruct (skip_space_sound _ _ E) as [w [Hw Hm]].
  destruct (rstrip_spec s) as [r [Hr _]].
  rewrite Hm, string_app_assoc in Hr.
  rewrite Hr, (skip_space_complete w _ Hw) in H. discriminate.
Qed.

(** [strip] trims: what it returns is the text between the leading and
    the trailing white space, and has no white space at either end. *)
Lemma strip_trims (s : string) : trimmed_of s (Py.strip s).
Proof.
  unfold trimmed_of, Py.strip.
  destruct (lstrip_spec s) as [[l [Hl Hwl]] Hnone].
  destruct (rstrip_spec (Py.lstrip s)) as [r [Hr Hwr]].
  split; [|split].
  - exists l, r. split; [|split; assumption]. now rewrite <- Hr.
  - intros [w [r' [Hw E]]].
    pose proof (rstrip_keeps_start _ Hnone) as H.
    rewrite E, (skip_space_complete w r' Hw) in H. discriminate.
  - apply rstrip_no_trailing.
Qed.

Lemma rstrip_idem (s : string) : Py.rstrip (Py.rstrip s) = Py.rstrip s.
Proof.
  induction s as [|c t IH]; [reflexivity|].
  rewrite rstrip_step. destruct (Py.blank (String c t)) eqn:E; [reflexivity|].
  rewrite rstrip_step. destruct (Py.blank (String c (Py.rstrip t))) eqn:E'.
  - destruct (rstrip_spec t) as [r [Hr Hwr]].
    assert (Hb : Py.blank (String c t) = true).
    { apply blank_white.
      replace (String c t) with (String c (Py.rstrip t) ++ r)%string
        by (simpl; now rewrite <- Hr).
      apply white_app; [now apply blank_white | exact Hwr]. }
    congruence.
  - now rewrite IH.
Qed.

Lemma strip_idem (s : string) : Py.strip (Py.strip s) = Py.strip s.
Proof.
  unfold Py.strip.
  destruct (lstrip_spec s) as [_ Hnone].
  pose proof (rstrip_keeps_start _ Hnone) as H.
  rewrite (lstrip_step (Py.rstrip (Py.lstrip s))), H. apply rstrip_idem.
Qed.

Lemma strip_empty_iff (s : string) : Py.strip s = EmptyString <-> white s.
Proof.
  split.
  - intro E. destruct (strip_trims s) as [[l [r [Hs [Hl Hr]]]] _].
    rewrite E in Hs. simpl in Hs. rewrite Hs. now apply white_app.
  - intro H. unfold Py.strip. now rewrite (lstrip_white s H).
Qed.

(** ** Category store: creation *)

Lemma max_rowid_ge (ids : list Z) (x : Z) : In x ids -> x <= max_rowid ids.
Proof.
  induction ids as [|y ids IH]; simpl; [contradiction|].
  intros [-> | H]; [lia|]. specialize (IH H). lia.
Qed.

Lemma next_rowid_fresh (seq : Z) (ids : list Z) :
  ~ In (next_rowid seq ids) ids /\ seq < next_rowid seq ids.
Proof.
  unfold next_rowid. split; [|lia].
  intro H. apply max_rowid_ge in H. lia.
Qed.

Lemma name_taken_iff (n : string) (cats : list category) :
  existsb (fun c => String.eqb (cat_name c) n) cats = true
  <-> In n (map cat_name cats).
Proof.
  rewrite existsb_exists, in_map_iff.
  split.
  - intros [c [H1 H2]]. exists c. apply String.eqb_eq in H2. tauto.
  - intros [c [H1 H2]]. exists c. subst n. now rewrite String.eqb_refl.
Qed.

Lemma add_category_fresh (db : database) (n : string) :
  ~ In (Py.strip n) (map cat_name (categories db)) ->
  BudgetDB.add_category db n =
  (mkDatabase (schema db)
              (categories db
               ++ [mkCategory (next_rowid (categories_seq db) (map cat_id (categories db)))
                              (Py.strip n)])
              (next_rowid (categories_seq db) (map cat_id (categories db)))
              (transactions db) (transactions_seq db),
   Ok (next_rowid (categories_seq db) (map cat_id (categories db)))).
Proof.
  intro H. unfold BudgetDB.add_category.
  destruct (existsb _ _) eqn:E; [|reflexivity].
  apply name_taken_iff in E. contradiction.
Qed.

Lemma add_category_taken (db : database) (n : string) :
  In (Py.strip n) (map cat_name (categories db)) ->
  BudgetDB.add_category db n = (db, Raise (IntegrityError UniqueFailed)).
Proof.
  intro H. unfold BudgetDB.add_category.
  apply name_taken_iff in H. now rewrite H.
Qed.

(** C6. For every name not yet taken (once trimmed), [add_category]
    stores the trimmed name and returns an id that no category has and
    that is above every id given before; [list_categories] then holds the
    name exactly once; a second [add_category] with the same name raises
    [IntegrityError] (UNIQUE), which [add_category_flow] reports as a
    duplicate, and the store, hence the listing, is unchanged.  The
    trimmed name is the name given without the white space, Unicode
    white space included, before and after it: it begins and ends with
    no white-space character. *)
Theorem add_category_then_duplicate (db : database) (n : string) :
  ~ In (Py.strip n) (map cat_name (categories db)) ->
  exists id db',
    BudgetDB.add_category db n = (db', Ok id)
    /\ ~ In id (map cat_id (categories db))
    /\ categories_seq db < id
    /\ In (mkCategory id (Py.strip n)) (BudgetDB.list_categories db')
    /\ count_occ string_dec (map cat_name (BudgetDB.list_categories db')) (Py.strip n) = 1%nat
    /\ BudgetDB.add_category db' n = (db', Raise (IntegrityError UniqueFailed))
    /\ BudgetDB.list_categories (fst (BudgetDB.add_category db' n))
       = BudgetDB.list_categories db'
    /\ (Py.strip n <> EmptyString ->
        Flow.add_category_flow db' n = (db', Rejected DuplicateCategory))
    /\ trimmed_of n (Py.strip n).
Proof.
  intro Hfresh.
  set (id := next_rowid (categories_seq db) (map cat_id (categories db))).
  set (db' := mkDatabase (schema db) (categories db ++ [mkCategory id (Py.strip n)]) id
                         (transactions db) (transactions_seq db)).
  exists id, db'.
  destruct (next_rowid_fresh (categories_seq db) (map cat_id (categories db))) as [Hid Hseq].
  assert (Htaken : In (Py.strip n) (map cat_name (categories db'))).
  { simpl. rewrite map_app. apply in_or_app. right. now left. }
  assert (Hdup : BudgetDB.add_category db' n = (db', Raise (IntegrityError UniqueFailed)))
    by now apply add_category_taken.
  split; [now apply add_category_fresh|].
  split; [exact Hid|].
  split; [exact Hseq|].
  split.
  { unfold BudgetDB.list_categories. apply sort_by_In. simpl.
    apply in_or_app. right. now left. }
  split.
  { unfold BudgetDB.list_categories.
    assert (Hp : Permutation
                   (map cat_name
                        (sort_by (fun a b => String.leb (cat_name a) (cat_name b))
                                 (categories db')))
                   (map cat_name (categories db'))) by apply Permutation_map, sort_by_perm.
    rewrite (proj1 (Permutation_count_occ string_dec _ _) Hp).
    simpl. rewrite map_app, count_occ_app. simpl.
    apply (count_occ_not_In string_dec) in Hfresh. rewrite Hfresh.
    destruct (string_dec (Py.strip n) (Py.strip n)); [reflexivity | contradiction]. }
  split; [exact Hdup|].
  split; [now rewrite Hdup|].
  split; [|apply strip_trims].
  intro Hne. unfold Flow.add_category_flow, Flow.prompt.
  assert (Ht : Py.truthy_str (Py.strip n) = true)
    by (destruct (Py.strip n); [contradiction | reflexivity]).
  rewrite Ht. simpl negb. cbv iota.
  rewrite (add_category_taken db' (Py.strip n)); [reflexivity|].
  rewrite strip_idem. exact Htaken.
Qed.

Lemma add_category_then_duplicate_witness :
  exists id db',
    BudgetDB.add_category (BudgetDB.__init__ empty_database) "  Food " = (db', Ok id)
    /\ BudgetDB.add_category db' "  Food " = (db', Raise (IntegrityError UniqueFailed)).
Proof.
  destruct (add_category_then_duplicate (BudgetDB.__init__ empty_database) "  Food ")
    as [id [db' [H1 [_ [_ [_ [_ [H2 _]]]]]]]].
  - vm_compute. intros [].
  - exists id, db'. split; [exact H1 | exact H2].
Defined.

(** ** Report engine: grouping *)

Lemma key_eqb_eq (a b : option string) : key_eqb a b = true <-> a = b.
Proof.
  destruct a as [x|], b as [y|]; simpl; try (split; congruence).
  rewrite String.eqb_eq. split; congruence.
Qed.

Lemma key_taken_iff (k : option string) (l : list (option string)) :
  existsb (key_eqb k) l = true <-> In k l.
Proof.
  rewrite existsb_exists. split.
  - intros [x [H1 H2]]. apply key_eqb_eq in H2. now subst x.
  - intro H. exists k. split; [exact H | now apply key_eqb_eq].
Qed.

Lemma dedup_keys_In (k : option string) (l : list (option string)) :
  In k (dedup_keys l) <-> In k l.
Proof.
  induction l as [|x l IH]; simpl; [reflexivity|].
  destruct (existsb (key_eqb x) l) eqn:E.
  - rewrite IH. apply key_taken_iff in E. split; [tauto|].
    intros [<- | H]; assumption.
  - simpl. now rewrite IH.
Qed.

Lemma dedup_keys_NoDup (l : list (option string)) : NoDup (dedup_keys l).
Proof.
  induction l as [|x l IH]; simpl; [constructor|].
  destruct (existsb (key_eqb x) l) eqn:E; [exact IH|].
  constructor; [|exact IH].
  rewrite dedup_keys_In. intro H. apply key_taken_iff in H. congruence.
Qed.

Lemma joined_name_null (cats : list category) (t : txn) :
  joined_name cats t = None
  <-> txn_category_id t = None
      \/ exists c, txn_category_id t = Some c
                   /\ forall cat, In cat cats -> cat_id cat <> c.
Proof.
  unfold joined_name, find_category.
  destruct (txn_category_id t) as [c|]; [|split; [now left | reflexivity]].
  destruct (find (fun c0 => cat_id c0 =? c) cats) as [cat|] eqn:E; simpl.
  - split; [discriminate|].
    intros [H | [c' [[= <-] H]]]; [discriminate|].
    apply find_some in E. destruct E as [Hin Heq].
    apply Z.eqb_eq in Heq. now apply H in Hin.
  - split; [|reflexivity]. intros _. right. exists c. split; [reflexivity|].
    intros cat Hin Heq. apply (find_none _ _ E) in Hin.
    apply Z.eqb_neq in Hin. contradiction.
Qed.

Lemma joined_name_some (cats : list category) (t : txn) (n : string) :
  joined_name cats t = Some n ->
  exists cat, In cat cats /\ txn_category_id t = Some (cat_id cat) /\ cat_name cat = n.
Proof.
  unfold joined_name, find_category.
  destruct (txn_category_id t) as [c|]; [|discriminate].
  destruct (find (fun c0 => cat_id c0 =? c) cats) as [cat|] eqn:E; simpl; [|discriminate].
  intros [= <-]. apply find_some in E. destruct E as [Hin Heq].
  apply Z.eqb_eq in Heq. exists cat. subst c. auto.
Qed.

Lemma sql_sum_no_match (real_sum : list sqlnum -> Py.float) (ty : string) (g : list txn) :
  (forall t, In t g -> txn_type t <> ty) ->
  BudgetDB.sql_sum real_sum (map (BudgetDB.case_amount ty) g) = SqlInt 0.
Proof.
  intro H. unfold BudgetDB.sql_sum.
  assert (Hz : map (BudgetDB.case_amount ty) g = map (fun _ => SqlInt 0) g).
  { apply map_ext_in. intros t Ht. unfold BudgetDB.case_amount.
    destruct (String.eqb (txn_type t) ty) eqn:E; [|reflexivity].
    apply String.eqb_eq in E. now apply H in Ht. }
  rewrite Hz. clear Hz H.
  induction g as [|t g IH]; simpl; [reflexivity|].
  destruct (forallb is_int (map (fun _ => SqlInt 0) g)); [|discriminate].
  injection IH as IH. now rewrite IH.
Qed.

Lemma summary_keys (real_sum : list sqlnum -> Py.float) (db : database) (year month : Z) :
  map (fun r => fst (fst r)) (BudgetDB.monthly_summary real_sum db year month)
  = sort_by key_leb
      (dedup_keys (map (joined_name (categories db))
                       (filter (BudgetDB.in_month year month) (transactions db)))).
Proof.
  unfold BudgetDB.monthly_summary. rewrite map_map. simpl. apply map_id.
Qed.

(** The two scenarios of the specification: the expense under Food, and
    the same expense once Food is deleted. *)
Lemma summary_scenario (real_sum : list sqlnum -> Py.float) :
  BudgetDB.monthly_summary real_sum groceries_db 2024 3
  = [(Some "Food", SqlInt 0, SqlReal (real_sum [SqlReal f42_5]))]
  /\ BudgetDB.monthly_summary real_sum (fst (BudgetDB.delete_category groceries_db 1)) 2024 3
     = [(None, SqlInt 0, SqlReal (real_sum [SqlReal f42_5]))].
Proof. split; reflexivity. Qed.

(** ** Transaction store: what the flows write *)

Lemma float_abs_nonneg (v : Py.float) :
  Py.is_nan v = false -> Py.float_ge0 (Py.float_abs v) = true.
Proof. destruct v; simpl; intro H; [reflexivity | reflexivity | discriminate | reflexivity]. Qed.

Lemma add_transaction_ok (db db' : database) (date : string) (amount : Py.float)
    (description : string) (category_id : option Z) (txn_type : string) (id : Z) :
  BudgetDB.add_transaction db date amount description category_id txn_type = (db', Ok id) ->
  Py.is_nan amount = false
  /\ id = next_rowid (transactions_seq db) (map txn_id (transactions db))
  /\ categories db' = categories db
  /\ transactions db'
     = transactions db
       ++ [mkTxn id date amount (Py.strip description) category_id txn_type].
Proof.
  unfold BudgetDB.add_transaction, bind_real_not_null.
  destruct (Py.is_nan amount); simpl; [discriminate|].
  destruct (negb _); [discriminate|].
  destruct (match category_id with
            | Some cid => negb (existsb (fun c => cat_id c =? cid) (categories db))
            | None => false
            end); [discriminate|].
  intros [= <- <-]. simpl. auto.
Qed.

Lemma add_transaction_raise (db db' : database) (date : string) (amount : Py.float)
    (description : string) (category_id : option Z) (txn_type : string) (e : exn) :
  BudgetDB.add_transaction db date amount description category_id txn_type = (db', Raise e) ->
  db' = db.
Proof.
  unfold BudgetDB.add_transaction.
  destruct (negb (bind_real_not_null amount)); [now intros [= <- _]|].
  destruct (negb _); [now intros [= <- _]|].
  destruct (match category_id with
            | Some cid => negb (existsb (fun c => cat_id c =? cid) (categories db))
            | None => false
            end); [now intros [= <- _] | discriminate].
Qed.

Lemma add_category_transactions (db : database) (n : string) :
  transactions (fst (BudgetDB.add_category db n)) = transactions db.
Proof.
  unfold BudgetDB.add_category. destruct (existsb _ _); reflexivity.
Qed.

Lemma delete_category_nonneg (db : database) (c : Z) :
  amounts_nonneg (transactions db) ->
  amounts_nonneg (transactions (fst (BudgetDB.delete_category db c))).
Proof.
  intros H t. unfold BudgetDB.delete_category. simpl.
  destruct (filter (fun c0 => cat_id c0 =? c) (categories db)); [apply H|].
  rewrite in_map_iff. intros [u [<- Hu]]. apply H in Hu.
  unfold BudgetDB.set_null. destruct (txn_category_id u) as [k|]; [|exact Hu].
  destruct (k =? c); exact Hu.
Qed.

Lemma delete_transaction_nonneg (db : database) (i : Z) :
  amounts_nonneg (transactions db) ->
  amounts_nonneg (transactions (fst (BudgetDB.delete_transaction db i))).
Proof.
  intros H t. unfold BudgetDB.delete_transaction. simpl.
  rewrite filter_In. intros [Ht _]. now apply H.
Qed.

Section FlowProperties.
Variable strptime : string -> option (Z * Z * Z).
Variable float_of_str : string -> option Py.float.
Variable int_of_str : string -> option Z.


(** What a recorded transaction looks like. *)
Lemma add_transaction_flow_done (db db' : database) (lines : txn_lines) (id : Z) :
  Flow.add_transaction_flow strptime float_of_str int_of_str db lines = (db', Done id) ->
  exists y m d v category_id,
    strptime (Flow.prompt (line_date lines)) = Some (y, m, d)
    /\ float_of_str (Flow.prompt (line_amount lines)) = Some v
    /\ Py.is_nan v = false
    /\ transactions db'
       = transactions db
         ++ [mkTxn id (Date.isoformat y m d) (Py.float_abs v)
                   (Py.strip (Flow.prompt (line_description lines))) category_id
                   (if Py.float_ge0 v then "income" else "expense")].
Proof.
  unfold Flow.add_transaction_flow.
  destruct (strptime _) as [[[y m] d]|]; [|discriminate].
  destruct (float_of_str _) as [v|]; [|discriminate].
  destruct (if Py.truthy_str (Flow.prompt (line_category lines)) then _ else _)
    as [category_id|]; [|discriminate].
  destruct (BudgetDB.add_transaction _ _ _ _ _ _) as [db1 [i|e]] eqn:E; [|discriminate].
  intros [= <- <-]. apply add_transaction_ok in E.
  destruct E as [Hnan [_ [_ Htx]]].
  exists y, m, d, v, category_id. repeat split; auto.
  destruct v; try reflexivity; discriminate.
Qed.

(** The flow does record: a date the parser accepts, a number that is
    not a NaN and a blank category line give a new row, whose id no
    stored transaction has. *)
Lemma add_transaction_flow_records (db : database) (lines : txn_lines)
    (y m d : Z) (v : Py.float) :
  strptime (Flow.prompt (line_date lines)) = Some (y, m, d) ->
  float_of_str (Flow.prompt (line_amount lines)) = Some v ->
  Py.is_nan v = false ->
  Flow.prompt (line_category lines) = EmptyString ->
  exists db' id,
    Flow.add_transaction_flow strptime float_of_str int_of_str db lines = (db', Done id)
    /\ ~ In id (map txn_id (transactions db)).
Proof.
  intros Hd Hv Hnan Hc. unfold Flow.add_transaction_flow.
  rewrite Hd, Hv, Hc. simpl Py.truthy_str. cbv iota.
  unfold BudgetDB.add_transaction, bind_real_not_null.
  assert (Habs : Py.is_nan (Py.float_abs v) = false) by (destruct v; auto).
  rewrite Habs. simpl negb. cbv iota.
  destruct (Py.float_ge0 v); simpl; eexists; eexists; (split; [reflexivity|]);
    apply next_rowid_fresh.
Qed.

Lemma add_transaction_flow_other (db db' : database) (lines : txn_lines) (o : outcome) :
  Flow.add_transaction_flow strptime float_of_str int_of_str db lines = (db', o) ->
  (forall id, o <> Done id) -> db' = db.
Proof.
  unfold Flow.add_transaction_flow.
  destruct (strptime _) as [[[y m] d]|]; [|now intros [= <- _]].
  destruct (float_of_str _) as [v|]; [|now intros [= <- _]].
  destruct (if Py.truthy_str (Flow.prompt (line_category lines)) then _ else _)
    as [category_id|]; [|now intros [= <- _]].
  destruct (BudgetDB.add_transaction _ _ _ _ _ _) as [db1 [i|e]] eqn:E.
  - intros [= <- <-] H. now contradiction (H i).
  - intros [= <- _] _. now apply add_transaction_raise in E.
Qed.

Lemma run_command_nonneg (db : database) (c : command) :
  amounts_nonneg (transactions db) ->
  amounts_nonneg
    (transactions (fst (Flow.run_command strptime float_of_str int_of_str db c))).
Proof.
  intro H. destruct c as [line | line | lines | line]; simpl.
  - unfold Flow.add_category_flow.
    destruct (negb _); [exact H|].
    pose proof (add_category_transactions db (Flow.prompt line)) as Ht.
    destruct (BudgetDB.add_category db (Flow.prompt line)) as [db1 [i|[w]]];
      simpl in *; now rewrite Ht.
  - unfold Flow.delete_category_flow.
    destruct (int_of_str _) as [cid|]; [|exact H].
    pose proof (delete_category_nonneg db cid H) as Hd.
    destruct (BudgetDB.delete_category db cid) as [db1 [|]]; exact Hd.
  - destruct (Flow.add_transaction_flow strptime float_of_str int_of_str db lines)
      as [db1 o] eqn:E.
    simpl.
    destruct o as [id | why | e].
    + apply add_transaction_flow_done in E.
      destruct E as [y [m [d [v [cid [_ [_ [Hnan Htx]]]]]]]].
      rewrite Htx. intros t Ht. apply in_app_or in Ht.
      destruct Ht as [Ht | [<- | []]]; [now apply H|].
      simpl. now apply float_abs_nonneg.
    + apply add_transaction_flow_other in E; [now subst | discriminate].
    + apply add_transaction_flow_other in E; [now subst | discriminate].
  - unfold Flow.delete_transaction_flow.
    destruct (int_of_str _) as [tid|]; [|exact H].
    pose proof (delete_transaction_nonneg db tid H) as Hd.
    destruct (BudgetDB.delete_transaction db tid) as [db1 [|]]; exact Hd.
Qed.

Lemma main_loop_nonneg (cs : list command) (db : database) :
  amounts_nonneg (transactions db) ->
  amounts_nonneg (transactions (Flow.main_loop strptime float_of_str int_of_str db cs)).
Proof.
  revert db. induction cs as [|c cs IH]; intros db H; simpl; [exact H|].
  pose proof (run_command_nonneg db c H) as Hc.
  destruct (Flow.run_command strptime float_of_str int_of_str db c)
    as [db1 [id | why | e]]; simpl in Hc;
    [now apply IH | now apply IH | exact Hc].
Qed.

(** C7. In a store the program has reached from a file whose amounts are
    non-negative (a new file, say), every amount is non-negative; and the
    transaction [add_transaction_flow] records for the typed value [v] is
    appended with amount [abs v], of type income when [v >= 0] and
    expense otherwise, which keeps the amounts non-negative. *)
Theorem signed_amount_stored_as_magnitude
    (file : database) (cs : list command) (lines : txn_lines)
    (v : Py.float) (db' : database) (id : Z) :
  let db := Flow.main strptime float_of_str int_of_str file cs in
  amounts_nonneg (transactions file) ->
  float_of_str (Flow.prompt (line_amount lines)) = Some v ->
  Flow.add_transaction_flow strptime float_of_str int_of_str db lines = (db', Done id) ->
  amounts_nonneg (transactions db)
  /\ (exists t, transactions db' = transactions db ++ [t]
                /\ txn_id t = id
                /\ txn_amount t = Py.float_abs v
                /\ txn_type t = (if Py.float_ge0 v then "income" else "expense")
                /\ Py.float_ge0 (txn_amount t) = true)
  /\ amounts_nonneg (transactions db').
Proof.
  cbv zeta. intros Hfile Hv Hflow.
  assert (Hdb : amounts_nonneg
                  (transactions (Flow.main strptime float_of_str int_of_str file cs))).
  { unfold Flow.main. apply main_loop_nonneg. exact Hfile. }
  split; [exact Hdb|].
  pose proof (run_command_nonneg (Flow.main strptime float_of_str int_of_str file cs)
                (AddTransaction lines) Hdb) as Hafter.
  simpl in Hafter. rewrite Hflow in Hafter. simpl in Hafter.
  split; [|exact Hafter].
  apply add_transaction_flow_done in Hflow.
  destruct Hflow as [y [m [d [v' [cid [_ [Hv' [Hnan Htx]]]]]]]].
  rewrite Hv in Hv'. injection Hv' as <-.
  eexists. split; [exact Htx|]. simpl.
  repeat split. now apply float_abs_nonneg.
Qed.

(** C8. A date that [strptime] refuses makes [add_transaction_flow]
    report the invalid date and return at once: the store it returns is
    the store it was given, so no transaction is added or changed. *)
Theorem invalid_date_rejected_before_write (db : database) (lines : txn_lines) :
  strptime (Flow.prompt (line_date lines)) = None ->
  Flow.add_transaction_flow strptime float_of_str int_of_str db lines
  = (db, Rejected InvalidDate)
  /\ transactions
       (fst (Flow.add_transaction_flow strptime float_of_str int_of_str db lines))
     = transactions db.
Proof.
  intro H. unfold Flow.add_transaction_flow. rewrite H. split; reflexivity.
Qed.

End FlowProperties.

Lemma signed_amount_stored_as_magnitude_witness :
  exists t,
    transactions groceries_db = transactions food_db ++ [t]
    /\ txn_amount t = f42_5 /\ txn_type t = "expense".
Proof.
  destruct (signed_amount_stored_as_magnitude Date.strptime_ymd sample_float sample_int
              empty_database [AddCategory "Food"] groceries_lines fminus42_5
              groceries_db 1) as [_ [[t [H1 [_ [H2 [H3 _]]]]] _]].
  - intros t [].
  - reflexivity.
  - vm_compute. reflexivity.
  - exists t. split; [exact H1|]. split; [exact H2 | exact H3].
Defined.

Lemma invalid_date_rejected_before_write_witness :
  Flow.add_transaction_flow Date.strptime_ymd sample_float sample_int groceries_db
    (mkTxnLines "2024-02-30" "-42.50" "Groceries" "1")
  = (groceries_db, Rejected InvalidDate).
Proof.
  refine (proj1 (invalid_date_rejected_before_write Date.strptime_ymd sample_float sample_int
                   groceries_db (mkTxnLines "2024-02-30" "-42.50" "Groceries" "1") _)).
  vm_compute. reflexivity.
Defined.

(** ** Report engine: the month interval *)

Lemma upto_forallb (P : Z -> bool) (n : Z) :
  forallb P (upto n) = true -> forall z, 0 <= z < n -> P z = true.
Proof.
  intros H z Hz. rewrite forallb_forall in H. apply H.
  unfold upto. apply in_map_iff. exists (Z.to_nat z).
  split; [lia|]. apply in_seq. lia.
Qed.

Lemma format2_length (a : Z) : 0 <= a <= 99 -> String.length (Py.format_0d 2 a) = 2%nat.
Proof.
  intro H.
  apply Nat.eqb_eq.
  apply (upto_forallb (fun z => Nat.eqb (String.length (Py.format_0d 2 z)) 2) 100);
    [vm_compute; reflexivity | lia].
Qed.

Lemma comparison_eqb_eq (c1 c2 : comparison) : comparison_eqb c1 c2 = true -> c1 = c2.
Proof. destruct c1, c2; simpl; congruence. Qed.

Lemma format2_compare (a b : Z) :
  0 <= a <= 99 -> 0 <= b <= 99 ->
  String.compare (Py.format_0d 2 a) (Py.format_0d 2 b) = (a ?= b).
Proof.
  intros Ha Hb. apply comparison_eqb_eq.
  assert (H : forallb (fun x => forallb (fun y =>
                comparison_eqb (String.compare (Py.format_0d 2 x) (Py.format_0d 2 y))
                               (x ?= y)) (upto 100)) (upto 100) = true)
    by (vm_compute; reflexivity).
  pose proof (upto_forallb _ _ H a ltac:(lia)) as H1. cbv beta in H1.
  apply (upto_forallb _ _ H1 b). lia.
Qed.

Lemma format4_split (y : Z) :
  0 <= y <= 9999 ->
  Py.format_0d 4 y = (Py.format_0d 2 (y / 100) ++ Py.format_0d 2 (y mod 100))%string.
Proof.
  intro H. apply String.eqb_eq.
  apply (upto_forallb
           (fun z => String.eqb (Py.format_0d 4 z)
                       (Py.format_0d 2 (z / 100) ++ Py.format_0d 2 (z mod 100))%string)
           10000);
    [vm_compute; reflexivity | lia].
Qed.

Lemma string_length_app (a b : string) :
  String.length (a ++ b) = (String.length a + String.length b)%nat.
Proof. induction a as [|c a IH]; simpl; [reflexivity | now rewrite IH]. Qed.

Lemma centuries (y : Z) :
  0 <= y <= 9999 -> 0 <= y / 100 <= 99 /\ 0 <= y mod 100 <= 99.
Proof.
  intro H. pose proof (Z.mod_pos_bound y 100 ltac:(lia)).
  assert (y / 100 < 100) by (apply Z.div_lt_upper_bound; lia).
  assert (0 <= y / 100) by (apply Z.div_pos; lia).
  lia.
Qed.

Lemma format4_length (y : Z) : 0 <= y <= 9999 -> String.length (Py.format_0d 4 y) = 4%nat.
Proof.
  intro H. rewrite (format4_split y H), string_length_app.
  destruct (centuries y H) as [Hq Hr].
  now rewrite !format2_length.
Qed.

Lemma format4_compare (a b : Z) :
  0 <= a <= 9999 -> 0 <= b <= 9999 ->
  String.compare (Py.format_0d 4 a) (Py.format_0d 4 b) = (a ?= b).
Proof.
  intros Ha Hb.
  destruct (centuries a Ha) as [Qa Ra]. destruct (centuries b Hb) as [Qb Rb].
  rewrite (format4_split a Ha), (format4_split b Hb).
  rewrite string_compare_app by now rewrite !format2_length.
  rewrite !format2_compare by assumption.
  pose proof (Z.div_mod a 100 ltac:(lia)) as Ea.
  pose proof (Z.div_mod b 100 ltac:(lia)) as Eb.
  destruct (Z.compare_spec (a / 100) (b / 100)) as [E | E | E];
    destruct (Z.compare_spec (a mod 100) (b mod 100)) as [E' | E' | E'];
    symmetry;
    first [ apply Z.compare_eq_iff; lia
          | apply Z.compare_lt_iff; lia
          | apply Z.compare_gt_iff; lia ].
Qed.

(** ISO dates compare as strings the way the dates compare in the
    calendar, as long as the year has four digits. *)
Lemma isoformat_compare (y1 m1 d1 y2 m2 d2 : Z) :
  0 <= y1 <= 9999 -> 0 <= m1 <= 99 -> 0 <= d1 <= 99 ->
  0 <= y2 <= 9999 -> 0 <= m2 <= 99 -> 0 <= d2 <= 99 ->
  String.compare (Date.isoformat y1 m1 d1) (Date.isoformat y2 m2 d2)
  = date_compare (y1, m1, d1) (y2, m2, d2).
Proof.
  intros Hy1 Hm1 Hd1 Hy2 Hm2 Hd2. unfold Date.isoformat, date_compare.
  rewrite string_compare_app by (rewrite !format4_length; auto).
  rewrite format4_compare by auto.
  destruct (y1 ?= y2); try reflexivity.
  change (("-" ++ Py.format_0d 2 m1 ++ "-" ++ Py.format_0d 2 d1)%string)
    with (String "-" (Py.format_0d 2 m1 ++ String "-" (Py.format_0d 2 d1))%string).
  change (("-" ++ Py.format_0d 2 m2 ++ "-" ++ Py.format_0d 2 d2)%string)
    with (String "-" (Py.format_0d 2 m2 ++ String "-" (Py.format_0d 2 d2))%string).
  cbn [String.compare]. rewrite ascii_compare_refl.
  rewrite string_compare_app by (rewrite !format2_length; auto).
  rewrite format2_compare by auto.
  destruct (m1 ?= m2); try reflexivity.
  cbn [String.compare]. rewrite ascii_compare_refl.
  now apply format2_compare.
Qed.

Lemma month_bounds_iso (y m : Z) :
  BudgetDB.month_bounds y m
  = (Date.isoformat y m 1,
     let '(y', m', d') := next_month_start y m in Date.isoformat y' m' d').
Proof.
  unfold BudgetDB.month_bounds, next_month_start, Date.isoformat.
  destruct (m =? 12); reflexivity.
Qed.

Lemma valid_bounds (Y M D : Z) :
  Date.valid Y M D = true -> 1 <= Y <= 9999 /\ 1 <= M <= 12 /\ 1 <= D <= 31.
Proof.
  unfold Date.valid. rewrite !andb_true_iff, !Z.leb_le.
  intros [[[[[H1 H2] H3] H4] H5] H6].
  assert (Date.days_in_month Y M <= 31).
  { unfold Date.days_in_month.
    destruct (M =? 2); [destruct (Date.is_leap Y); lia|].
    destruct (_ || _); lia. }
  lia.
Qed.

Lemma date_le_iff (y1 m1 d1 y2 m2 d2 : Z) :
  match date_compare (y1, m1, d1) (y2, m2, d2) with Gt => false | _ => true end = true
  <-> y1 < y2 \/ (y1 = y2 /\ (m1 < m2 \/ (m1 = m2 /\ d1 <= d2))).
Proof.
  unfold date_compare.
  destruct (Z.compare_spec y1 y2); destruct (Z.compare_spec m1 m2);
    destruct (Z.compare_spec d1 d2); split; intro; try discriminate; try reflexivity; lia.
Qed.

Lemma date_lt_iff (y1 m1 d1 y2 m2 d2 : Z) :
  match date_compare (y1, m1, d1) (y2, m2, d2) with Lt => true | _ => false end = true
  <-> y1 < y2 \/ (y1 = y2 /\ (m1 < m2 \/ (m1 = m2 /\ d1 < d2))).
Proof.
  unfold date_compare.
  destruct (Z.compare_spec y1 y2); destruct (Z.compare_spec m1 m2);
    destruct (Z.compare_spec d1 d2); split; intro; try discriminate; try reflexivity; lia.
Qed.

(** For a year from 1 to 9999 and a month from 1 to 12 other than
    December 9999, [in_month] selects exactly the ISO dates of the
    half-open interval from the first day of the month to the first day
    of the next one, that is the dates of that month. *)
Lemma in_month_calendar (y m Y M D : Z) (t : txn) :
  1 <= y <= 9999 -> 1 <= m <= 12 -> (y, m) <> (9999, 12) ->
  Date.valid Y M D = true ->
  txn_date t = Date.isoformat Y M D ->
  BudgetDB.in_month y m t = in_month_interval y m (Y, M, D)
  /\ (BudgetDB.in_month y m t = true <-> Y = y /\ M = m).
Proof.
  intros Hy Hm Hne Hvalid Hdate.
  apply valid_bounds in Hvalid. destruct Hvalid as [HY [HM HD]].
  assert (Heq : BudgetDB.in_month y m t = in_month_interval y m (Y, M, D)).
  { unfold BudgetDB.in_month. rewrite month_bounds_iso, Hdate.
    unfold in_month_interval, String.leb, String.ltb.
    rewrite isoformat_compare by lia.
    unfold next_month_start.
    destruct (m =? 12) eqn:E12.
    - apply Z.eqb_eq in E12. subst m.
      assert (y <> 9999) by (intro; subst; now contradiction Hne).
      rewrite isoformat_compare by lia. reflexivity.
    - apply Z.eqb_neq in E12. rewrite isoformat_compare by lia. reflexivity. }
  split; [exact Heq|].
  rewrite Heq. unfold in_month_interval. rewrite andb_true_iff, date_le_iff.
  unfold next_month_start.
  destruct (m =? 12) eqn:E12; [apply Z.eqb_eq in E12 | apply Z.eqb_neq in E12];
    rewrite date_lt_iff; lia.
Qed.

Lemma in_month_calendar_witness :
  BudgetDB.in_month 2024 3 (mkTxn 1 "2024-03-15" f42_5 "Groceries" (Some 1) "expense")
  = true.
Proof.
  apply (proj2 (in_month_calendar 2024 3 2024 3 15
                  (mkTxn 1 "2024-03-15" f42_5 "Groceries" (Some 1) "expense")
                  ltac:(lia) ltac:(lia) ltac:(congruence) eq_refl eq_refl)).
  split; reflexivity.
Defined.

(** The boundary of the year: for a year up to 9998, 31 December is
    counted by the summary of December of that year and not by that of
    the next January; 1 January of the next year the other way round. *)
Lemma year_boundary_not_double_counted (y : Z) (t31 t01 : txn) :
  1 <= y <= 9998 ->
  txn_date t31 = Date.isoformat y 12 31 ->
  txn_date t01 = Date.isoformat (y + 1) 1 1 ->
  BudgetDB.in_month y 12 t31 = true
  /\ BudgetDB.in_month (y + 1) 1 t31 = false
  /\ BudgetDB.in_month y 12 t01 = false
  /\ BudgetDB.in_month (y + 1) 1 t01 = true.
Proof.
  intros Hy H31 H01.
  assert (V31 : Date.valid y 12 31 = true).
  { unfold Date.valid. change (Date.days_in_month y 12) with 31.
    rewrite !andb_true_iff, !Z.leb_le. lia. }
  assert (V01 : Date.valid (y + 1) 1 1 = true).
  { unfold Date.valid. change (Date.days_in_month (y + 1) 1) with 31.
    rewrite !andb_true_iff, !Z.leb_le. lia. }
  assert (N1 : (y, 12) <> (9999, 12)) by (intros [= ?]; lia).
  assert (N2 : (y + 1, 1) <> (9999, 12)) by (intros [= ? ?]).
  destruct (in_month_calendar y 12 y 12 31 t31 ltac:(lia) ltac:(lia) N1 V31 H31) as [_ A].
  destruct (in_month_calendar (y + 1) 1 y 12 31 t31 ltac:(lia) ltac:(lia) N2 V31 H31) as [_ B].
  destruct (in_month_calendar y 12 (y + 1) 1 1 t01 ltac:(lia) ltac:(lia) N1 V01 H01) as [_ C].
  destruct (in_month_calendar (y + 1) 1 (y + 1) 1 1 t01 ltac:(lia) ltac:(lia) N2 V01 H01)
    as [_ E].
  split; [apply A; auto|].
  split.
  { destruct (BudgetDB.in_month (y + 1) 1 t31); [|reflexivity].
    assert (y = y + 1 /\ 12 = 1) by now apply B. lia. }
  split; [|apply E; auto].
  destruct (BudgetDB.in_month y 12 t01); [|reflexivity].
  assert (y + 1 = y /\ 1 = 12) by now apply C. lia.
Qed.

(** C1 at December 9999.  The date 9999-12-31 is accepted by
    [add_transaction_flow] and stored; it lies in the half-open interval
    of December 9999; but [monthly_summary 9999 12] compares it with the
    end bound [10000-01-01], which as a string is below every date of a
    four-digit year, so the transaction is left out and the summary of
    its month is empty. *)
Theorem december_9999_not_summarised (real_sum : list sqlnum -> Py.float) :
  Flow.add_transaction_flow Date.strptime_ymd sample_float sample_int food_db last_day_lines
  = (last_day_db, Done 1)
  /\ transactions last_day_db
     = [mkTxn 1 "9999-12-31" f42_5 "Groceries" (Some 1) "expense"]
  /\ in_month_interval 9999 12 (9999, 12, 31) = true
  /\ BudgetDB.month_bounds 9999 12 = ("9999-12-01", "10000-01-01")
  /\ BudgetDB.in_month 9999 12 (mkTxn 1 "9999-12-31" f42_5 "Groceries" (Some 1) "expense")
     = false
  /\ BudgetDB.monthly_summary real_sum last_day_db 9999 12 = [].
Proof.
  repeat split; vm_compute; reflexivity.
Qed.

(** C5 at December 9999.  The store holds one expense of the category
    Food dated 9999-12-31, a day of December 9999.  Grouping the
    transactions of that month by resolved category name gives one row,
    for Food, with the income total 0 and the expense total the sum of
    that one amount; [monthly_summary 9999 12] returns no row at all,
    since its end bound [10000-01-01] is, as a string, below every date
    of a four-digit year: it does not group the transactions of that
    month.  The defect is the one met in C1. *)
Theorem december_9999_group_missing (real_sum : list sqlnum -> Py.float) :
  let t := mkTxn 1 "9999-12-31" f42_5 "Groceries" (Some 1) "expense" in
  transactions last_day_db = [t]
  /\ categories last_day_db = [mkCategory 1 "Food"]
  /\ dated_in 9999 12 t = true
  /\ joined_name (categories last_day_db) t = Some "Food"
  /\ groups_month real_sum last_day_db 9999 12
       [(Some "Food", SqlInt 0, SqlReal (real_sum [SqlReal f42_5]))]
  /\ BudgetDB.monthly_summary real_sum last_day_db 9999 12 = []
  /\ ~ groups_month real_sum last_day_db 9999 12
         (BudgetDB.monthly_summary real_sum last_day_db 9999 12).
Proof.
  cbv zeta.
  assert (Ht : transactions last_day_db
               = [mkTxn 1 "9999-12-31" f42_5 "Groceries" (Some 1) "expense"])
    by (vm_compute; reflexivity).
  assert (Hc : categories last_day_db = [mkCategory 1 "Food"]) by (vm_compute; reflexivity).
  assert (Hd : dated_in 9999 12 (mkTxn 1 "9999-12-31" f42_5 "Groceries" (Some 1) "expense")
               = true) by (vm_compute; reflexivity).
  assert (Hs : BudgetDB.monthly_summary real_sum last_day_db 9999 12 = [])
    by (vm_compute; reflexivity).
  split; [exact Ht|]. split; [exact Hc|]. split; [exact Hd|].
  split; [rewrite Hc; reflexivity|].
  split; [|split; [exact Hs|]].
  - unfold groups_month. rewrite Ht, Hc. cbv zeta.
    cbn [filter]. rewrite Hd.
    split; [simpl; constructor; [intros [] | constructor]|].
    split.
    + intro k. simpl. split.
      * intros [<- | []]. eexists. split; [now left | reflexivity].
      * intros [u [[<- | []] <-]]. now left.
    + intros k inc exp [[= <- <- <-] | []]. split; vm_compute; reflexivity.
  - rewrite Hs. intros [_ [Hk _]]. rewrite Ht, Hc in Hk.
    cbn [filter] in Hk. rewrite Hd in Hk.
    destruct (Hk (Some "Food")) as [_ H]. apply H.
    eexists. split; [now left | reflexivity].
Qed.

(* ================================================================== *)
(** * Further properties of the store and of the flows *)

(** ** Order of names, and filters under ORDER BY *)

Lemma string_leb_trans (a b c : string) :
  String.leb a b = true -> String.leb b c = true -> String.leb a c = true.
Proof.
  unfold String.leb.
  destruct (String.compare a b) eqn:Eab; try discriminate; intros _;
    destruct (String.compare b c) eqn:Ebc; try discriminate; intros _.
  - apply String.compare_eq_iff in Eab. subst b. now rewrite Ebc.
  - apply String.compare_eq_iff in Eab. subst b. now rewrite Ebc.
  - apply String.compare_eq_iff in Ebc. subst c. now rewrite Eab.
  - now rewrite (string_compare_lt_trans _ _ _ Eab Ebc).
Qed.

Lemma string_ltb_not_leb (a b : string) :
  String.ltb a b = true -> String.leb b a = false.
Proof.
  unfold String.ltb, String.leb. rewrite (String.compare_antisym b a).
  destruct (String.compare a b); simpl; congruence.
Qed.

Section FilterSort.
Context {A : Type} (le : A -> A -> bool) (p : A -> bool).
Hypothesis le_trans : forall a b c, le a b = true -> le b c = true -> le a c = true.

Lemma insert_by_front (x : A) (l : list A) :
  Forall (fun z => le x z = true) l -> insert_by le x l = x :: l.
Proof. destruct 1 as [|z l Hz _]; simpl; [reflexivity | now rewrite Hz]. Qed.

Lemma insert_by_filter_drop (x : A) (l : list A) :
  p x = false -> filter p (insert_by le x l) = filter p l.
Proof.
  intro Hx. induction l as [|y l IH]; simpl; [now rewrite Hx|].
  destruct (le x y); simpl; [now rewrite Hx|]. now rewrite IH.
Qed.

Lemma insert_by_filter_keep (x : A) (l : list A) :
  StronglySorted (fun a b => le a b = true) l ->
  p x = true -> filter p (insert_by le x l) = insert_by le x (filter p l).
Proof.
  intros Hs Hx. induction Hs as [|y l Hs IH Hall]; simpl; [now rewrite Hx|].
  destruct (le x y) eqn:Exy; simpl.
  - rewrite Hx. destruct (p y); simpl; [now rewrite Exy|].
    symmetry. apply insert_by_front.
    apply Forall_forall. intros z Hz. apply filter_In in Hz.
    rewrite Forall_forall in Hall. apply le_trans with y; [exact Exy|].
    now apply Hall.
  - destruct (p y); simpl; [rewrite Exy|]; now rewrite IH.
Qed.

Hypothesis le_total : forall a b, le a b = true \/ le b a = true.

(** Filtering a sorted list and sorting a filtered one give the same
    list. *)
Lemma filter_sort_by (l : list A) : filter p (sort_by le l) = sort_by le (filter p l).
Proof.
  induction l as [|x l IH]; simpl; [reflexivity|].
  destruct (p x) eqn:Hx.
  - rewrite insert_by_filter_keep; [|apply sort_by_sorted; assumption|exact Hx].
    simpl. now rewrite IH.
  - rewrite insert_by_filter_drop by exact Hx. exact IH.
Qed.
End FilterSort.

Lemma filter_all {A : Type} (p : A -> bool) (l : list A) :
  (forall x, In x l -> p x = true) -> filter p l = l.
Proof.
  induction l as [|x l IH]; simpl; intro H; [reflexivity|].
  rewrite (H x (or_introl eq_refl)). f_equal. apply IH. auto.
Qed.

Lemma filter_none {A : Type} (p : A -> bool) (l : list A) :
  (forall x, In x l -> p x = false) -> filter p l = [].
Proof.
  induction l as [|x l IH]; simpl; intro H; [reflexivity|].
  rewrite (H x (or_introl eq_refl)). apply IH. auto.
Qed.

Lemma database_eta (db : database) :
  mkDatabase (schema db) (categories db) (categories_seq db)
             (transactions db) (transactions_seq db) = db.
Proof. now destruct db. Qed.

(** ** Deleting rows *)

Lemma list_all_eq (db : database) :
  BudgetDB.list_transactions db None None None
  = sort_by BudgetDB.recent_first (transactions db).
Proof.
  unfold BudgetDB.list_transactions. f_equal. now apply filter_all.
Qed.

Lemma rowcount_positive {A : Type} (p : A -> bool) (l : list A) :
  (0 <? Z.of_nat (List.length (filter p l))) = true <-> exists x, In x l /\ p x = true.
Proof.
  rewrite Z.ltb_lt. split.
  - destruct (filter p l) as [|x r] eqn:E; simpl; [lia|].
    intros _. exists x. apply filter_In. rewrite E. now left.
  - intros [x Hx]. apply filter_In in Hx.
    destruct (filter p l); [contradiction | simpl; lia].
Qed.

Lemma filter_negb_id_absent {A : Type} (key : A -> Z) (i : Z) (l : list A) :
  ~ In i (map key (filter (fun x => negb (key x =? i)) l)).
Proof.
  rewrite in_map_iff. intros [x [Hk Hx]]. apply filter_In in Hx.
  destruct Hx as [_ Hx]. rewrite Hk, Z.eqb_refl in Hx. discriminate.
Qed.

Lemma filter_negb_id_all {A : Type} (key : A -> Z) (i : Z) (l : list A) :
  ~ In i (map key l) -> filter (fun x => negb (key x =? i)) l = l.
Proof.
  intro H. apply filter_all. intros x Hx.
  destruct (key x =? i) eqn:E; [|reflexivity].
  apply Z.eqb_eq in E. exfalso. apply H. rewrite <- E. now apply in_map.
Qed.

Lemma id_present_iff {A : Type} (key : A -> Z) (i : Z) (l : list A) :
  (exists x, In x l /\ (key x =? i) = true) <-> In i (map key l).
Proof.
  rewrite in_map_iff. split; intros [x [H1 H2]]; exists x.
  - apply Z.eqb_eq in H2. tauto.
  - rewrite H1, Z.eqb_refl. tauto.
Qed.

(** X1.  [delete_transaction] answers whether the id was there; the listing
    afterwards is the listing before without the rows of that id, in the
    same order; the categories are untouched, and an unknown id leaves
    the whole store as it was. *)
Theorem delete_transaction_removes_only_that_id (db : database) (i : Z) :
  let db' := fst (BudgetDB.delete_transaction db i) in
  (snd (BudgetDB.delete_transaction db i) = true <-> In i (map txn_id (transactions db)))
  /\ BudgetDB.list_transactions db' None None None
     = filter (fun t => negb (txn_id t =? i))
              (BudgetDB.list_transactions db None None None)
  /\ ~ In i (map txn_id (transactions db'))
  /\ categories db' = categories db
  /\ (snd (BudgetDB.delete_transaction db i) = false -> db' = db).
Proof.
  cbv zeta. unfold BudgetDB.delete_transaction. simpl.
  assert (Hret : (0 <? Z.of_nat (List.length
                                   (filter (fun t => txn_id t =? i) (transactions db)))) = true
                 <-> In i (map txn_id (transactions db))).
  { rewrite rowcount_positive. apply id_present_iff. }
  split; [exact Hret|].
  split.
  { rewrite !list_all_eq. simpl.
    rewrite filter_sort_by;
      [reflexivity | exact recent_first_trans | exact recent_first_total]. }
  split; [apply filter_negb_id_absent|].
  split; [reflexivity|].
  intro Hfalse.
  rewrite filter_negb_id_all; [apply database_eta|].
  intro Hin. apply Hret in Hin. congruence.
Qed.

(** X2.  [delete_category] answers whether the id was there; an unknown id
    leaves the whole store as it was (also the transactions that refer
    to it); a known one disappears from [list_categories], whose other
    rows stay in their order. *)
Theorem delete_category_unknown_or_known (db : database) (c : Z) :
  let db' := fst (BudgetDB.delete_category db c) in
  (snd (BudgetDB.delete_category db c) = true <-> In c (map cat_id (categories db)))
  /\ (snd (BudgetDB.delete_category db c) = false -> db' = db)
  /\ BudgetDB.list_categories db'
     = filter (fun cat => negb (cat_id cat =? c)) (BudgetDB.list_categories db)
  /\ ~ In c (map cat_id (categories db')).
Proof.
  cbv zeta. unfold BudgetDB.delete_category. simpl.
  assert (Hret : (0 <? Z.of_nat (List.length
                                   (filter (fun x => cat_id x =? c) (categories db)))) = true
                 <-> In c (map cat_id (categories db))).
  { rewrite rowcount_positive. apply id_present_iff. }
  split; [exact Hret|].
  split.
  { intro Hfalse.
    assert (Hno : ~ In c (map cat_id (categories db)))
      by (intro Hin; apply Hret in Hin; congruence).
    rewrite filter_negb_id_all by exact Hno.
    destruct (filter (fun x => cat_id x =? c) (categories db)) as [|x r] eqn:E;
      [apply database_eta|].
    simpl in Hfalse. apply Z.ltb_ge in Hfalse. lia. }
  split; [|apply filter_negb_id_absent].
  unfold BudgetDB.list_categories. simpl.
  rewrite filter_sort_by; [reflexivity | |].
  - intros x y z. apply string_leb_trans.
  - intros x y. apply String.leb_total.
Qed.

(** ** Listings *)

(** X3.  [list_categories] returns every category row once, in ascending
    order of name (byte-wise), and nothing when there is no category. *)
Theorem list_categories_sorted_by_name (db : database) :
  Permutation (BudgetDB.list_categories db) (categories db)
  /\ StronglySorted (fun a b => String.leb (cat_name a) (cat_name b) = true)
                    (BudgetDB.list_categories db)
  /\ (BudgetDB.list_categories db = [] <-> categories db = []).
Proof.
  unfold BudgetDB.list_categories.
  split; [apply sort_by_perm|].
  split; [|apply sort_by_nil_iff].
  apply sort_by_sorted.
  - intros x y. apply String.leb_total.
  - intros x y z. apply string_leb_trans.
Qed.

(** X4.  A filtered listing is the full listing with the rows that do not
    match removed: the rows kept stand in the order they have in the
    full listing. *)
Theorem filtered_listing_is_sublisting
    (db : database) (c : option Z) (s e : option string) :
  BudgetDB.list_transactions db c s e
  = filter (BudgetDB.where_clause c s e) (BudgetDB.list_transactions db None None None).
Proof.
  rewrite list_all_eq. unfold BudgetDB.list_transactions.
  rewrite filter_sort_by;
    [reflexivity | exact recent_first_trans | exact recent_first_total].
Qed.

(** X5.  A date range whose end is a non-empty string below its start lists
    nothing. *)
Theorem inverted_date_range_lists_nothing
    (db : database) (c : option Z) (s e : string) :
  e <> EmptyString ->
  String.ltb e s = true ->
  BudgetDB.list_transactions db c (Some s) (Some e) = [].
Proof.
  intros He Hlt. unfold BudgetDB.list_transactions.
  rewrite filter_none; [reflexivity|].
  intros t _. unfold BudgetDB.where_clause.
  assert (Hs : Py.truthy_opt_str (Some s) = true).
  { destruct s; [|reflexivity]. unfold String.ltb in Hlt.
    destruct e; simpl in Hlt; discriminate. }
  assert (Hte : Py.truthy_opt_str (Some e) = true)
    by (destruct e; [contradiction | reflexivity]).
  rewrite Hs, Hte.
  destruct (String.leb s (txn_date t)) eqn:E1; [|now rewrite andb_false_r].
  destruct (String.leb (txn_date t) e) eqn:E2; [|now rewrite andb_false_r].
  pose proof (string_leb_trans _ _ _ E1 E2) as H.
  rewrite (string_ltb_not_leb _ _ Hlt) in H. discriminate.
Qed.

Lemma inverted_date_range_lists_nothing_witness :
  BudgetDB.list_transactions groceries_db None (Some "2024-04-01") (Some "2024-03-01") = [].
Proof.
  apply (inverted_date_range_lists_nothing groceries_db None "2024-04-01" "2024-03-01").
  - discriminate.
  - reflexivity.
Defined.

Lemma isoformat_truthy (y m d : Z) :
  Py.truthy_opt_str (Some (Date.isoformat y m d)) = true.
Proof.
  unfold Date.isoformat. simpl.
  destruct (Py.format_0d 4 y); reflexivity.
Qed.

(** X6.  For dates in ISO form the inclusive date range of the listing is the
    range of the calendar: a transaction is listed exactly when its date
    is neither before the start date nor after the end date. *)
Theorem date_range_follows_calendar
    (db : database) (t : txn) (Y M D sy sm sd ey em ed : Z) :
  Date.valid Y M D = true ->
  Date.valid sy sm sd = true ->
  Date.valid ey em ed = true ->
  txn_date t = Date.isoformat Y M D ->
  In t (BudgetDB.list_transactions db None (Some (Date.isoformat sy sm sd))
                                   (Some (Date.isoformat ey em ed)))
  <-> In t (transactions db)
      /\ date_compare (sy, sm, sd) (Y, M, D) <> Gt
      /\ date_compare (Y, M, D) (ey, em, ed) <> Gt.
Proof.
  intros HV HS HE Hdate.
  apply valid_bounds in HV. apply valid_bounds in HS. apply valid_bounds in HE.
  unfold BudgetDB.list_transactions. rewrite sort_by_In, filter_In.
  unfold BudgetDB.where_clause. rewrite !isoformat_truthy. simpl Py.truthy_opt_int.
  cbv iota. rewrite Hdate. unfold String.leb.
  rewrite !isoformat_compare by lia.
  destruct (date_compare (sy, sm, sd) (Y, M, D));
    destruct (date_compare (Y, M, D) (ey, em, ed)); simpl;
    split; intros [H1 H2]; (split; [exact H1|]);
    try discriminate; try (split; discriminate); try reflexivity;
    destruct H2 as [H2 H3]; congruence.
Qed.

Lemma date_range_follows_calendar_witness :
  In (mkTxn 1 "2024-03-15" f42_5 "Groceries" (Some 1) "expense")
     (BudgetDB.list_transactions groceries_db None (Some (Date.isoformat 2024 3 1))
                                 (Some (Date.isoformat 2024 3 31))).
Proof.
  apply (date_range_follows_calendar groceries_db
           (mkTxn 1 "2024-03-15" f42_5 "Groceries" (Some 1) "expense")
           2024 3 15 2024 3 1 2024 3 31); try reflexivity.
  split; [vm_compute; left; reflexivity|].
  split; discriminate.
Defined.

(** ** Adding a transaction *)

Lemma category_known_iff (cid : Z) (cats : list category) :
  existsb (fun c => cat_id c =? cid) cats = true <-> In cid (map cat_id cats).
Proof. rewrite existsb_exists. apply id_present_iff. Qed.

Lemma type_allowed_iff (ty : string) :
  String.eqb ty "income" || String.eqb ty "expense" = true
  <-> ty = "income" \/ ty = "expense".
Proof. now rewrite orb_true_iff, !String.eqb_eq. Qed.

(** X7.  [add_transaction] stores a row exactly when the amount is not a NaN,
    the type is income or expense and the category, if any, exists; the
    date is stored as the text given, whatever it is.  The stored row
    joins the listing with a new id and the stripped description, which
    is the description without the white space, Unicode white space
    included, before and after it; a refused row leaves the store as it
    was. *)
Theorem add_transaction_accepts_or_refuses
    (db : database) (date : string) (amount : Py.float) (description : string)
    (c : option Z) (ty : string) :
  let r := BudgetDB.add_transaction db date amount description c ty in
  ((exists id, snd r = Ok id)
   <-> Py.is_nan amount = false
       /\ (ty = "income" \/ ty = "expense")
       /\ (forall cid, c = Some cid -> In cid (map cat_id (categories db))))
  /\ (forall id, snd r = Ok id ->
        ~ In id (map txn_id (transactions db))
        /\ Permutation
             (BudgetDB.list_transactions (fst r) None None None)
             (mkTxn id date amount (Py.strip description) c ty
              :: BudgetDB.list_transactions db None None None)
        /\ trimmed_of description (Py.strip description)
        /\ (white description <-> Py.strip description = EmptyString))
  /\ (forall e, snd r = Raise e -> fst r = db).
Proof.
  cbv zeta. unfold BudgetDB.add_transaction, bind_real_not_null.
  rewrite negb_involutive.
  destruct (Py.is_nan amount) eqn:Enan; simpl.
  { split; [|split; [discriminate | reflexivity]].
    split; [intros [id H]; discriminate | intros [H _]; discriminate]. }
  destruct (String.eqb ty "income" || String.eqb ty "expense") eqn:Ety; simpl.
  2:{ split; [|split; [discriminate | reflexivity]].
      split; [intros [id H]; discriminate|].
      intros [_ [H _]]. apply type_allowed_iff in H. congruence. }
  apply type_allowed_iff in Ety.
  destruct (match c with
            | Some cid => negb (existsb (fun c0 => cat_id c0 =? cid) (categories db))
            | None => false
            end) eqn:Ec; simpl.
  { split; [|split; [discriminate | reflexivity]].
    split; [intros [id H]; discriminate|].
    intros [_ [_ H]]. destruct c as [cid|]; [|discriminate].
    specialize (H cid eq_refl). apply category_known_iff in H.
    rewrite H in Ec. discriminate. }
  split.
  { split; [|intros _; eexists; reflexivity].
    intros _. split; [reflexivity|]. split; [exact Ety|].
    intros cid ->. apply category_known_iff.
    destruct (existsb _ _); [reflexivity | discriminate]. }
  split; [|discriminate].
  intros id [= <-].
  split; [apply next_rowid_fresh|].
  split; [|split; [apply strip_trims | symmetry; apply strip_empty_iff]].
  rewrite !list_all_eq. simpl.
  rewrite sort_by_perm, (sort_by_perm BudgetDB.recent_first (transactions db)).
  rewrite Permutation_app_comm. reflexivity.
Qed.

(** X8.  Deleting the transaction that was just added gives back the rows
    there were before; only the sequence remembers the id. *)
Theorem add_then_delete_transaction
    (db db1 : database) (date : string) (amount : Py.float) (description : string)
    (c : option Z) (ty : string) (id : Z) :
  BudgetDB.add_transaction db date amount description c ty = (db1, Ok id) ->
  snd (BudgetDB.delete_transaction db1 id) = true
  /\ transactions (fst (BudgetDB.delete_transaction db1 id)) = transactions db
  /\ categories (fst (BudgetDB.delete_transaction db1 id)) = categories db
  /\ transactions_seq (fst (BudgetDB.delete_transaction db1 id)) = id
  /\ transactions_seq db < id.
Proof.
  intro H. unfold BudgetDB.add_transaction in H.
  destruct (negb (bind_real_not_null amount)); [discriminate|].
  destruct (negb _); [discriminate|].
  destruct (match c with
            | Some cid => negb (existsb (fun c0 => cat_id c0 =? cid) (categories db))
            | None => false
            end); [discriminate|].
  injection H as <- <-.
  destruct (next_rowid_fresh (transactions_seq db) (map txn_id (transactions db)))
    as [Hfresh Hseq].
  set (id := next_rowid (transactions_seq db) (map txn_id (transactions db))) in *.
  unfold BudgetDB.delete_transaction. simpl.
  rewrite !filter_app. simpl. rewrite Z.eqb_refl. simpl.
  split.
  { rewrite length_app. simpl. apply Z.ltb_lt. lia. }
  split; [|auto].
  rewrite app_nil_r. now apply filter_negb_id_all.
Qed.

Lemma add_then_delete_transaction_witness :
  transactions (fst (BudgetDB.delete_transaction groceries_db 1)) = transactions food_db.
Proof.
  refine (proj1 (proj2 (add_then_delete_transaction food_db groceries_db
                          "2024-03-15" f42_5 "Groceries" (Some 1) "expense" 1 _))).
  vm_compute. reflexivity.
Defined.

(** ** What every round of the menu loop keeps *)

Lemma filter_keeps_keys_distinct {Row Key : Type} (key : Row -> Key)
    (keep : Row -> bool) (rows : list Row) (Hkeys : NoDup (map key rows)) :
  NoDup (map key (filter keep rows)).
Proof.
  induction rows as [|x rows IH]; simpl in *; [exact Hkeys|].
  apply NoDup_cons_iff in Hkeys. destruct Hkeys as [Hx Hrows].
  destruct (keep x); simpl; [|auto].
  constructor; [|auto].
  intro Hin. apply Hx. apply in_map_iff in Hin. destruct Hin as [z [Hz Hin]].
  apply filter_In in Hin. rewrite <- Hz. apply in_map. tauto.
Qed.

Lemma NoDup_snoc {A : Type} (l : list A) (x : A) :
  NoDup l -> ~ In x l -> NoDup (l ++ [x]).
Proof.
  intros Hl Hx. apply NoDup_app; [exact Hl | repeat constructor; auto |].
  intros y Hy [<- | []]. contradiction.
Qed.

Section StoreInvariant.
Variable strptime : string -> option (Z * Z * Z).
Variable float_of_str : string -> option Py.float.
Variable int_of_str : string -> option Z.
Variable P : database -> Prop.

Hypothesis P_add_category : forall db n, P db -> P (fst (BudgetDB.add_category db n)).
Hypothesis P_delete_category : forall db c, P db -> P (fst (BudgetDB.delete_category db c)).
Hypothesis P_add_transaction :
  forall db date amount description c ty,
    P db -> P (fst (BudgetDB.add_transaction db date amount description c ty)).
Hypothesis P_delete_transaction :
  forall db i, P db -> P (fst (BudgetDB.delete_transaction db i)).

Lemma run_command_invariant (db : database) (c : command) :
  P db -> P (fst (Flow.run_command strptime float_of_str int_of_str db c)).
Proof.
  intro H. destruct c as [line | line | lines | line]; simpl.
  - unfold Flow.add_category_flow.
    destruct (negb _); [exact H|].
    pose proof (P_add_category db (Flow.prompt line) H) as Ha.
    destruct (BudgetDB.add_category db (Flow.prompt line)) as [db1 [i|[w]]]; exact Ha.
  - unfold Flow.delete_category_flow.
    destruct (int_of_str _) as [cid|]; [|exact H].
    pose proof (P_delete_category db cid H) as Hd.
    destruct (BudgetDB.delete_category db cid) as [db1 [|]]; exact Hd.
  - unfold Flow.add_transaction_flow.
    destruct (strptime _) as [[[y m] d]|]; [|exact H].
    destruct (float_of_str _) as [v|]; [|exact H].
    destruct (if Py.truthy_str (Flow.prompt (line_category lines)) then _ else _)
      as [category_id|]; [|exact H].
    match goal with
    | |- context [BudgetDB.add_transaction ?a ?b ?c ?d ?e ?f] =>
        pose proof (P_add_transaction a b c d e f H) as Ha;
        destruct (BudgetDB.add_transaction a b c d e f) as [db1 [i|e0]]; exact Ha
    end.
  - unfold Flow.delete_transaction_flow.
    destruct (int_of_str _) as [tid|]; [|exact H].
    pose proof (P_delete_transaction db tid H) as Hd.
    destruct (BudgetDB.delete_transaction db tid) as [db1 [|]]; exact Hd.
Qed.

Lemma main_loop_invariant (cs : list command) (db : database) :
  P db -> P (Flow.main_loop strptime float_of_str int_of_str db cs).
Proof.
  revert db. induction cs as [|c cs IH]; intros db H; simpl; [exact H|].
  pose proof (run_command_invariant db c H) as Hc.
  destruct (Flow.run_command strptime float_of_str int_of_str db c)
    as [db1 [id | why | e]]; simpl in Hc;
    [now apply IH | now apply IH | exact Hc].
Qed.
End StoreInvariant.

Lemma add_category_rows (db : database) (n : string) :
  transactions (fst (BudgetDB.add_category db n)) = transactions db
  /\ (categories (fst (BudgetDB.add_category db n)) = categories db
      \/ (~ In (Py.strip n) (map cat_name (categories db))
          /\ categories (fst (BudgetDB.add_category db n))
             = categories db
               ++ [mkCategory (next_rowid (categories_seq db) (map cat_id (categories db)))
                              (Py.strip n)])).
Proof.
  unfold BudgetDB.add_category.
  destruct (existsb _ _) eqn:E; simpl; [auto|].
  split; [reflexivity|]. right. split; [|reflexivity].
  intro H. apply name_taken_iff in H. congruence.
Qed.

Lemma add_transaction_rows (db : database) (date : string) (amount : Py.float)
    (description : string) (c : option Z) (ty : string) :
  let db' := fst (BudgetDB.add_transaction db date amount description c ty) in
  categories db' = categories db
  /\ (transactions db' = transactions db
      \/ ((forall cid, c = Some cid -> In cid (map cat_id (categories db)))
          /\ transactions db'
             = transactions db
               ++ [mkTxn (next_rowid (transactions_seq db) (map txn_id (transactions db)))
                         date amount (Py.strip description) c ty])).
Proof.
  cbv zeta. unfold BudgetDB.add_transaction.
  destruct (negb (bind_real_not_null amount)); simpl; [auto|].
  destruct (negb _); simpl; [auto|].
  destruct (match c with
            | Some cid => negb (existsb (fun c0 => cat_id c0 =? cid) (categories db))
            | None => false
            end) eqn:Ec; simpl; [auto|].
  split; [reflexivity|]. right. split; [|reflexivity].
  intros cid ->. apply category_known_iff.
  destruct (existsb _ _); [reflexivity | discriminate].
Qed.

Lemma refs_valid_add_category (db : database) (n : string) :
  refs_valid db -> refs_valid (fst (BudgetDB.add_category db n)).
Proof.
  intros H t c Ht Hc.
  destruct (add_category_rows db n) as [Htx Hcat]. rewrite Htx in Ht.
  destruct (H t c Ht Hc) as [cat [Hin Hid]]. exists cat. split; [|exact Hid].
  destruct Hcat as [-> | [_ ->]]; [exact Hin | apply in_or_app; now left].
Qed.

Lemma refs_valid_delete_category (db : database) (c : Z) :
  refs_valid db -> refs_valid (fst (BudgetDB.delete_category db c)).
Proof.
  intros H t k Ht Hk. unfold BudgetDB.delete_category in *. simpl in *.
  assert (Hkept : forall u, In u (transactions db) -> txn_category_id u = Some k -> k <> c ->
                            exists cat, In cat (filter (fun x => negb (cat_id x =? c))
                                                       (categories db))
                                        /\ cat_id cat = k).
  { intros u Hu Huk Hne. destruct (H u k Hu Huk) as [cat [Hin Hid]].
    exists cat. split; [|exact Hid]. apply filter_In. split; [exact Hin|].
    rewrite Hid. apply negb_true_iff. now apply Z.eqb_neq. }
  destruct (filter (fun x => cat_id x =? c) (categories db)) as [|x r] eqn:E.
  - apply (Hkept t Ht Hk). intros ->.
    destruct (H t c Ht Hk) as [cat [Hin Hid]].
    assert (Hf : In cat (filter (fun x => cat_id x =? c) (categories db)))
      by (apply filter_In; split; [exact Hin | now apply Z.eqb_eq]).
    rewrite E in Hf. contradiction.
  - apply in_map_iff in Ht. destruct Ht as [u [<- Hu]].
    assert (Hne : k <> c) by (intros ->; now apply (set_null_clears c u)).
    apply (Hkept u Hu); [|exact Hne].
    rewrite <- Hk. unfold BudgetDB.set_null in *.
    destruct (txn_category_id u) as [k'|] eqn:Eu; [|now rewrite Eu in Hk].
    destruct (k' =? c); [discriminate | now rewrite Eu].
Qed.

Lemma refs_valid_add_transaction (db : database) (date : string) (amount : Py.float)
    (description : string) (c : option Z) (ty : string) :
  refs_valid db ->
  refs_valid (fst (BudgetDB.add_transaction db date amount description c ty)).
Proof.
  intros H t k Ht Hk.
  destruct (add_transaction_rows db date amount description c ty) as [Hcat Htx].
  cbv zeta in Hcat, Htx. rewrite Hcat.
  destruct Htx as [Htx | [Hc Htx]]; rewrite Htx in Ht; [now apply (H t)|].
  apply in_app_or in Ht. destruct Ht as [Ht | [<- | []]]; [now apply (H t)|].
  simpl in Hk. apply Hc in Hk. apply in_map_iff in Hk.
  destruct Hk as [cat [Hid Hin]]. now exists cat.
Qed.

Lemma refs_valid_delete_transaction (db : database) (i : Z) :
  refs_valid db -> refs_valid (fst (BudgetDB.delete_transaction db i)).
Proof.
  intros H t k Ht Hk. unfold BudgetDB.delete_transaction in *. simpl in *.
  apply filter_In in Ht. now apply (H t).
Qed.

(** X9.  Referential integrity: each operation of [BudgetDB] that writes, and
    so the whole menu loop, keeps every category reference of a
    transaction either null or pointing at a category that exists. *)
Theorem referential_integrity_kept
    (strptime : string -> option (Z * Z * Z))
    (float_of_str : string -> option Py.float) (int_of_str : string -> option Z)
    (file : database) (cs : list command) :
  refs_valid file ->
  refs_valid (Flow.main strptime float_of_str int_of_str file cs)
  /\ (forall t, In t (BudgetDB.list_transactions
                        (Flow.main strptime float_of_str int_of_str file cs)
                        None None None) ->
                txn_category_id t = None
                \/ exists cat,
                     In cat (BudgetDB.list_categories
                               (Flow.main strptime float_of_str int_of_str file cs))
                     /\ txn_category_id t = Some (cat_id cat)).
Proof.
  intro H.
  assert (Hm : refs_valid (Flow.main strptime float_of_str int_of_str file cs)).
  { unfold Flow.main.
    apply main_loop_invariant;
      auto using refs_valid_add_category, refs_valid_delete_category,
                 refs_valid_add_transaction, refs_valid_delete_transaction. }
  split; [exact Hm|].
  intros t Ht. apply list_all_In in Ht.
  destruct (txn_category_id t) as [k|] eqn:Ek; [right | now left].
  destruct (Hm t k Ht Ek) as [cat [Hin Hid]].
  exists cat. split; [|now rewrite Hid].
  unfold BudgetDB.list_categories. now apply sort_by_In.
Qed.

Lemma referential_integrity_kept_witness :
  refs_valid (Flow.main Date.strptime_ymd sample_float sample_int empty_database
                [AddCategory "Food"; AddTransaction groceries_lines; DeleteCategory "1"]).
Proof.
  refine (proj1 (referential_integrity_kept Date.strptime_ymd sample_float sample_int
                   empty_database
                   [AddCategory "Food"; AddTransaction groceries_lines; DeleteCategory "1"]
                   _)).
  intros t c [].
Defined.

Lemma keys_unique_add_category (db : database) (n : string) :
  keys_unique db -> keys_unique (fst (BudgetDB.add_category db n)).
Proof.
  intros [Hi [Hn Ht]]. destruct (add_category_rows db n) as [Htx Hcat].
  unfold keys_unique. rewrite Htx.
  destruct Hcat as [-> | [Hfresh ->]]; [auto|].
  rewrite !map_app. simpl.
  split; [apply NoDup_snoc; [exact Hi | apply next_rowid_fresh]|].
  split; [now apply NoDup_snoc | exact Ht].
Qed.

Lemma keys_unique_delete_category (db : database) (c : Z) :
  keys_unique db -> keys_unique (fst (BudgetDB.delete_category db c)).
Proof.
  intros [Hi [Hn Ht]]. unfold keys_unique, BudgetDB.delete_category. simpl.
  split; [now apply filter_keeps_keys_distinct|].
  split; [now apply filter_keeps_keys_distinct|].
  destruct (filter (fun x => cat_id x =? c) (categories db)); [exact Ht|].
  rewrite map_map. erewrite map_ext; [exact Ht|]. intro u. apply set_null_id.
Qed.

Lemma keys_unique_add_transaction (db : database) (date : string) (amount : Py.float)
    (description : string) (c : option Z) (ty : string) :
  keys_unique db ->
  keys_unique (fst (BudgetDB.add_transaction db date amount description c ty)).
Proof.
  intros [Hi [Hn Ht]].
  destruct (add_transaction_rows db date amount description c ty) as [Hcat Htx].
  cbv zeta in Hcat, Htx. unfold keys_unique. rewrite Hcat.
  destruct Htx as [-> | [_ ->]]; [auto|].
  rewrite map_app. simpl.
  split; [exact Hi|]. split; [exact Hn|].
  apply NoDup_snoc; [exact Ht | apply next_rowid_fresh].
Qed.

Lemma keys_unique_delete_transaction (db : database) (i : Z) :
  keys_unique db -> keys_unique (fst (BudgetDB.delete_transaction db i)).
Proof.
  intros [Hi [Hn Ht]]. unfold keys_unique, BudgetDB.delete_transaction. simpl.
  split; [exact Hi|]. split; [exact Hn|]. now apply filter_keeps_keys_distinct.
Qed.

(** X10.  The keys stay keys: through every round of the menu loop no two
    categories share an id or a name, and no two transactions share an
    id. *)
Theorem keys_stay_unique
    (strptime : string -> option (Z * Z * Z))
    (float_of_str : string -> option Py.float) (int_of_str : string -> option Z)
    (file : database) (cs : list command) :
  keys_unique file ->
  keys_unique (Flow.main strptime float_of_str int_of_str file cs)
  /\ NoDup (map cat_name (BudgetDB.list_categories
                            (Flow.main strptime float_of_str int_of_str file cs)))
  /\ NoDup (map txn_id (BudgetDB.list_transactions
                          (Flow.main strptime float_of_str int_of_str file cs)
                          None None None)).
Proof.
  intro H.
  assert (Hm : keys_unique (Flow.main strptime float_of_str int_of_str file cs)).
  { unfold Flow.main.
    apply main_loop_invariant;
      auto using keys_unique_add_category, keys_unique_delete_category,
                 keys_unique_add_transaction, keys_unique_delete_transaction. }
  split; [exact Hm|]. destruct Hm as [_ [Hn Ht]].
  split.
  - eapply Permutation_NoDup; [|exact Hn].
    apply Permutation_map. symmetry. apply sort_by_perm.
  - rewrite list_all_eq.
    eapply Permutation_NoDup; [|exact Ht].
    apply Permutation_map. symmetry. apply sort_by_perm.
Qed.

Lemma keys_stay_unique_witness :
  keys_unique (Flow.main Date.strptime_ymd sample_float sample_int empty_database
                 [AddCategory "Food"; AddTransaction groceries_lines]).
Proof.
  refine (proj1 (keys_stay_unique Date.strptime_ymd sample_float sample_int
                   empty_database [AddCategory "Food"; AddTransaction groceries_lines] _)).
  repeat split; constructor.
Defined.

(** ** Ids are never given twice *)

Lemma add_transaction_seq (db : database) (date : string) (amount : Py.float)
    (description : string) (c : option Z) (ty : string) :
  let r := BudgetDB.add_transaction db date amount description c ty in
  transactions_seq db <= transactions_seq (fst r)
  /\ (forall id, snd r = Ok id ->
                 transactions_seq db < id /\ transactions_seq (fst r) = id).
Proof.
  cbv zeta. unfold BudgetDB.add_transaction.
  destruct (negb (bind_real_not_null amount)); simpl; [split; [lia | discriminate]|].
  destruct (negb _); simpl; [split; [lia | discriminate]|].
  destruct (match c with
            | Some cid => negb (existsb (fun c0 => cat_id c0 =? cid) (categories db))
            | None => false
            end); simpl; [split; [lia | discriminate]|].
  pose proof (next_rowid_fresh (transactions_seq db) (map txn_id (transactions db)))
    as [_ Hlt].
  split; [lia|]. intros id [= <-]. auto.
Qed.

Lemma add_category_seq (db : database) (n : string) :
  transactions_seq (fst (BudgetDB.add_category db n)) = transactions_seq db.
Proof. unfold BudgetDB.add_category. destruct (existsb _ _); reflexivity. Qed.

Section Sequence.
Variable strptime : string -> option (Z * Z * Z).
Variable float_of_str : string -> option Py.float.
Variable int_of_str : string -> option Z.

Lemma add_transaction_flow_seq (db db' : database) (lines : txn_lines) (id : Z) :
  Flow.add_transaction_flow strptime float_of_str int_of_str db lines = (db', Done id) ->
  transactions_seq db < id /\ transactions_seq db' = id.
Proof.
  unfold Flow.add_transaction_flow.
  destruct (strptime _) as [[[y m] d]|]; [|discriminate].
  destruct (float_of_str _) as [v|]; [|discriminate].
  destruct (if Py.truthy_str (Flow.prompt (line_category lines)) then _ else _)
    as [category_id|]; [|discriminate].
  match goal with
  | |- context [BudgetDB.add_transaction ?a ?b ?c ?d ?e ?f] =>
      pose proof (add_transaction_seq a b c d e f) as Hs;
      destruct (BudgetDB.add_transaction a b c d e f) as [db1 [i|e0]]; [|discriminate]
  end.
  cbv zeta in Hs. simpl in Hs. intros [= <- <-]. now apply Hs.
Qed.

(** X11.  An id given to a transaction is never given again: whatever is
    added or deleted in the rounds that follow, a transaction recorded
    later gets a larger id. *)
Theorem transaction_ids_never_reused
    (db db1 db3 : database) (lines lines' : txn_lines) (cs : list command) (i j : Z) :
  Flow.add_transaction_flow strptime float_of_str int_of_str db lines = (db1, Done i) ->
  Flow.add_transaction_flow strptime float_of_str int_of_str
    (Flow.main_loop strptime float_of_str int_of_str db1 cs) lines' = (db3, Done j) ->
  i < j.
Proof.
  intros H1 H2.
  apply add_transaction_flow_seq in H1. destruct H1 as [_ H1].
  apply add_transaction_flow_seq in H2. destruct H2 as [H2 _].
  assert (Hmono : i <= transactions_seq
                         (Flow.main_loop strptime float_of_str int_of_str db1 cs)).
  { apply (main_loop_invariant strptime float_of_str int_of_str
             (fun d => i <= transactions_seq d)); [| | | |lia].
    - intros d n Hd. now rewrite add_category_seq.
    - intros d c Hd. exact Hd.
    - intros d date amount description c ty Hd.
      pose proof (add_transaction_seq d date amount description c ty) as [Hle _]. lia.
    - intros d k Hd. exact Hd. }
  lia.
Qed.
End Sequence.

Lemma transaction_ids_never_reused_witness : 1 < 2.
Proof.
  apply (transaction_ids_never_reused Date.strptime_ymd sample_float sample_int
           food_db groceries_db
           (fst (Flow.add_transaction_flow Date.strptime_ymd sample_float sample_int
                   (Flow.main_loop Date.strptime_ymd sample_float sample_int groceries_db
                      [DeleteTransaction "1"])
                   groceries_lines))
           groceries_lines groceries_lines [DeleteTransaction "1"] 1 2);
    vm_compute; reflexivity.
Defined.

(** ** A recorded transaction and the monthly summary *)

Lemma summary_has_key (real_sum : list sqlnum -> Py.float) (db : database)
    (y m : Z) (t : txn) :
  In t (transactions db) -> BudgetDB.in_month y m t = true ->
  exists inc exp,
    In (joined_name (categories db) t, inc, exp) (BudgetDB.monthly_summary real_sum db y m).
Proof.
  intros Ht Hm.
  assert (Hk : In (joined_name (categories db) t)
                  (map (fun r => fst (fst r)) (BudgetDB.monthly_summary real_sum db y m))).
  { rewrite summary_keys, sort_by_In, dedup_keys_In. apply in_map.
    apply filter_In. tauto. }
  apply in_map_iff in Hk. destruct Hk as [[[k inc] exp] [Hk Hin]].
  simpl in Hk. subst k. now exists inc, exp.
Qed.

Lemma in_month_date (y m : Z) (t u : txn) :
  txn_date t = txn_date u -> BudgetDB.in_month y m t = BudgetDB.in_month y m u.
Proof. unfold BudgetDB.in_month. now intros ->. Qed.

(** X12.  A transaction recorded by [add_transaction_flow] under a date of the
    calendar (December 9999 apart) is counted by the summary of the month
    of that date, in the row of its category, and by the summary of no
    other month. *)
Theorem recorded_transaction_counted_in_its_month
    (real_sum : list sqlnum -> Py.float)
    (strptime : string -> option (Z * Z * Z))
    (float_of_str : string -> option Py.float) (int_of_str : string -> option Z)
    (db db' : database) (lines : txn_lines) (id Y M D : Z) :
  strptime (Flow.prompt (line_date lines)) = Some (Y, M, D) ->
  Date.valid Y M D = true ->
  (Y, M) <> (9999, 12) ->
  Flow.add_transaction_flow strptime float_of_str int_of_str db lines = (db', Done id) ->
  exists t,
    In t (transactions db') /\ txn_id t = id /\ txn_date t = Date.isoformat Y M D
    /\ (exists inc exp,
           In (joined_name (categories db') t, inc, exp)
              (BudgetDB.monthly_summary real_sum db' Y M))
    /\ (forall y m, 1 <= y <= 9999 -> 1 <= m <= 12 -> (y, m) <> (9999, 12) ->
                    (y, m) <> (Y, M) -> BudgetDB.in_month y m t = false).
Proof.
  intros Hd Hv Hne Hflow.
  apply add_transaction_flow_done in Hflow.
  destruct Hflow as [y0 [m0 [d0 [v [cid [Hd' [_ [_ Htx]]]]]]]].
  rewrite Hd in Hd'. injection Hd' as <- <- <-.
  eexists. split; [rewrite Htx; apply in_or_app; right; left; reflexivity|].
  split; [reflexivity|]. split; [reflexivity|].
  pose proof (valid_bounds Y M D Hv) as [HY [HM _]].
  split.
  - apply summary_has_key.
    + rewrite Htx. apply in_or_app. right. now left.
    + apply (in_month_calendar Y M Y M D); auto.
  - intros y m Hy Hm Hne' Hdiff.
    match goal with |- BudgetDB.in_month y m ?t = false =>
      destruct (BudgetDB.in_month y m t) eqn:E; [|reflexivity];
      apply (in_month_calendar y m Y M D t Hy Hm Hne' Hv eq_refl) in E
    end.
    destruct E as [-> ->]. now contradiction Hdiff.
Qed.

Lemma recorded_transaction_counted_in_its_month_witness :
  exists t, In t (transactions groceries_db) /\ txn_id t = 1
            /\ txn_date t = Date.isoformat 2024 3 15.
Proof.
  destruct (recorded_transaction_counted_in_its_month
              (fun _ => f42_5) Date.strptime_ymd sample_float sample_int
              food_db groceries_db groceries_lines 1 2024 3 15)
    as [t [H1 [H2 [H3 _]]]].
  - reflexivity.
  - reflexivity.
  - congruence.
  - vm_compute. reflexivity.
  - exists t. auto.
Defined.

Lemma NoDup_map_inj_in {A B : Type} (f : A -> B) (l : list A) (a b : A) :
  NoDup (map f l) -> In a l -> In b l -> f a = f b -> a = b.
Proof.
  induction l as [|x l IH]; simpl; [contradiction|].
  intro H. apply NoDup_cons_iff in H. destruct H as [Hx Hl].
  intros [-> | Ha] [-> | Hb] E; auto.
  - exfalso. apply Hx. rewrite E. now apply in_map.
  - exfalso. apply Hx. rewrite <- E. now apply in_map.
Qed.

(** X13.  Once a category is deleted, the transactions of a month that
    referred to it are counted in the row without a name, and, the keys
    being unique, no row of the summary carries the name of the deleted
    category any more. *)
Theorem deleted_category_rows_become_uncategorized
    (real_sum : list sqlnum -> Py.float) (db : database) (c : Z) (t : txn) (y m : Z) :
  In t (transactions db) ->
  txn_category_id t = Some c ->
  BudgetDB.in_month y m t = true ->
  snd (BudgetDB.delete_category db c) = true ->
  let db' := fst (BudgetDB.delete_category db c) in
  (exists inc exp, In (None, inc, exp) (BudgetDB.monthly_summary real_sum db' y m))
  /\ (keys_unique db ->
      forall cat, In cat (categories db) -> cat_id cat = c ->
                  ~ In (Some (cat_name cat))
                       (map (fun r => fst (fst r))
                            (BudgetDB.monthly_summary real_sum db' y m))).
Proof.
  intros Ht Hc Hm Hdel. cbv zeta.
  pose proof (delete_category_true db c Hdel) as Htx.
  split.
  - assert (Hin : In (BudgetDB.set_null c t)
                     (transactions (fst (BudgetDB.delete_category db c))))
      by (rewrite Htx; now apply in_map).
    assert (Hmonth : BudgetDB.in_month y m (BudgetDB.set_null c t) = true).
    { rewrite <- Hm. apply in_month_date.
      unfold BudgetDB.set_null. rewrite Hc, Z.eqb_refl. reflexivity. }
    destruct (summary_has_key real_sum _ y m _ Hin Hmonth) as [inc [exp H]].
    exists inc, exp.
    replace (joined_name _ (BudgetDB.set_null c t)) with (@None string) in H; [exact H|].
    unfold joined_name, BudgetDB.set_null. now rewrite Hc, Z.eqb_refl.
  - intros [_ [Hn _]] cat Hcat Hid Hkey.
    rewrite summary_keys, sort_by_In, dedup_keys_In in Hkey.
    apply in_map_iff in Hkey. destruct Hkey as [u [Hu _]].
    apply joined_name_some in Hu. destruct Hu as [cat' [Hin' [_ Hname]]].
    unfold BudgetDB.delete_category in Hin'. simpl in Hin'.
    apply filter_In in Hin'. destruct Hin' as [Hin' Hne].
    assert (cat' = cat) by (apply (NoDup_map_inj_in cat_name (categories db)); auto).
    subst cat'. rewrite Hid, Z.eqb_refl in Hne. discriminate.
Qed.

Lemma deleted_category_rows_become_uncategorized_witness :
  exists inc exp,
    In (None, inc, exp)
       (BudgetDB.monthly_summary (fun _ => f42_5)
          (fst (BudgetDB.delete_category groceries_db 1)) 2024 3).
Proof.
  refine (proj1 (deleted_category_rows_become_uncategorized (fun _ => f42_5)
                   groceries_db 1
                   (mkTxn 1 "2024-03-15" f42_5 "Groceries" (Some 1) "expense")
                   2024 3 _ _ _ _)).
  - vm_compute. left. reflexivity.
  - reflexivity.
  - reflexivity.
  - reflexivity.
Defined.

(** ** Blank category names *)

(** X14.  [add_category_flow] refuses a name exactly when the typed line is
    empty or made of white space only (of the white space [str.strip]
    removes, no-break and other Unicode spaces included), and the store
    is then left as it was; any other line reaches [add_category] with
    its surrounding white space removed. *)
Theorem blank_category_name_rejected (db : database) (line : string) :
  (snd (Flow.add_category_flow db line) = Rejected EmptyName <-> white line)
  /\ (white line -> fst (Flow.add_category_flow db line) = db)
  /\ (~ white line ->
      fst (Flow.add_category_flow db line)
      = fst (BudgetDB.add_category db (Py.strip line))
      /\ trimmed_of line (Py.strip line)).
Proof.
  unfold Flow.add_category_flow, Flow.prompt.
  pose proof (strip_empty_iff line) as Hiff.
  pose proof (strip_trims line) as Htrim.
  destruct (Py.strip line) as [|a r] eqn:E; simpl.
  - assert (Ha : white line) by now apply Hiff.
    split; [tauto|]. split; [reflexivity | tauto].
  - assert (Ha : ~ white line).
    { intro H. apply Hiff in H. discriminate. }
    destruct (BudgetDB.add_category db (String a r)) as [db1 [i|[w]]]; simpl;
      (split; [split; [discriminate | tauto]|]);
      (split; [tauto | intros _; split; [reflexivity | exact Htrim]]).
Qed.

(** ** The category column of the listing and of the summary *)

Lemma cat_lookup_absent (cats : list category) (k : Z) :
  ~ In k (map cat_id cats) -> cat_lookup cats k = None.
Proof.
  induction cats as [|c r IH]; simpl; [reflexivity|].
  intro H. rewrite IH by tauto.
  destruct (cat_id c =? k) eqn:E; [|reflexivity].
  apply Z.eqb_eq in E. tauto.
Qed.

Lemma cat_lookup_present (cats : list category) (c : category) :
  NoDup (map cat_id cats) -> In c cats -> cat_lookup cats (cat_id c) = Some (cat_name c).
Proof.
  induction cats as [|x r IH]; simpl; [contradiction|].
  intro H. apply NoDup_cons_iff in H. destruct H as [Hx Hr].
  intros [-> | Hin].
  - rewrite cat_lookup_absent by exact Hx. now rewrite Z.eqb_refl.
  - now rewrite IH.
Qed.

Lemma find_category_present (cats : list category) (c : category) :
  NoDup (map cat_id cats) -> In c cats -> find_category cats (cat_id c) = Some c.
Proof.
  unfold find_category. induction cats as [|x r IH]; simpl; [contradiction|].
  intro H. apply NoDup_cons_iff in H. destruct H as [Hx Hr].
  intros [-> | Hin]; [now rewrite Z.eqb_refl|].
  destruct (cat_id x =? cat_id c) eqn:E; [|now apply IH].
  apply Z.eqb_eq in E. exfalso. apply Hx. rewrite E. now apply in_map.
Qed.

Lemma find_category_absent (cats : list category) (k : Z) :
  ~ In k (map cat_id cats) -> find_category cats k = None.
Proof.
  unfold find_category. induction cats as [|x r IH]; simpl; [reflexivity|].
  intro H. destruct (cat_id x =? k) eqn:E; [|apply IH; tauto].
  apply Z.eqb_eq in E. tauto.
Qed.

(** X15.  The listing and the summary name the category of a transaction
    alike: with unique category ids and no category of the empty name,
    the label [print_transactions] looks up among [list_categories] is
    the label [monthly_summary_flow] prints for the row the transaction
    is counted in, [(uncategorized)] exactly when the reference is null
    or matches no category. *)
Theorem listing_and_summary_labels_agree (db : database) (t : txn) :
  NoDup (map cat_id (categories db)) ->
  ~ In EmptyString (map cat_name (categories db)) ->
  listing_label (BudgetDB.list_categories db) (txn_category_id t)
  = summary_label (joined_name (categories db) t)
  /\ (listing_label (BudgetDB.list_categories db) (txn_category_id t) = "(uncategorized)"
      <-> joined_name (categories db) t = None
          \/ joined_name (categories db) t = Some "(uncategorized)").
Proof.
  intros Hids Hnames.
  assert (Hperm : Permutation (BudgetDB.list_categories db) (categories db))
    by apply sort_by_perm.
  assert (Hids' : NoDup (map cat_id (BudgetDB.list_categories db))).
  { eapply Permutation_NoDup; [|exact Hids]. apply Permutation_map. now symmetry. }
  assert (Heq : listing_label (BudgetDB.list_categories db) (txn_category_id t)
                = summary_label (joined_name (categories db) t)).
  { unfold listing_label, joined_name.
    destruct (txn_category_id t) as [k|]; [|reflexivity].
    destruct (in_dec Z.eq_dec k (map cat_id (categories db))) as [Hin | Hout].
    - apply in_map_iff in Hin. destruct Hin as [c [<- Hc]].
      rewrite cat_lookup_present;
        [|exact Hids' | now apply (Permutation_in _ (Permutation_sym Hperm))].
      rewrite find_category_present by assumption. simpl.
      destruct (cat_name c) eqn:En; [|reflexivity].
      exfalso. apply Hnames. rewrite <- En. now apply in_map.
    - rewrite cat_lookup_absent, find_category_absent; [reflexivity | exact Hout |].
      intro H. apply Hout.
      eapply Permutation_in; [apply Permutation_map; exact Hperm | exact H]. }
  split; [exact Heq|].
  rewrite Heq. unfold summary_label.
  destruct (joined_name (categories db) t) as [n|] eqn:En.
  - destruct n as [|a r]; simpl.
    + exfalso. apply Hnames. apply joined_name_some in En.
      destruct En as [cat [Hin [_ Hn]]]. rewrite <- Hn. now apply in_map.
    + split; [intros ->; now right | intros [H | H]; congruence].
  - split; [now left | reflexivity].
Qed.

Lemma listing_and_summary_labels_agree_witness :
  listing_label (BudgetDB.list_categories groceries_db) (Some 1)
  = summary_label (Some "Food").
Proof.
  refine (proj1 (listing_and_summary_labels_agree groceries_db
                   (mkTxn 1 "2024-03-15" f42_5 "Groceries" (Some 1) "expense") _ _)).
  - repeat constructor. intros [].
  - intros [H | []]. discriminate.
Defined.

(** ** Size and stability of the monthly summary *)

Lemma dedup_keys_length (l : list (option string)) :
  (List.length (dedup_keys l) <= List.length l)%nat.
Proof.
  induction l as [|k l IH]; simpl; [lia|].
  destruct (existsb (key_eqb k) l); simpl; lia.
Qed.

(** X16.  The summary of a month has at most one row per category and one
    more for the transactions without a category, and never more rows
    than the month has transactions. *)
Theorem summary_rows_bounded
    (real_sum : list sqlnum -> Py.float) (db : database) (y m : Z) :
  (List.length (BudgetDB.monthly_summary real_sum db y m)
   <= S (List.length (categories db)))%nat
  /\ (List.length (BudgetDB.monthly_summary real_sum db y m)
      <= List.length (filter (BudgetDB.in_month y m) (transactions db)))%nat.
Proof.
  assert (Hlen : List.length (BudgetDB.monthly_summary real_sum db y m)
                 = List.length (dedup_keys
                                  (map (joined_name (categories db))
                                       (filter (BudgetDB.in_month y m) (transactions db))))).
  { rewrite <- (length_map (fun r => fst (fst r))), summary_keys. apply sort_by_length. }
  rewrite Hlen. split.
  - replace (S (List.length (categories db)))
      with (List.length (None :: map (fun c => Some (cat_name c)) (categories db)))
      by (simpl; now rewrite length_map).
    apply NoDup_incl_length; [apply dedup_keys_NoDup|].
    intros k Hk. apply (proj1 (dedup_keys_In _ _)) in Hk. apply in_map_iff in Hk.
    destruct Hk as [t [Hk _]]. destruct k as [n|]; [right | now left].
    apply joined_name_some in Hk. destruct Hk as [cat [Hin [_ Hn]]].
    apply in_map_iff. exists cat. now rewrite Hn.
  - etransitivity; [apply dedup_keys_length|]. now rewrite length_map.
Qed.

Lemma summary_ext (real_sum : list sqlnum -> Py.float) (db1 db2 : database) (y m : Z) :
  categories db1 = categories db2 ->
  filter (BudgetDB.in_month y m) (transactions db1)
  = filter (BudgetDB.in_month y m) (transactions db2) ->
  BudgetDB.monthly_summary real_sum db1 y m = BudgetDB.monthly_summary real_sum db2 y m.
Proof. unfold BudgetDB.monthly_summary. now intros -> ->. Qed.

(** X17.  The summary of a month does not depend on the other months: adding
    a transaction whose date is outside the month, or deleting one,
    leaves the summary of the month as it was. *)
Theorem summary_unchanged_outside_month
    (real_sum : list sqlnum -> Py.float) (db : database) (y m : Z) :
  (forall date amount description c ty,
      BudgetDB.in_month y m (mkTxn 0 date amount description c ty) = false ->
      BudgetDB.monthly_summary real_sum
        (fst (BudgetDB.add_transaction db date amount description c ty)) y m
      = BudgetDB.monthly_summary real_sum db y m)
  /\ (forall i,
         (forall t, In t (transactions db) -> txn_id t = i ->
                    BudgetDB.in_month y m t = false) ->
         BudgetDB.monthly_summary real_sum (fst (BudgetDB.delete_transaction db i)) y m
         = BudgetDB.monthly_summary real_sum db y m).
Proof.
  split.
  - intros date amount description c ty Hout.
    destruct (add_transaction_rows db date amount description c ty) as [Hcat Htx].
    cbv zeta in Hcat, Htx. apply summary_ext; [exact Hcat|].
    destruct Htx as [-> | [_ ->]]; [reflexivity|].
    rewrite filter_app. simpl.
    match goal with
    | |- context [BudgetDB.in_month y m ?r] =>
        rewrite (in_month_date y m r (mkTxn 0 date amount description c ty) eq_refl)
    end.
    rewrite Hout. apply app_nil_r.
  - intros i Hout. apply summary_ext; [reflexivity|].
    unfold BudgetDB.delete_transaction. simpl.
    induction (transactions db) as [|t l IH]; simpl; [reflexivity|].
    assert (IH' : filter (BudgetDB.in_month y m)
                         (filter (fun t0 => negb (txn_id t0 =? i)) l)
                  = filter (BudgetDB.in_month y m) l)
      by (apply IH; intros u Hu; apply Hout; now right).
    destruct (txn_id t =? i) eqn:E; simpl.
    + apply Z.eqb_eq in E. rewrite (Hout t (or_introl eq_refl) E). exact IH'.
    + now rewrite IH'.
Qed.

(** X18.  The rows a monthly summary aggregates are, among the transactions
    with an ISO date of the calendar, exactly those of that year and
    month, for every year from 1 to 9999 and every month but December
    9999. *)
Theorem month_filter_follows_calendar (db : database) (y m Y M D : Z) (t : txn) :
  1 <= y <= 9999 -> 1 <= m <= 12 -> (y, m) <> (9999, 12) ->
  Date.valid Y M D = true ->
  txn_date t = Date.isoformat Y M D ->
  In t (filter (BudgetDB.in_month y m) (transactions db))
  <-> In t (transactions db) /\ Y = y /\ M = m.
Proof.
  intros Hy Hm Hne Hv Hd. rewrite filter_In.
  destruct (in_month_calendar y m Y M D t Hy Hm Hne Hv Hd) as [_ H].
  rewrite H. reflexivity.
Qed.

Lemma month_filter_follows_calendar_witness :
  In (mkTxn 1 "2024-03-15" f42_5 "Groceries" (Some 1) "expense")
     (filter (BudgetDB.in_month 2024 3) (transactions groceries_db)).
Proof.
  apply (month_filter_follows_calendar groceries_db 2024 3 2024 3 15
           (mkTxn 1 "2024-03-15" f42_5 "Groceries" (Some 1) "expense"));
    try lia; try reflexivity; try congruence.
  split; [vm_compute; left; reflexivity | lia].
Defined.

(** ** A category can be referred to while it exists *)

(** X19.  A category that [add_category] has just created can be given to
    [add_transaction] at once; after [delete_category] on it the same
    call raises the foreign-key error and writes nothing. *)
Theorem category_reference_lifecycle
    (db db1 : database) (n : string) (c : Z)
    (date : string) (amount : Py.float) (description : string) (ty : string) :
  BudgetDB.add_category db n = (db1, Ok c) ->
  Py.is_nan amount = false ->
  ty = "income" \/ ty = "expense" ->
  (exists db2 id,
      BudgetDB.add_transaction db1 date amount description (Some c) ty = (db2, Ok id))
  /\ BudgetDB.add_transaction (fst (BudgetDB.delete_category db1 c))
       date amount description (Some c) ty
     = (fst (BudgetDB.delete_category db1 c), Raise (IntegrityError ForeignKeyFailed)).
Proof.
  intros Hadd Hnan Hty.
  assert (Hin : In c (map cat_id (categories db1))).
  { unfold BudgetDB.add_category in Hadd.
    destruct (existsb _ _); [discriminate|].
    injection Hadd as <- <-. simpl. rewrite map_app. apply in_or_app. right. now left. }
  apply type_allowed_iff in Hty.
  split.
  - unfold BudgetDB.add_transaction, bind_real_not_null.
    rewrite Hnan, Hty. simpl.
    apply category_known_iff in Hin. rewrite Hin. simpl.
    eexists. eexists. reflexivity.
  - unfold BudgetDB.add_transaction, bind_real_not_null.
    rewrite Hnan, Hty. simpl negb. cbv iota.
    assert (Hout : existsb (fun c0 => cat_id c0 =? c)
                           (categories (fst (BudgetDB.delete_category db1 c))) = false).
    { destruct (existsb _ _) eqn:E; [|reflexivity].
      apply category_known_iff in E. exfalso. revert E.
      unfold BudgetDB.delete_category. simpl. apply filter_negb_id_absent. }
    simpl in Hout. rewrite Hout. reflexivity.
Qed.

Lemma category_reference_lifecycle_witness :
  exists db2 id,
    BudgetDB.add_transaction food_db "2024-03-15" f42_5 "Groceries" (Some 1) "expense"
    = (db2, Ok id).
Proof.
  refine (proj1 (category_reference_lifecycle (BudgetDB.__init__ empty_database) food_db
                   "Food" 1 "2024-03-15" f42_5 "Groceries" "expense" _ _ _)).
  - reflexivity.
  - reflexivity.
  - now right.
Defined.

(** X20.  The summary of a month is empty, which [monthly_summary_flow]
    reports as no transactions found, exactly when no stored transaction
    has its date within the bounds of the month. *)
Theorem summary_empty_iff
    (real_sum : list sqlnum -> Py.float) (db : database) (y m : Z) :
  BudgetDB.monthly_summary real_sum db y m = []
  <-> forall t, In t (transactions db) -> BudgetDB.in_month y m t = false.
Proof.
  split.
  - intros Hnil t Ht. destruct (BudgetDB.in_month y m t) eqn:E; [|reflexivity].
    destruct (summary_has_key real_sum db y m t Ht E) as [inc [exp H]].
    rewrite Hnil in H. contradiction.
  - intro H. unfold BudgetDB.monthly_summary.
    rewrite filter_none by exact H. reflexivity.
Qed.

(** ** The flows that take filters *)

Lemma single_digit_text (n : Z) :
  1 <= n <= 9 ->
  exists d, Py.str_int n = String d EmptyString /\ Ascii.compare d "0" = Gt.
Proof.
  intro H.
  pose (P := fun z => (z =? 0)
                      || (match Py.str_int z with
                          | String d EmptyString =>
                              comparison_eqb (Ascii.compare d "0") Gt
                          | _ => false
                          end)).
  assert (Hb : P n = true)
    by (apply (upto_forallb P 10); [vm_compute; reflexivity | lia]).
  unfold P in Hb. apply orb_true_iff in Hb. destruct Hb as [Hb | Hb]; [lia|].
  destruct (Py.str_int n) as [|d [|? ?]]; try discriminate.
  exists d. split; [reflexivity | now apply comparison_eqb_eq].
Qed.

Lemma padded_month_text (n : Z) :
  1 <= n <= 9 -> exists d, Py.format_0d 2 n = String "0" (String d EmptyString).
Proof.
  intro H.
  pose (P := fun z => (z =? 0)
                      || (match Py.format_0d 2 z with
                          | String a (String d EmptyString) => Ascii.eqb a "0"
                          | _ => false
                          end)).
  assert (Hb : P n = true)
    by (apply (upto_forallb P 10); [vm_compute; reflexivity | lia]).
  unfold P in Hb. apply orb_true_iff in Hb. destruct Hb as [Hb | Hb]; [lia|].
  destruct (Py.format_0d 2 n) as [|a [|d [|? ?]]]; try discriminate.
  apply Ascii.eqb_eq in Hb. subst a. now exists d.
Qed.

Lemma unpadded_month_above_iso (Y M M' D' : Z) (tail : string) :
  1 <= Y <= 9999 -> 1 <= M <= 9 -> 1 <= M' <= 9 ->
  String.leb (Py.format_0d 4 Y ++ "-" ++ Py.str_int M ++ tail)
             (Date.isoformat Y M' D') = false.
Proof.
  intros HY HM HM'. unfold String.leb, Date.isoformat.
  rewrite string_compare_app by reflexivity.
  rewrite string_compare_refl.
  destruct (single_digit_text M HM) as [d [-> Hd]].
  destruct (padded_month_text M' HM') as [d' ->].
  simpl. now rewrite Hd.
Qed.

Section FilterFlowProperties.
Variable strptime : string -> option (Z * Z * Z).
Variable int_of_str : string -> option Z.

(** X21.  The listing flow checks a typed date with [strptime] and then
    filters with the text as typed: a start date typed with a one-digit
    month hides every transaction of the months January to September of
    that year, also those that come after the start date. *)
Theorem unpadded_start_date_hides_rows
    (db : database) (lines : filter_lines) (t : txn) (Y M M' D' : Z) (tail : string)
    (rows : list txn) (cats : list category) :
  1 <= Y <= 9999 -> 1 <= M <= 9 -> 1 <= M' <= 9 ->
  Flow.prompt (line_start lines) = (Py.format_0d 4 Y ++ "-" ++ Py.str_int M ++ tail)%string ->
  txn_date t = Date.isoformat Y M' D' ->
  FilterFlow.list_transactions_flow strptime int_of_str db lines = Shown rows cats ->
  ~ In t rows.
Proof.
  intros HY HM HM' Hstart Hdate Hflow Hin.
  unfold FilterFlow.list_transactions_flow in Hflow.
  destruct (_ && _); [|discriminate].
  injection Hflow as <- _.
  unfold BudgetDB.list_transactions in Hin.
  apply sort_by_In in Hin. apply filter_In in Hin. destruct Hin as [_ Hw].
  assert (Ht : Py.truthy_str (Py.format_0d 4 Y ++ "-" ++ Py.str_int M ++ tail) = true)
    by (destruct (Py.format_0d 4 Y); reflexivity).
  assert (Hs : FilterFlow.prompt_or_none (line_start lines)
               = Some (Py.format_0d 4 Y ++ "-" ++ Py.str_int M ++ tail)%string)
    by (unfold FilterFlow.prompt_or_none; now rewrite Hstart, Ht).
  rewrite Hs in Hw. unfold BudgetDB.where_clause in Hw.
  apply andb_true_iff in Hw. destruct Hw as [Hw _].
  apply andb_true_iff in Hw. destruct Hw as [_ Hw].
  unfold Py.truthy_opt_str in Hw. rewrite Ht in Hw.
  rewrite Hdate, (unpadded_month_above_iso Y M M' D' tail HY HM HM') in Hw.
  discriminate.
Qed.

Section ExportProperties.
Variable float_repr : Py.float -> string.

(** X22.  The export flow writes what the listing flow shows: for the same
    answers at the filter prompts, the file holds the header line and
    the lines of the rows the listing flow hands to
    [print_transactions], in that order; both refuse the same dates, and
    nothing is written then, nor for a blank file name (one of white
    space only, Unicode white space included).  The file is named by the
    answer without the white space around it, and read back by a CSV
    reader of the same dialect it gives the six header names, then the
    six stored values of each row shown, in that order. *)
Theorem export_flow_writes_what_listing_flow_shows
    (db : database) (fs : files) (line_filename : string) (lines : filter_lines) :
  (white line_filename ->
   FilterFlow.export_csv_flow strptime int_of_str float_repr db fs line_filename lines
   = (fs, NoFilename))
  /\ (~ white line_filename ->
      match FilterFlow.list_transactions_flow strptime int_of_str db lines with
      | Shown rows cats =>
          let r := FilterFlow.export_csv_flow strptime int_of_str float_repr
                     db fs line_filename lines in
          snd r = Exported (Py.strip line_filename)
          /\ fst r (Py.strip line_filename)
             = Some (header_line ++ data_lines float_repr rows)%string
          /\ (forall p, p <> Py.strip line_filename -> fst r p = fs p)
          /\ trimmed_of line_filename (Py.strip line_filename)
          /\ (exists content,
                fst r (Py.strip line_filename) = Some content
                /\ CsvReader.read content
                   = header_fields :: map (txn_fields float_repr) rows)
      | ListingRefused =>
          FilterFlow.export_csv_flow strptime int_of_str float_repr db fs line_filename lines
          = (fs, ExportRefused)
      end).
Proof.
  unfold FilterFlow.export_csv_flow, FilterFlow.list_transactions_flow, Flow.prompt.
  pose proof (strip_empty_iff line_filename) as Hiff.
  split.
  - intro Hb. apply Hiff in Hb. now rewrite Hb.
  - intro Hb.
    assert (Ht : Py.truthy_str (Py.strip line_filename) = true).
    { destruct (Py.strip line_filename); [|reflexivity].
      exfalso. apply Hb. now apply Hiff. }
    rewrite Ht. simpl negb. cbv iota.
    destruct (_ && _); [|reflexivity].
    cbv zeta. simpl fst. simpl snd.
    unfold BudgetDB.export_to_csv, write_file.
    rewrite String.eqb_refl.
    split; [reflexivity|].
    split; [now rewrite writerows_row_cells|].
    split; [intros p Hp; apply String.eqb_neq in Hp; now rewrite Hp|].
    split; [apply strip_trims|].
    eexists. split; [reflexivity | apply read_export].
Qed.
End ExportProperties.
End FilterFlowProperties.

Lemma unpadded_start_date_hides_rows_witness :
  ~ In (mkTxn 1 "2024-03-15" f42_5 "Groceries" (Some 1) "expense") [].
Proof.
  apply (unpadded_start_date_hides_rows Date.strptime_ymd sample_int groceries_db
           (mkFilterLines "" "2024-3-1" "")
           (mkTxn 1 "2024-03-15" f42_5 "Groceries" (Some 1) "expense")
           2024 3 3 15 "-1" [] (BudgetDB.list_categories groceries_db));
    try lia; vm_compute; reflexivity.
Defined.

(** ** The summary of a month against the calendar *)

Lemma date_compare_eq (y1 m1 d1 y2 m2 d2 : Z) :
  date_compare (y1, m1, d1) (y2, m2, d2) = Eq -> y1 = y2 /\ m1 = m2 /\ d1 = d2.
Proof.
  unfold date_compare.
  destruct (Z.compare_spec y1 y2); try discriminate.
  destruct (Z.compare_spec m1 m2); try discriminate.
  destruct (Z.compare_spec d1 d2); try discriminate. auto.
Qed.

Lemma day_listed (d : Z) : 1 <= d <= 31 -> In d (map Z.of_nat (seq 1 31)).
Proof.
  intro H. apply in_map_iff. exists (Z.to_nat d).
  split; [apply Z2Nat.id; lia | apply in_seq; lia].
Qed.

(** On ISO dates, and away from December 9999, the WHERE clause selects
    the transactions dated in the month. *)
Lemma in_month_dated (y m Y M D : Z) (t : txn) :
  1 <= y <= 9999 -> 1 <= m <= 12 -> (y, m) <> (9999, 12) ->
  Date.valid Y M D = true ->
  txn_date t = Date.isoformat Y M D ->
  BudgetDB.in_month y m t = dated_in y m t.
Proof.
  intros Hy Hm Hne Hvalid Hdate.
  destruct (in_month_calendar y m Y M D t Hy Hm Hne Hvalid Hdate) as [_ Hiff].
  assert (Hd : dated_in y m t = true <-> Y = y /\ M = m).
  { unfold dated_in. rewrite existsb_exists. split.
    - intros [d [_ Hd]]. apply andb_true_iff in Hd. destruct Hd as [Hv He].
      apply String.eqb_eq in He. rewrite Hdate in He.
      apply valid_bounds in Hvalid. apply valid_bounds in Hv.
      assert (Hc : String.compare (Date.isoformat Y M D) (Date.isoformat y m d) = Eq)
        by (rewrite He; apply string_compare_refl).
      rewrite isoformat_compare in Hc by lia.
      apply date_compare_eq in Hc. tauto.
    - intros [-> ->]. exists D. split.
      + apply day_listed. apply valid_bounds in Hvalid. lia.
      + now rewrite Hvalid, Hdate, String.eqb_refl. }
  destruct (BudgetDB.in_month y m t), (dated_in y m t); try reflexivity.
  - symmetry. apply Hd. now apply Hiff.
  - apply Hiff. now apply Hd.
Qed.

Lemma case_terms_nonzero (ty : string) (g : list txn) :
  filter (fun v => negb (is_zero v)) (map (BudgetDB.case_amount ty) g)
  = map (fun t => SqlReal (txn_amount t))
        (filter (fun t => String.eqb (txn_type t) ty) g).
Proof.
  induction g as [|t g IH]; [reflexivity|].
  cbn [map filter].
  replace (BudgetDB.case_amount ty t)
    with (if String.eqb (txn_type t) ty then SqlReal (txn_amount t) else SqlInt 0)
    by reflexivity.
  destruct (String.eqb (txn_type t) ty); cbn [is_zero negb map]; now rewrite IH.
Qed.

Lemma case_terms_int (ty : string) (g : list txn) :
  forallb is_int (map (BudgetDB.case_amount ty) g)
  = match filter (fun t => String.eqb (txn_type t) ty) g with
    | [] => true
    | _ :: _ => false
    end.
Proof.
  induction g as [|t g IH]; [reflexivity|].
  cbn [map filter forallb].
  replace (BudgetDB.case_amount ty t)
    with (if String.eqb (txn_type t) ty then SqlReal (txn_amount t) else SqlInt 0)
    by reflexivity.
  destruct (String.eqb (txn_type t) ty); cbn [is_int andb]; [reflexivity | exact IH].
Qed.

(** The SUM over the CASE terms of a group is the total of the type,
    when the integer 0 of the other rows adds nothing to a REAL sum. *)
Lemma sql_sum_type_total (real_sum : list sqlnum -> Py.float) (ty : string) (g : list txn) :
  (forall terms, real_sum terms = real_sum (filter (fun v => negb (is_zero v)) terms)) ->
  BudgetDB.sql_sum real_sum (map (BudgetDB.case_amount ty) g) = type_total real_sum ty g.
Proof.
  intro Hzero. unfold type_total.
  destruct (filter (fun t => String.eqb (txn_type t) ty) g) as [|u rows] eqn:E.
  - apply sql_sum_no_match. intros t Ht Hty.
    assert (Hin : In t (filter (fun t => String.eqb (txn_type t) ty) g))
      by (apply filter_In; split; [exact Ht | now apply String.eqb_eq]).
    rewrite E in Hin. contradiction.
  - unfold BudgetDB.sql_sum. rewrite case_terms_int, E.
    now rewrite Hzero, case_terms_nonzero, E.
Qed.

Lemma sum_left_zero (terms : list sqlnum) :
  sum_left terms = sum_left (filter (fun v => negb (is_zero v)) terms).
Proof.
  unfold sum_left. generalize Py.float_zero.
  induction terms as [|v terms IH]; intro acc; [reflexivity|].
  destruct v as [[|p|p]|x]; simpl; apply IH.
Qed.

Lemma sum_left_one (x : Py.float) :
  x <> S754_zero true -> sum_left [SqlReal x] = x.
Proof.
  intro H. destruct x as [[|]| | |]; try reflexivity. now contradiction H.
Qed.

(** X23.  For a year from 1 to 9999 and a month other than December
    9999, over a store whose dates are ISO dates, [monthly_summary]
    groups the transactions dated in that month of the calendar by
    resolved category name: no name twice, a row for a name exactly when
    a transaction of the month resolves to it, the transactions without
    a category, or with one that matches no category row, in the one
    group keyed NULL; no group is empty, and no transaction of the month
    leaves the summary empty.  When the integer 0 of [ELSE 0] adds
    nothing to a REAL sum, the totals of a row are the sums of the
    amounts of the income rows and of the expense rows of its group, the
    integer 0 when there is none; when moreover the sum of one amount is
    that amount, a group with a single row of a type has its amount as
    total. *)
Theorem monthly_summary_groups_calendar_month
    (real_sum : list sqlnum -> Py.float) (db : database) (y m : Z) :
  (forall terms, real_sum terms = real_sum (filter (fun v => negb (is_zero v)) terms)) ->
  (forall x, x <> S754_zero true -> real_sum [SqlReal x] = x) ->
  1 <= y <= 9999 -> 1 <= m <= 12 -> (y, m) <> (9999, 12) ->
  (forall t, In t (transactions db) ->
     exists Y M D, Date.valid Y M D = true /\ txn_date t = Date.isoformat Y M D) ->
  let cats := categories db in
  let rows := filter (dated_in y m) (transactions db) in
  let summary := BudgetDB.monthly_summary real_sum db y m in
  groups_month real_sum db y m summary
  /\ (forall t, In t rows <-> In t (transactions db)
                            /\ exists d, Date.valid y m d = true
                                         /\ txn_date t = Date.isoformat y m d)
  /\ (forall t, joined_name cats t = None
                <-> txn_category_id t = None
                    \/ exists c, txn_category_id t = Some c
                                 /\ forall cat, In cat cats -> cat_id cat <> c)
  /\ (forall t n, joined_name cats t = Some n ->
        exists cat, In cat cats /\ txn_category_id t = Some (cat_id cat) /\ cat_name cat = n)
  /\ (forall k inc exp, In (k, inc, exp) summary ->
        let g := filter (fun t => key_eqb (joined_name cats t) k) rows in
        g <> []
        /\ (forall t, In t g <-> In t rows /\ joined_name cats t = k)
        /\ (forall t, filter (fun u => String.eqb (txn_type u) "income") g = [t] ->
                      txn_amount t <> S754_zero true -> inc = SqlReal (txn_amount t))
        /\ (forall t, filter (fun u => String.eqb (txn_type u) "expense") g = [t] ->
                      txn_amount t <> S754_zero true -> exp = SqlReal (txn_amount t)))
  /\ (rows = [] <-> summary = []).
Proof.
  intros Hzero Hone Hy Hm Hne Hdates. cbv zeta.
  set (cats := categories db).
  assert (Hrows : filter (BudgetDB.in_month y m) (transactions db)
                  = filter (dated_in y m) (transactions db)).
  { apply filter_ext_in. intros t Ht.
    destruct (Hdates t Ht) as [Y [M [D [Hv Hd]]]].
    now apply (in_month_dated y m Y M D). }
  set (rows := filter (dated_in y m) (transactions db)) in *.
  assert (Hkeys : forall k,
             In k (map (fun r => fst (fst r)) (BudgetDB.monthly_summary real_sum db y m))
             <-> exists t, In t rows /\ joined_name cats t = k).
  { intro k. rewrite summary_keys, Hrows, sort_by_In, dedup_keys_In, in_map_iff.
    fold cats. split; intros [t [H1 H2]]; exists t; tauto. }
  assert (Hgroup : forall k t,
             In t (filter (fun t => key_eqb (joined_name cats t) k) rows)
             <-> In t rows /\ joined_name cats t = k).
  { intros k t. rewrite filter_In, key_eqb_eq. reflexivity. }
  assert (Htotals : forall k inc exp,
             In (k, inc, exp) (BudgetDB.monthly_summary real_sum db y m) ->
             inc = type_total real_sum "income"
                     (filter (fun t => key_eqb (joined_name cats t) k) rows)
             /\ exp = type_total real_sum "expense"
                        (filter (fun t => key_eqb (joined_name cats t) k) rows)).
  { intros k inc exp Hin. unfold BudgetDB.monthly_summary in Hin.
    apply in_map_iff in Hin. destruct Hin as [k' [Heq _]].
    injection Heq as -> Hinc Hexp.
    unfold BudgetDB.group_rows in Hinc, Hexp. rewrite Hrows in Hinc, Hexp.
    fold cats in Hinc, Hexp.
    rewrite sql_sum_type_total in Hinc, Hexp by exact Hzero.
    split; now symmetry. }
  split.
  { unfold groups_month. cbv zeta. fold rows cats.
    split; [|split; [exact Hkeys | exact Htotals]].
    rewrite summary_keys.
    eapply Permutation_NoDup; [symmetry; apply sort_by_perm | apply dedup_keys_NoDup]. }
  split.
  { intro t. unfold rows. rewrite filter_In. unfold dated_in. rewrite existsb_exists.
    split; intros [Ht H]; (split; [exact Ht|]).
    - destruct H as [d [_ H]]. apply andb_true_iff in H. destruct H as [Hv He].
      apply String.eqb_eq in He. now exists d.
    - destruct H as [d [Hv He]]. exists d.
      split; [apply day_listed; apply valid_bounds in Hv; lia|].
      now rewrite Hv, He, String.eqb_refl. }
  split; [intro t; apply joined_name_null|].
  split; [intros t n; apply joined_name_some|].
  split.
  { intros k inc exp Hin.
    destruct (Htotals k inc exp Hin) as [Hinc Hexp].
    assert (Hk : In k (map (fun r => fst (fst r))
                           (BudgetDB.monthly_summary real_sum db y m))).
    { apply in_map_iff. exists (k, inc, exp). split; [reflexivity | exact Hin]. }
    apply Hkeys in Hk. destruct Hk as [t [Ht Hn]].
    split.
    { intro Hnil.
      assert (Hg : In t (filter (fun t => key_eqb (joined_name cats t) k) rows))
        by (apply Hgroup; tauto).
      rewrite Hnil in Hg. contradiction. }
    split; [intro u; apply Hgroup|].
    split; intros u Hu Hnz.
    - rewrite Hinc. unfold type_total. rewrite Hu. simpl. now rewrite Hone.
    - rewrite Hexp. unfold type_total. rewrite Hu. simpl. now rewrite Hone. }
  split.
  - intro Hnil. unfold BudgetDB.monthly_summary. rewrite Hrows. fold rows.
    rewrite Hnil. reflexivity.
  - intro Hnil. destruct rows as [|t rows'] eqn:E; [reflexivity|]. exfalso.
    assert (Hk : In (joined_name cats t)
                    (map (fun r => fst (fst r))
                         (BudgetDB.monthly_summary real_sum db y m))).
    { apply Hkeys. exists t. split; [now left | reflexivity]. }
    rewrite Hnil in Hk. contradiction.
Qed.

Lemma monthly_summary_groups_calendar_month_witness :
  groups_month sum_left groceries_db 2024 3
    (BudgetDB.monthly_summary sum_left groceries_db 2024 3)
  /\ BudgetDB.monthly_summary sum_left groceries_db 2024 3
     = [(Some "Food", SqlInt 0, SqlReal f42_5)].
Proof.
  split; [|vm_compute; reflexivity].
  refine (proj1 (monthly_summary_groups_calendar_month sum_left groceries_db 2024 3
                   sum_left_zero sum_left_one _ _ _ _)); try lia.
  - congruence.
  - intros t [<- | []]. exists 2024, 3, 15. split; reflexivity.
Defined.
